(** * Task Master: the unified AI service layer

    A shallow embedding of [scripts/modules/ai-services-unified.js] (the
    retry executor, the unified service runner, the three service facades
    and the telemetry recorder), of [generateOpenAIObject] from
    [src/ai-providers/openai.js] and of [cleanJsonSchema] from the PRD
    parser, followed by the properties the specification states of them
    (Part II; the one about tool-use errors is stated in Part III, with
    the run of the object adapter that it needs).  Part III goes further
    into the same code: the text and stream functions of the adapter, the
    numbering of the tasks that the PRD parser writes, and [setModel] of
    the model manager, with properties read off the code.

    Conventions of the embedding.
    - JavaScript values are the type [JsVal]; numbers occurring in
      schemas, task ids and token counts are integers.  The numbers of the
      cost computation are binary64 values, each written as the rational
      it denotes: every operation rounds to the nearest binary64 value,
      ties to even ([binary64]).  The sum that yields the first new task
      id is rounded in the same way.  Infinities, NaN and the sign of zero
      are not represented; the properties about costs are stated for
      token counts and prices of magnitude at most 2^53, where no
      operation overflows, and the property about appended tasks for ids
      below 2^53.
    - Strings are sequences of 8-bit characters; [toLowerCase] folds the
      letters A-Z only.
    - An [async] function is a computation in the monad [M]: it threads the
      trace of observable events (provider invocations, back-off sleeps,
      log lines) and ends in a returned value, a thrown value, or --
      for the fuel-bounded loop only -- [Diverge].
    - [log] (utils.js) returns nothing and is assumed not to throw; only
      the log lines the properties below speak about are recorded.
    - Functions of [config-manager.js] and [utils.js] are not part of the
      sources embedded here and are taken as parameters (records
      [ConfigManager], [Host]). *)

From Stdlib Require Import ZArith QArith Qround Qabs Qpower Lia Lqa Ascii String.
From stdpp Require Import base option list strings pretty gmap.

Close Scope Q_scope.
Open Scope string_scope.
Open Scope list_scope.
Open Scope nat_scope.

(* ================================================================== *)
(** * Part I. The model                                                *)
(* ================================================================== *)

(** ** JavaScript values *)

#[local] Unset Elimination Schemes.
Inductive JsVal : Type :=
| VUndef
| VNull
| VBool (b : bool)
| VNum (n : Z)
| VStr (s : string)
| VArr (items : list JsVal)
| VObj (fields : list (string * JsVal)).
#[local] Set Elimination Schemes.

(** [VObj fields] lists the own enumerable properties of an object in
    enumeration order. *)

(** ToBoolean *)
Definition truthy (v : JsVal) : bool :=
  match v with
  | VUndef | VNull => false
  | VBool b => b
  | VNum n => negb (n =? 0)%Z
  | VStr s => negb (s =? "")%string
  | VArr _ | VObj _ => true
  end.

(** [typeof v === 'object' && v !== null] *)
Definition is_object (v : JsVal) : bool :=
  match v with
  | VArr _ | VObj _ => true
  | _ => false
  end.

(** [o?.[key]] on an object literal *)
Fixpoint assoc (key : string) (fields : list (string * JsVal)) : JsVal :=
  match fields with
  | [] => VUndef
  | (k, v) :: rest => if (k =? key)%string then v else assoc key rest
  end.

Definition get (key : string) (v : JsVal) : JsVal :=
  match v with
  | VObj fields => assoc key fields
  | _ => VUndef
  end.

(** A string, or [undefined] *)
Definition opt_str (o : option string) : JsVal :=
  match o with
  | Some s => VStr s
  | None => VUndef
  end.

Definition str_truthy (o : option string) : bool := truthy (opt_str o).

(** ** Strings *)

Definition lower_ascii (c : ascii) : ascii :=
  let n := Ascii.nat_of_ascii c in
  if (65 <=? n) && (n <=? 90) then Ascii.ascii_of_nat (n + 32) else c.

Fixpoint toLowerCase (s : string) : string :=
  match s with
  | EmptyString => EmptyString
  | String c rest => String (lower_ascii c) (toLowerCase rest)
  end.

(** [haystack.includes(needle)] *)
Fixpoint includes (haystack needle : string) : bool :=
  String.prefix needle haystack ||
  match haystack with
  | EmptyString => false
  | String _ rest => includes rest needle
  end.

(** ** Thrown values *)

(** The fields of a thrown object that the service layer inspects.
    [new Error(m)] has only [message]. *)
Record ErrorObject : Type := mkErrorObject {
  message : option string;            (* error.message *)
  status : option Z;                  (* error.status *)
  data_error_message : option string; (* error.data.error.message *)
  error_message : option string;      (* error.error.message *)
  responseBody : option string        (* error.responseBody, when a string *)
}.

Inductive Thrown : Type :=
| ThrownObject (e : ErrorObject)
| ThrownString (s : string).

Definition Error (m : string) : Thrown :=
  ThrownObject (mkErrorObject (Some m) None None None None).

Definition thrown_message (error : Thrown) : option string :=
  match error with
  | ThrownObject e => message e
  | ThrownString _ => None
  end.

Definition thrown_status (error : Thrown) : option Z :=
  match error with
  | ThrownObject e => status e
  | ThrownString _ => None
  end.

(** ** Computations *)

Abbreviation CallParams := (gmap string JsVal).

(** What a provider call hands back: [{text, object, usage}]; a stream
    handle is an opaque number. *)
Record Usage : Type := mkUsage {
  inputTokens : option Z;
  outputTokens : option Z
}.

Record ProviderResponse : Type := mkResponse {
  text : JsVal;
  object : JsVal;
  usage : option Usage;
  stream : option nat
}.

(** A settled promise *)
Inductive Settled (A : Type) : Type :=
| Fulfilled (a : A)
| Rejected (e : Thrown).
Arguments Fulfilled {A} a.
Arguments Rejected {A} e.

(** A provider function: its answer may depend on the request and on how
    many provider invocations happened before (the network is not a
    function of the request alone). *)
Definition ProviderFn : Type := CallParams -> nat -> Settled ProviderResponse.

Inductive Event : Type :=
| EvCall (callParams : CallParams)
| EvSleep (ms : Z)
| EvLog (level msg : string).

Definition is_call (ev : Event) : bool :=
  match ev with
  | EvCall _ => true
  | _ => false
  end.

(** Number of provider-function invocations recorded in a trace *)
Definition invocations (tr : list Event) : nat :=
  length (filter (fun ev => is_call ev = true) tr).

Inductive Outcome (A : Type) : Type :=
| Return (a : A)
| Throw (e : Thrown)
| Diverge.
Arguments Return {A} a.
Arguments Throw {A} e.
Arguments Diverge {A}.

Definition M (A : Type) : Type := list Event -> Outcome A * list Event.

#[global] Instance M_ret : MRet M := fun A a tr => (Return a, tr).

#[global] Instance M_bind : MBind M := fun A B k m tr =>
  match m tr with
  | (Return a, tr') => k a tr'
  | (Throw e, tr') => (Throw e, tr')
  | (Diverge, tr') => (Diverge, tr')
  end.

Definition throw {A : Type} (e : Thrown) : M A := fun tr => (Throw e, tr).

Definition diverge {A : Type} : M A := fun tr => (Diverge, tr).

(** [try { m } catch (e) { h e }] *)
Definition try_catch {A : Type} (m : M A) (h : Thrown -> M A) : M A := fun tr =>
  match m tr with
  | (Throw e, tr') => h e tr'
  | r => r
  end.

Definition emit (ev : Event) : M unit := fun tr => (Return tt, tr ++ [ev]).

(** [await providerApiFn(callParams)] *)
Definition call (providerApiFn : ProviderFn) (callParams : CallParams) : M ProviderResponse :=
  fun tr =>
    match providerApiFn callParams (invocations tr) with
    | Fulfilled r => (Return r, tr ++ [EvCall callParams])
    | Rejected e => (Throw e, tr ++ [EvCall callParams])
    end.

(** [await] of an already settled promise *)
Definition settle {A : Type} (p : Settled A) : M A := fun tr =>
  match p with
  | Fulfilled a => (Return a, tr)
  | Rejected e => (Throw e, tr)
  end.

(** Running a computation from the empty trace *)
Definition run {A : Type} (m : M A) : Outcome A * list Event := m [].

(** ** Collaborators outside the embedded sources *)

Record RoleParams : Type := mkRoleParams {
  maxTokens : JsVal;
  temperature : JsVal
}.

(** One entry of the static pricing table [MODEL_MAP]; the prices are the
    numbers that the imported JSON table holds, binary64 values. *)
Module Pricing.
Record t : Type := mk {
  input : option Q;
  output : option Q;
  currency : option string
}.
End Pricing.

Record ModelData : Type := mkModelData {
  id : string;
  cost_per_1m_tokens : option Pricing.t
}.

(** [MODEL_MAP[providerName]]: an array of models, or some other truthy
    value (on which [.find] is not a function). *)
Inductive ProviderModels : Type :=
| ModelList (models : list ModelData)
| NotAnArray.

(** config-manager.js.  Every getter takes the effective project root. *)
Record ConfigManager : Type := mkConfigManager {
  getMainProvider : option string -> option string;
  getMainModelId : option string -> option string;
  getResearchProvider : option string -> option string;
  getResearchModelId : option string -> option string;
  getFallbackProvider : option string -> option string;
  getFallbackModelId : option string -> option string;
  getParametersForRole : string -> option string -> RoleParams;
  getBaseUrlForRole : string -> option string -> JsVal;
  getUserId : option string -> option string;
  getDebugFlag : bool;                 (* gates diagnostic log lines only *)
  MODEL_MAP : option (gmap string ProviderModels)
}.

(** [session?.env] *)
Record Session : Type := mkSession {
  env : gmap string string
}.

(** The process the service runs in: utils.js [findProjectRoot], the
    process environment, the [.env] file of a project root, the clock and
    [JSON.parse] (rejected with the SyntaxError it throws). *)
Record Host : Type := mkHost {
  findProjectRoot : option string;
  processEnv : gmap string string;
  dotEnv : option string -> gmap string string;
  now : string;
  JSON_parse : string -> Settled JsVal
}.

(** [a || b] on optional strings *)
Definition or_else (a b : option string) : option string :=
  if str_truthy a then a else b.

(** Modelled from the spec: [resolveEnvVariable] of utils.js is not among
    the sources.  The specification (4.2, 6) describes it as an ordered
    fallback chain: the session-scoped override, then the process
    environment, then the project-local [.env] file; the first value that
    is set wins, and nothing is returned when none is. *)
Definition resolveEnvVariable (host : Host) (key : string)
    (session : option Session) (projectRoot : option string) : option string :=
  or_else (session ≫= fun s => env s !! key)
    (or_else (processEnv host !! key) (dotEnv host projectRoot !! key)).

(** ** Retry executor *)

Definition MAX_RETRIES : nat := 2.
Definition INITIAL_RETRY_DELAY_MS : Z := 1000.

Definition retryable_phrases : list string :=
  ["rate limit"; "overloaded"; "service temporarily unavailable"; "timeout";
   "network error"].

Definition isRetryableError (error : Thrown) : bool :=
  let errorMessage := toLowerCase (default "" (thrown_message error)) in
  includes errorMessage "rate limit" ||
  includes errorMessage "overloaded" ||
  includes errorMessage "service temporarily unavailable" ||
  includes errorMessage "timeout" ||
  includes errorMessage "network error" ||
  match thrown_status error with
  | Some st => (st =? 429)%Z || (500 <=? st)%Z
  | None => false
  end.

(** The [while (retries <= MAX_RETRIES)] loop; [fuel] bounds the number of
    iterations the model may unfold. *)
Fixpoint retry_loop (fuel : nat) (providerApiFn : ProviderFn) (callParams : CallParams)
    (fnName providerName attemptRole : string) (retries : nat) : M ProviderResponse :=
  match fuel with
  | O => diverge
  | S fuel' =>
    if retries <=? MAX_RETRIES then
      try_catch (call providerApiFn callParams)
        (fun error =>
           if isRetryableError error && (retries <? MAX_RETRIES) then
             let retries := S retries in
             let delay := (INITIAL_RETRY_DELAY_MS * 2 ^ Z.of_nat (retries - 1))%Z in
             _ ← emit (EvSleep delay);
             retry_loop fuel' providerApiFn callParams fnName providerName attemptRole retries
           else throw error)
    else
      throw (Error ("Exhausted all retries for role " +:+ attemptRole +:+ " (" +:+
                    fnName +:+ " / " +:+ providerName +:+ ")"))
  end.

Definition _attemptProviderCallWithRetries (providerApiFn : ProviderFn)
    (callParams : CallParams) (fnName providerName modelId attemptRole : string)
    : M ProviderResponse :=
  retry_loop (S (S MAX_RETRIES)) providerApiFn callParams fnName providerName attemptRole 0.

(** ** Error message extraction *)

(** [String(v)], as template literals and [new Error(v)] compute it *)
Fixpoint js_to_string (v : JsVal) : string :=
  match v with
  | VUndef => "undefined"
  | VNull => "null"
  | VBool true => "true"
  | VBool false => "false"
  | VNum n => pretty n
  | VStr s => s
  | VArr items =>
    String.concat ","
      (map (fun item => match item with
                        | VUndef | VNull => ""
                        | _ => js_to_string item
                        end) items)
  | VObj _ => "[object Object]"
  end.

(** Attempt 3 of [_extractErrorMessage]: [JSON.parse(error.responseBody)]
    and its [error.message], when there is one (read as a string). *)
Definition responseBody_message (host : Host) (e : ErrorObject) : option string :=
  match JSON_parse host <$> responseBody e with
  | Some (Fulfilled body) =>
    let m := get "message" (get "error" body) in
    if truthy m then Some (js_to_string m) else None
  | _ => None
  end.

(** The thrown objects this model ranges over have no throwing accessors, so
    the function's outer safety net is never entered. *)
Definition _extractErrorMessage (host : Host) (error : Thrown) : string :=
  match error with
  | ThrownObject e =>
    if str_truthy (data_error_message e) then default "" (data_error_message e)
    else if str_truthy (error_message e) then default "" (error_message e)
    else match responseBody_message host e with
         | Some m => m
         | None =>
           if str_truthy (message e) then default "" (message e)
           else "An unknown AI service error occurred."
         end
  | ThrownString s => s
  end.

(** ** Credential resolution *)

Definition keyMap : gmap string string := {[ "openai" := "OPENAI_API_KEY" ]}.

Definition _resolveApiKey (host : Host) (providerName : string)
    (session : option Session) (projectRoot : option string) : M (option string) :=
  let envVarName := keyMap !! providerName in
  if negb (str_truthy envVarName) then
    if (providerName =? "ollama")%string then mret (Some "ollama-no-key-required")
    else throw (Error ("Unknown provider '" +:+ providerName +:+
                       "' for API key resolution."))
  else
    let apiKey := resolveEnvVariable host (default "" envVarName) session projectRoot in
    if negb (str_truthy apiKey) then
      _ ← emit (EvLog "warn" ("API key " +:+ default "" envVarName +:+ " for provider '" +:+
                              providerName +:+ "' is not set. Skipping this provider."));
      mret None
    else mret apiKey.

(** ** Telemetry recorder *)

Record CostInfo : Type := mkCostInfo {
  inputCost : Q;
  outputCost : Q;
  currency : string
}.

(** [x || 0] *)
Definition or_zero (x : option Q) : Q := default 0%Q x.

(** [TypeError] raised by [.find] on a table entry that is not an array *)
Definition find_is_not_a_function : Thrown :=
  Error "MODEL_MAP[providerName].find is not a function".

Definition _getCostForModel (cm : ConfigManager) (providerName modelId : string)
    : Settled CostInfo :=
  match MODEL_MAP cm ≫= fun table => table !! providerName with
  | None => Fulfilled (mkCostInfo 0 0 "USD")
  | Some NotAnArray => Rejected find_is_not_a_function
  | Some (ModelList models) =>
    match find (fun m => (id m =? modelId)%string) models ≫= cost_per_1m_tokens with
    | None => Fulfilled (mkCostInfo 0 0 "USD")
    | Some cost =>
      let currency := default "USD" (or_else (Pricing.currency cost) (Some "USD")) in
      Fulfilled (mkCostInfo (or_zero (Pricing.input cost)) (or_zero (Pricing.output cost))
                            currency)
    end
  end.

(** *** Binary64 arithmetic *)

(** The integer part of the binary logarithm of a rational other than 0 *)
Definition Qlog2 (x : Q) : Z :=
  let e := (Z.log2 (Z.abs (Qnum x)) - Z.log2 (Z.pos (Qden x)))%Z in
  if Qle_bool (2 ^ e) (Qabs x) then e else (e - 1)%Z.

(** The nearest integer, ties to the even one *)
Definition round_half_even (x : Q) : Z :=
  let f := Qfloor x in
  match Qcompare (x - inject_Z f) (1 # 2) with
  | Lt => f
  | Gt => (f + 1)%Z
  | Eq => if Z.even f then f else (f + 1)%Z
  end.

(** The binary64 value nearest to a real number, ties to even: 53
    significant bits, the unit in the last place never below 2^-1074
    (subnormal numbers).  The result is in lowest terms. *)
Definition binary64 (x : Q) : Q :=
  if (Qnum x =? 0)%Z then 0%Q
  else
    let q := Z.max (Qlog2 x - 52) (-1074) in
    Qred (inject_Z (round_half_even (x / 2 ^ q)) * 2 ^ q)%Q.

(** [a / b], [a * b] and [a + b] on numbers *)
Definition js_div (a b : Q) : Q := binary64 (a / b)%Q.
Definition js_mul (a b : Q) : Q := binary64 (a * b)%Q.
Definition js_add (a b : Q) : Q := binary64 (a + b)%Q.

(** [a + b] on integers *)
Definition js_add_int (a b : Z) : Z := Qfloor (binary64 (inject_Z (a + b))).

(** The decimal that [x.toFixed(6)] prints for a number below 10^21: the
    multiple of 10^-6 nearest to [x], ties away from zero. *)
Definition toFixed6 (x : Q) : Q :=
  let n := Qfloor (Qabs x * 1000000 + (1 # 2))%Q in
  let r := Qred (inject_Z n / 1000000)%Q in
  if Qle_bool 0 x then r else Qred (- r)%Q.

(** [parseFloat(x.toFixed(6))]: from 10^21 on [toFixed] prints the number
    itself, in exponent form. *)
Definition parseFloat_toFixed6 (x : Q) : Q :=
  if Qle_bool (10 ^ 21) (Qabs x) then x else binary64 (toFixed6 x).

Module Telemetry.
Record t : Type := mk {
  timestamp : string;
  userId : string;
  commandName : option string;
  modelUsed : string;
  providerName : string;
  inputTokens : Z;
  outputTokens : Z;
  totalTokens : Z;
  totalCost : Q;
  currency : string
}.
End Telemetry.

(** The record is built inside [try]; the debug-gated line that prints it
    is not recorded. *)
Definition logAiUsage (cm : ConfigManager) (host : Host)
    (userId : string) (commandName : option string) (providerName modelId : string)
    (inputTokens outputTokens : option Z) (outputType : option string)
    : M (option Telemetry.t) :=
  try_catch
    (let timestamp := now host in
     let totalTokens := js_add_int (default 0%Z inputTokens) (default 0%Z outputTokens) in
     cost ← settle (_getCostForModel cm providerName modelId);
     let totalCost :=
       js_add
         (js_mul (js_div (inject_Z (default 0%Z inputTokens)) 1000000) (inputCost cost))
         (js_mul (js_div (inject_Z (default 0%Z outputTokens)) 1000000) (outputCost cost))
     in
     let telemetryData :=
       Telemetry.mk timestamp userId commandName modelId providerName
         (default 0%Z inputTokens) (default 0%Z outputTokens) totalTokens
         (parseFloat_toFixed6 totalCost) (currency cost) in
     mret (Some telemetryData))
    (fun error =>
       _ ← emit (EvLog "error" ("Failed to log AI usage telemetry: " +:+
                                js_to_string (opt_str (thrown_message error))));
       mret None).

(** ** Unified service runner *)

Inductive ServiceType : Type :=
| generateText
| streamText
| generateObject.

(** The set of functions a provider module exports, keyed by service type *)
Record ProviderFnSet : Type := mkProviderFnSet {
  fn_generateText : ProviderFn;
  fn_streamText : ProviderFn;
  fn_generateObject : ProviderFn
}.

(** Only own properties of the object literal are looked up; a provider
    named after an inherited property (such as "constructor") fails one
    check later in the source, and here at the provider lookup. *)
Definition PROVIDER_FUNCTIONS (openai : ProviderFnSet) : gmap string ProviderFnSet :=
  {[ "openai" := openai ]}.

(** [providerFnSet[serviceType]] *)
Definition select_fn (providerFnSet : ProviderFnSet) (serviceType : ServiceType)
    : ProviderFn :=
  match serviceType with
  | generateText => fn_generateText providerFnSet
  | streamText => fn_streamText providerFnSet
  | generateObject => fn_generateObject providerFnSet
  end.

(** [providerApiFn.name] *)
Definition fn_name (serviceType : ServiceType) : string :=
  match serviceType with
  | generateText => "generateOpenAIText"
  | streamText => "streamOpenAIText"
  | generateObject => "generateOpenAIObject"
  end.

(** An optional string property of a parameter object, for the two
    properties that have a default: [None] when the object has no such own
    property, [Some None] for an own property whose value is [undefined]. *)
Abbreviation OwnProperty := (option (option string)).

(** What reading the property gives *)
Definition own_value (property : OwnProperty) : option string :=
  match property with
  | Some v => v
  | None => None
  end.

(** The parameter object of a service call: the destructured properties,
    and every other own property ([restApiParams]). *)
Record Params : Type := mkParams {
  role : string;
  session : option Session;
  projectRoot : option string;
  systemPrompt : option string;
  prompt : option string;
  schema : JsVal;
  objectName : OwnProperty;
  commandName : option string;
  outputType : OwnProperty;
  restApiParams : gmap string JsVal
}.

Definition destructured_keys : list string :=
  ["role"; "session"; "projectRoot"; "systemPrompt"; "prompt"; "schema";
   "objectName"; "commandName"; "outputType"].

(** The rest pattern never holds a destructured key. *)
Definition rest_of (params : Params) : gmap string JsVal :=
  foldr delete (restApiParams params) destructured_keys.

Inductive MainResult : Type :=
| Payload (v : JsVal)
| WholeResponse (r : ProviderResponse).

Record ServiceResult : Type := mkServiceResult {
  mainResult : MainResult;
  telemetryData : option Telemetry.t
}.

(** The chain [if (serviceType === 'generateText') ... else ...] that every
    success branch of the runner repeats. *)
Definition finalMainResult (serviceType : ServiceType) (providerResponse : ProviderResponse)
    : MainResult :=
  match serviceType with
  | generateText => Payload (text providerResponse)
  | generateObject => Payload (object providerResponse)
  | streamText => WholeResponse providerResponse
  end.

Definition message_obj (r content : string) : JsVal :=
  VObj [("role", VStr r); ("content", VStr content)].


Definition reports_no_tool_use (lowerCaseMessage : string) : bool :=
  includes lowerCaseMessage "no endpoints found that support tool use" ||
  includes lowerCaseMessage "does not support tool_use" ||
  includes lowerCaseMessage "tool use is not supported" ||
  includes lowerCaseMessage "tools are not supported" ||
  includes lowerCaseMessage "function calling is not supported".

(** [s || 'unknown'] *)
Definition or_unknown (s : option string) : string :=
  default "unknown" (or_else s (Some "unknown")).

Definition specificErrorMsg (modelId providerName : option string) (initialRole : string)
    : string :=
  "Model '" +:+ or_unknown modelId +:+ "' via provider '" +:+ or_unknown providerName +:+
  "' does not support the 'tool use' required by generateObjectService. Please configure a model that supports tool/function calling for the '" +:+
  initialRole +:+
  "' role, or use generateTextService if structured output is not strictly required.".

(** The type of the telemetry recorder the runner calls *)
Definition Recorder : Type :=
  string -> option string -> string -> string -> option Z -> option Z -> option string ->
  M (option Telemetry.t).

Definition build_callParams (serviceType : ServiceType) (params : Params)
    (apiKey modelId : string) (roleParams : RoleParams) (messages : list JsVal)
    (baseUrl : JsVal) : CallParams :=
  let common : CallParams :=
    <["apiKey" := VStr apiKey]> (<["modelId" := VStr modelId]>
    (<["maxTokens" := maxTokens roleParams]> (<["temperature" := temperature roleParams]>
    (<["messages" := VArr messages]> (<["baseUrl" := baseUrl]> ∅))))) in
  let with_schema : CallParams :=
    match serviceType with
    | generateObject =>
      <["objectName" := opt_str (own_value (objectName params))]>
        (<["schema" := schema params]> common)
    | _ => common
    end in
  (* ...restApiParams comes last and wins *)
  rest_of params ∪ with_schema.

Section Runner.

Variable cm : ConfigManager.
Variable host : Host.
Variable openai : ProviderFnSet.

(** The [switch (initialRole)] that picks provider and model *)
Definition role_switch (initialRole : string) (effectiveProjectRoot : option string)
    : M (option string * option string) :=
  if (initialRole =? "main")%string then
    mret (getMainProvider cm effectiveProjectRoot, getMainModelId cm effectiveProjectRoot)
  else if (initialRole =? "research")%string then
    mret (getResearchProvider cm effectiveProjectRoot,
          getResearchModelId cm effectiveProjectRoot)
  else if (initialRole =? "fallback")%string then
    mret (getFallbackProvider cm effectiveProjectRoot,
          getFallbackModelId cm effectiveProjectRoot)
  else
    _ ← emit (EvLog "error" ("Unknown role: " +:+ initialRole +:+ ". Defaulting to main."));
    mret (getMainProvider cm effectiveProjectRoot, getMainModelId cm effectiveProjectRoot).

(** The [catch (error)] block that closes the runner *)
Definition runner_catch (serviceType : ServiceType) (initialRole : string)
    (providerName modelId : option string) (error : Thrown) : M ServiceResult :=
  let cleanMessage := _extractErrorMessage host error in
  match serviceType with
  | generateObject =>
    let lowerCaseMessage := toLowerCase cleanMessage in
    if reports_no_tool_use lowerCaseMessage then
      throw (Error (specificErrorMsg modelId providerName initialRole))
    else throw (Error cleanMessage)
  | _ => throw (Error cleanMessage)
  end.

(** Telemetry and result extraction, once the provider has answered: the
    chain [if (userId && providerResponse && providerResponse.usage) ...
    else if (userId && providerResponse && !providerResponse.usage) ...
    else ...]. *)
Definition runner_success (recorder : Recorder) (serviceType : ServiceType)
    (params : Params) (userId : option string) (providerName modelId : string)
    (providerResponse : ProviderResponse) : M ServiceResult :=
  match usage providerResponse with
  | Some u =>
    if str_truthy userId then
      try_catch
        (telemetryData ←
           recorder (default "" userId) (commandName params) providerName modelId
             (inputTokens u) (outputTokens u) (own_value (outputType params));
         mret (mkServiceResult (finalMainResult serviceType providerResponse)
                               telemetryData))
        (fun telemetryError =>
           _ ← emit (EvLog "warn" ("Telemetry logging failed: " +:+
                       js_to_string (opt_str (thrown_message telemetryError))));
           mret (mkServiceResult (finalMainResult serviceType providerResponse) None))
    else
      (* no userId: proceed without telemetry *)
      mret (mkServiceResult (finalMainResult serviceType providerResponse) None)
  | None =>
    if str_truthy userId then
      _ ← emit (EvLog "warn" ("Cannot log telemetry for " +:+
                  js_to_string (opt_str (commandName params)) +:+ " (" +:+
                  providerName +:+ "/" +:+ modelId +:+
                  "): AI result missing 'usage' data. (May be expected for streams)"));
      mret (mkServiceResult (finalMainResult serviceType providerResponse) None)
    else
      mret (mkServiceResult (finalMainResult serviceType providerResponse) None)
  end.

(** The [try] block of the runner.  Every service type of [ServiceType] is a
    function of the provider module, so the check
    [typeof providerApiFn !== 'function'] never fires. *)
Definition runner_try (recorder : Recorder) (serviceType : ServiceType) (params : Params)
    (effectiveProjectRoot userId providerName modelId : option string) : M ServiceResult :=
  let initialRole := role params in
  if negb (str_truthy providerName) || negb (str_truthy modelId) then
    throw (Error ("Critical configuration missing for role '" +:+ initialRole +:+
                  "': Provider: " +:+ js_to_string (opt_str providerName) +:+
                  ", Model: " +:+ js_to_string (opt_str modelId)))
  else
    let providerName := default "" providerName in
    let modelId := default "" modelId in
    let roleParams := getParametersForRole cm initialRole effectiveProjectRoot in
    let baseUrl := getBaseUrlForRole cm initialRole effectiveProjectRoot in
    match PROVIDER_FUNCTIONS openai !! toLowerCase providerName with
    | None => throw (Error ("Unsupported provider configured: " +:+ providerName))
    | Some providerFnSet =>
      let providerApiFn := select_fn providerFnSet serviceType in
      apiKey ← _resolveApiKey host (toLowerCase providerName) (session params)
                 effectiveProjectRoot;
      match apiKey with
      | None => throw (Error ("API key missing for provider '" +:+ providerName +:+ "'."))
      | Some apiKey =>
        let messages :=
          if str_truthy (systemPrompt params)
          then [message_obj "system" (default "" (systemPrompt params))] else [] in
        if str_truthy (prompt params) then
          let messages := messages ++ [message_obj "user" (default "" (prompt params))] in
          let callParams :=
            build_callParams serviceType params apiKey modelId roleParams messages baseUrl in
          providerResponse ←
            _attemptProviderCallWithRetries providerApiFn callParams
              (fn_name serviceType) providerName modelId initialRole;
          runner_success recorder serviceType params userId providerName modelId
            providerResponse
        else throw (Error "User prompt content is missing.")
      end
    end.

(** The runner, for any telemetry recorder *)
Definition runner_with (recorder : Recorder) (serviceType : ServiceType) (params : Params)
    : M ServiceResult :=
  let initialRole := role params in
  let effectiveProjectRoot := or_else (projectRoot params) (findProjectRoot host) in
  let userId := getUserId cm effectiveProjectRoot in
  '(providerName, modelId) ← role_switch initialRole effectiveProjectRoot;
  try_catch
    (runner_try recorder serviceType params effectiveProjectRoot userId providerName modelId)
    (runner_catch serviceType initialRole providerName modelId).

Definition _unifiedServiceRunner : ServiceType -> Params -> M ServiceResult :=
  runner_with (logAiUsage cm host).

(** ** Public service facade *)

(** [{ ...defaults, ...params }] for one property: an own property of
    [params] replaces the default, also when its value is [undefined]. *)
Definition with_default (given : OwnProperty) (dflt : string) : OwnProperty :=
  match given with
  | Some v => Some v
  | None => Some (Some dflt)
  end.

Definition generateTextService (params : Params) : M ServiceResult :=
  let combinedParams :=
    mkParams (role params) (session params) (projectRoot params) (systemPrompt params)
      (prompt params) (schema params) (objectName params) (commandName params)
      (with_default (outputType params) "cli") (restApiParams params) in
  _unifiedServiceRunner generateText combinedParams.

Definition streamTextService (params : Params) : M ServiceResult :=
  let combinedParams :=
    mkParams (role params) (session params) (projectRoot params) (systemPrompt params)
      (prompt params) (schema params) (objectName params) (commandName params)
      (with_default (outputType params) "cli") (restApiParams params) in
  _unifiedServiceRunner streamText combinedParams.

Definition generateObjectService (params : Params) : M ServiceResult :=
  let combinedParams :=
    mkParams (role params) (session params) (projectRoot params) (systemPrompt params)
      (prompt params) (schema params)
      (with_default (objectName params) "generated_object") (commandName params)
      (with_default (outputType params) "cli")
      (restApiParams params ∪ {[ "maxRetries" := VNum 3 ]}) in
  _unifiedServiceRunner generateObject combinedParams.

End Runner.

(** ** Schema sanitisation (PRD parser) *)

Definition unsupported_keyword (key : string) : bool :=
  (key =? "$schema")%string || (key =? "exclusiveMinimum")%string ||
  (key =? "exclusiveMaximum")%string.

(** [cleanJsonSchema] of the PRD parser.  The loop [for (const key in
    schema)] visits the properties in enumeration order; as the keys of an
    object are distinct, each assignment [newSchema[key] = ...] appends. *)
Fixpoint cleanJsonSchema (schema : JsVal) : JsVal :=
  match schema with
  | VArr items => VArr (map cleanJsonSchema items)
  | VObj fields =>
    VObj ((fix loop (fs : list (string * JsVal)) : list (string * JsVal) :=
             match fs with
             | [] => []
             | (key, v) :: rest =>
               if unsupported_keyword key then loop rest
               else if is_object v then (key, cleanJsonSchema v) :: loop rest
               else (key, v) :: loop rest
             end) fields)
  | _ => schema
  end.

(** The in-place [cleanSchema] helper of the AI-SDK variant of the OpenAI
    adapter (it runs on a deep copy of the schema). *)
Fixpoint cleanSchema (obj : JsVal) : JsVal :=
  match obj with
  | VArr items => VArr (map cleanSchema items)
  | VObj fields =>
    VObj ((fix loop (fs : list (string * JsVal)) : list (string * JsVal) :=
             match fs with
             | [] => []
             | (key, v) :: rest =>
               if (key =? "$schema")%string || (key =? "exclusiveMinimum")%string
               then loop rest
               else if is_object v then (key, cleanSchema v) :: loop rest
               else (key, v) :: loop rest
             end) fields)
  | _ => obj
  end.

(** The parameter object [parsePRD] hands to [generateObjectService];
    [jsonSchema] is what [zodToJsonSchema(prdResponseSchema, ...)] returned. *)
Definition parsePRD_params (jsonSchema : JsVal) (session : option Session)
    (projectRoot : option string) (systemPrompt userPrompt : string) (isMCP : bool)
    : Params :=
  let cleanedJsonSchema := cleanJsonSchema jsonSchema in
  mkParams "main" session projectRoot (Some systemPrompt) (Some userPrompt)
    cleanedJsonSchema (Some (Some "tasks_data")) (Some "parse-prd")
    (Some (Some (if isMCP then "mcp" else "cli"))) ∅.

(** ** The OpenAI adapter: structured objects *)

(** The body of [chat.completions.create] that the adapter sends.  The
    tool's [description] string is not modelled. *)
Record ChatCompletionRequest : Type := mkRequest {
  req_model : JsVal;
  req_messages : JsVal;
  req_tool_name : JsVal;          (* tools[0].function.name *)
  req_tool_parameters : JsVal;    (* tools[0].function.parameters *)
  req_tool_choice_name : JsVal;   (* tool_choice.function.name *)
  req_max_tokens : JsVal;
  req_temperature : JsVal
}.

(** The first tool call of the first choice, if any: name and arguments *)
Record ChatCompletion : Type := mkCompletion {
  tool_call : option (string * string);
  prompt_tokens : option Z;
  completion_tokens : option Z
}.

(** The client built by [getOpenAIClient] *)
Record OpenAIClient : Type := mkClient {
  client_apiKey : JsVal;
  client_baseURL : JsVal
}.

(** The remote endpoint *)
Definition Backend : Type :=
  OpenAIClient -> ChatCompletionRequest -> nat -> Settled ChatCompletion.

Definition param (key : string) (params : CallParams) : JsVal :=
  default VUndef (params !! key).

(** [a || b] on values *)
Definition js_or (a b : JsVal) : JsVal := if truthy a then a else b.

Definition getOpenAIClient (host : Host) (apiKey baseUrl : JsVal) : OpenAIClient :=
  let effectiveBaseUrl :=
    js_or baseUrl (js_or (opt_str (processEnv host !! "OPENAI_API_BASE_URL"))
                         (VStr "https://api.openai.com/v1")) in
  mkClient apiKey effectiveBaseUrl.

(** [s === v] for a string [s] *)
Definition strict_eq_string (s : string) (v : JsVal) : bool :=
  match v with
  | VStr s' => (s =? s')%string
  | _ => false
  end.

(** [v && Array.isArray(v) && v.length !== 0] *)
Definition nonempty_array (v : JsVal) : bool :=
  match v with
  | VArr (_ :: _) => true
  | _ => false
  end.

Definition openai_object_request (params : CallParams) : ChatCompletionRequest :=
  mkRequest (param "modelId" params) (param "messages" params) (param "objectName" params)
    (param "schema" params) (param "objectName" params) (param "maxTokens" params)
    (param "temperature" params).

(** The [catch (error)] block of [generateOpenAIObject] *)
Definition openai_object_catch (modelId : JsVal) (error : Thrown) : Thrown :=
  let lowerCaseMessage := toLowerCase <$> thrown_message error in
  if default false (reports_no_tool_use <$> lowerCaseMessage) then
    Error ("Model '" +:+ js_to_string modelId +:+
           "' via OpenAI API does not support the 'tool use' (function calling) required for object generation. Please configure a model that supports tool/function calling for this role.")
  else
    Error ("OpenAI API error during object generation: " +:+
           js_to_string (opt_str (thrown_message error))).

Definition generateOpenAIObject (host : Host) (backend : Backend) : ProviderFn :=
  fun params k =>
  let apiKey := param "apiKey" params in
  let modelId := param "modelId" params in
  let messages := param "messages" params in
  let schema := param "schema" params in
  let objectName := param "objectName" params in
  if negb (truthy apiKey) then Rejected (Error "OpenAI API key is required.")
  else if negb (truthy modelId) then Rejected (Error "OpenAI Model ID is required.")
  else if negb (nonempty_array messages) then
    Rejected (Error "Invalid messages array for OpenAI object generation.")
  else if negb (truthy schema) then
    Rejected (Error "Schema is required for OpenAI object generation.")
  else if negb (truthy objectName) then
    Rejected (Error "Object name is required for OpenAI object generation.")
  else
    let openaiClient := getOpenAIClient host apiKey (param "baseUrl" params) in
    match backend openaiClient (openai_object_request params) k with
    | Rejected error => Rejected (openai_object_catch modelId error)
    | Fulfilled response =>
      match tool_call response with
      | Some (name, arguments) =>
        if negb (strict_eq_string name objectName) || negb (truthy (VStr arguments))
        then Rejected (openai_object_catch modelId
                         (Error "Failed to extract object from OpenAI response."))
        else
          match JSON_parse host arguments with
          | Rejected syntaxError => Rejected (openai_object_catch modelId syntaxError)
          | Fulfilled parsedObject =>
            Fulfilled (mkResponse VUndef parsedObject
                         (Some (mkUsage (Some (default 0%Z (prompt_tokens response)))
                                        (Some (default 0%Z (completion_tokens response)))))
                         None)
          end
      | None => Rejected (openai_object_catch modelId
                            (Error "Failed to extract object from OpenAI response."))
      end
    end.

(** ** Vocabulary of the properties *)

Definition known_role (r : string) : bool :=
  (r =? "main")%string || (r =? "research")%string || (r =? "fallback")%string.

(** [projectRoot || detectProjectRoot()] *)
Definition effective_root (host : Host) (params : Params) : option string :=
  or_else (projectRoot params) (findProjectRoot host).

(** Provider and model that the role switch resolves *)
Definition role_config (cm : ConfigManager) (r : string) (root : option string)
    : option string * option string :=
  if (r =? "research")%string then (getResearchProvider cm root, getResearchModelId cm root)
  else if (r =? "fallback")%string then (getFallbackProvider cm root, getFallbackModelId cm root)
  else (getMainProvider cm root, getMainModelId cm root).

(** The role resolves to the OpenAI provider (in any letter case) and to a
    model id. *)
Definition role_configured (cm : ConfigManager) (host : Host) (params : Params)
    (providerName modelId : string) : Prop :=
  role_config cm (role params) (effective_root host params) =
    (Some providerName, Some modelId) ∧
  toLowerCase providerName = "openai" ∧ modelId ≠ "".

(** The credential of the OpenAI provider, as the runner resolves it *)
Definition credential (host : Host) (params : Params) : option string :=
  resolveEnvVariable host "OPENAI_API_KEY" (session params) (effective_root host params).

(** The messages the runner builds from [(systemPrompt, prompt)] *)
Definition built_messages (params : Params) : list JsVal :=
  (if str_truthy (systemPrompt params)
   then [message_obj "system" (default "" (systemPrompt params))] else []) ++
  [message_obj "user" (default "" (prompt params))].

(** The request the runner passes to the provider function *)
Definition request_of (cm : ConfigManager) (host : Host) (serviceType : ServiceType)
    (params : Params) (modelId apiKey : string) : CallParams :=
  build_callParams serviceType params apiKey modelId
    (getParametersForRole cm (role params) (effective_root host params))
    (built_messages params)
    (getBaseUrlForRole cm (role params) (effective_root host params)).

(** Back-off delay before retry number [n] (1-based) *)
Definition backoff (n : nat) : Z := (INITIAL_RETRY_DELAY_MS * 2 ^ Z.of_nat (n - 1))%Z.

(** What the specification calls a retryable error *)
Definition retryable (error : Thrown) : Prop :=
  (∃ phrase, phrase ∈ retryable_phrases ∧
     includes (toLowerCase (default "" (thrown_message error))) phrase = true) ∨
  thrown_status error = Some 429%Z ∨
  (∃ st, thrown_status error = Some st ∧ (500 ≤ st)%Z).

(** The log line that announces an unknown role *)
Definition role_log (r : string) : list Event :=
  if known_role r then []
  else [EvLog "error" ("Unknown role: " +:+ r +:+ ". Defaulting to main.")].

(** The warning of the credential resolver *)
Definition no_key_warning : Event :=
  EvLog "warn" "API key OPENAI_API_KEY for provider 'openai' is not set. Skipping this provider.".

(** A credential that none of the three sources provides *)
Definition unresolvable (host : Host) (key : string) (session : option Session)
    (projectRoot : option string) : Prop :=
  str_truthy (session ≫= fun s => env s !! key) = false ∧
  str_truthy (processEnv host !! key) = false ∧
  str_truthy (dotEnv host projectRoot !! key) = false.

(** The record [logAiUsage] builds from a price *)
Definition telemetry_record (host : Host) (userId : string) (commandName : option string)
    (providerName modelId : string) (inputTokens outputTokens : option Z) (cost : CostInfo)
    : Telemetry.t :=
  Telemetry.mk (now host) userId commandName modelId providerName
    (default 0%Z inputTokens) (default 0%Z outputTokens)
    (js_add_int (default 0%Z inputTokens) (default 0%Z outputTokens))
    (parseFloat_toFixed6
       (js_add
          (js_mul (js_div (inject_Z (default 0%Z inputTokens)) 1000000) (inputCost cost))
          (js_mul (js_div (inject_Z (default 0%Z outputTokens)) 1000000)
             (outputCost cost))))
    (currency cost).

(** A token count and a price in the range the cost properties are stated
    for: a binary64 value of magnitude at most 2^53 *)
Definition safe_count (tokens : option Z) : Prop :=
  (Z.abs (default 0 tokens) ≤ 2 ^ 53)%Z.

Definition safe_price (price : Q) : Prop :=
  binary64 price = price ∧ (Qabs price <= 2 ^ 53)%Q.

(** The prices that the static table lists for a (provider, model) pair:
    those of the first model with that id in the provider's list *)
Definition listed_price (cm : ConfigManager) (providerName modelId : string)
    (pricing : Pricing.t) : Prop :=
  ∃ table models entry,
    MODEL_MAP cm = Some table ∧ table !! providerName = Some (ModelList models) ∧
    find (fun m => (id m =? modelId)%string) models = Some entry ∧
    cost_per_1m_tokens entry = Some pricing.

(** The line [logAiUsage] logs when it swallows an error *)
Definition telemetry_failure_log (error : Thrown) : Event :=
  EvLog "error" ("Failed to log AI usage telemetry: " +:+
                 js_to_string (opt_str (thrown_message error))).

(** Nothing inside the recorder fails: the pricing table entry of the
    provider, if any, is an array. *)
Definition recorder_sound (cm : ConfigManager) (providerName : string) : Prop :=
  (MODEL_MAP cm ≫= fun table => table !! providerName) ≠ Some NotAnArray.

(** The runner gets as far as the provider call: the role resolves to the
    OpenAI provider and a model, the credential is there, and so is the
    prompt. *)
Definition reaches_provider (cm : ConfigManager) (host : Host) (params : Params) : bool :=
  let pm := role_config cm (role params) (effective_root host params) in
  str_truthy pm.1 && str_truthy pm.2 &&
  (toLowerCase (default "" pm.1) =? "openai")%string &&
  str_truthy (credential host params) && str_truthy (prompt params).

(** The same parameter object, with [maxRetries] set by the caller *)
Definition set_maxRetries (v : JsVal) (params : Params) : Params :=
  mkParams (role params) (session params) (projectRoot params) (systemPrompt params)
    (prompt params) (schema params) (objectName params) (commandName params)
    (outputType params) (<["maxRetries" := v]> (restApiParams params)).

(** A (provider, model) pair the static pricing table does not list *)
Definition unlisted (cm : ConfigManager) (providerName modelId : string) : Prop :=
  match MODEL_MAP cm ≫= fun table => table !! providerName with
  | None => True
  | Some NotAnArray => False
  | Some (ModelList models) => ∀ m, m ∈ models → id m ≠ modelId
  end.

(** The calls recorded in a trace *)
Definition calls (tr : list Event) : list CallParams :=
  omap (fun ev => match ev with EvCall cp => Some cp | _ => None end) tr.

(** A message list that is non-empty and ends in a user message *)
Definition ends_in_user_message (v : JsVal) : Prop :=
  ∃ (earlier : list JsVal) (content : string),
    v = VArr (earlier ++ [message_obj "user" content]) ∧ content ≠ "".

(** A key occurs in a schema, at any depth *)
Fixpoint mentions (banned : string -> bool) (schema : JsVal) : bool :=
  match schema with
  | VArr items => existsb (mentions banned) items
  | VObj fields =>
    existsb (fun kv => banned kv.1 || mentions banned kv.2) fields
  | _ => false
  end.

(** ** Scenarios

    The fixtures of the unit tests of the service layer: every role is
    served by provider [openai] with model [gpt-4o], priced at 5 and 15
    USD per million tokens. *)

Definition mock_model_map : gmap string ProviderModels :=
  {[ "openai" :=
       ModelList [mkModelData "gpt-4o"
                    (Some (Pricing.mk (Some 5%Q) (Some 15%Q) (Some "USD")))] ]}.

Definition mock_config (userId : option string) : ConfigManager :=
  mkConfigManager
    (fun _ => Some "openai") (fun _ => Some "gpt-4o")
    (fun _ => Some "openai") (fun _ => Some "gpt-4o")
    (fun _ => Some "openai") (fun _ => Some "gpt-4o")
    (fun _ _ => mkRoleParams (VNum 100) (VNum 0)) (fun _ _ => VUndef)
    (fun _ => userId) false (Some mock_model_map).

(** The same configuration with an input price of a half *)
Definition half_price_config : ConfigManager :=
  mkConfigManager
    (fun _ => Some "openai") (fun _ => Some "gpt-4o")
    (fun _ => Some "openai") (fun _ => Some "gpt-4o")
    (fun _ => Some "openai") (fun _ => Some "gpt-4o")
    (fun _ _ => mkRoleParams (VNum 100) (VNum 0)) (fun _ _ => VUndef)
    (fun _ => Some "test-user-id") false
    (Some {[ "openai" :=
               ModelList [mkModelData "gpt-4o"
                            (Some (Pricing.mk (Some (1 # 2)%Q) (Some 15%Q) None))] ]}).

Definition mock_host (processEnv : gmap string string) : Host :=
  mkHost (Some "/fake/project/root") processEnv (fun _ => ∅) "2025-01-01T00:00:00.000Z"
    (fun _ => Rejected (Error "Unexpected end of JSON input")).

Definition mock_env : gmap string string := {[ "OPENAI_API_KEY" := "mock-openai-key" ]}.

Definition mock_response : ProviderResponse :=
  mkResponse (VStr "Main provider response") VUndef
    (Some (mkUsage (Some 10%Z) (Some 20%Z))) None.

(** A provider module whose three functions all behave like [fn] *)
Definition mock_openai (fn : ProviderFn) : ProviderFnSet := mkProviderFnSet fn fn fn.

Definition answers (r : ProviderResponse) : ProviderFn := fun _ _ => Fulfilled r.

Definition fails_with (e : Thrown) : ProviderFn := fun _ _ => Rejected e.

(** Fails on the first invocation, answers on the second *)
Definition fails_once (e : Thrown) (r : ProviderResponse) : ProviderFn := fun _ k =>
  match k with
  | O => Rejected e
  | S _ => Fulfilled r
  end.

Definition mock_params (r : string) (prompt : option string) (rest : gmap string JsVal)
    : Params :=
  mkParams r None None (Some "System") prompt VUndef None None None rest.

(** An error the executor retries, and one it does not *)
Definition rate_limited : Thrown := Error "Rate limit".

Definition no_tools : Thrown := Error "Tools are not supported by this model.".

(** A recorder that always throws *)
Definition broken_recorder : Recorder :=
  fun _ _ _ _ _ _ _ => throw (Error "telemetry endpoint unreachable").

(** A schema as [zodToJsonSchema] emits it for a positive integer field *)
Definition draft07_schema : JsVal :=
  VObj [("$schema", VStr "http://json-schema.org/draft-07/schema#");
        ("type", VStr "object");
        ("properties",
         VObj [("id", VObj [("type", VStr "integer"); ("exclusiveMinimum", VNum 0)])])].

Definition bounded_schema : JsVal :=
  VObj [("type", VStr "integer"); ("exclusiveMaximum", VNum 10)].

(** A complete request for [generateOpenAIObject] *)
Definition object_request (schema : JsVal) : CallParams :=
  <["apiKey" := VStr "mock-openai-key"]> (<["modelId" := VStr "gpt-4o"]>
  (<["messages" := VArr [message_obj "user" "Test"]]> (<["schema" := schema]>
  (<["objectName" := VStr "tasks_data"]> ∅)))).

(** An endpoint that rejects tool parameters with unsupported keywords *)
Definition strict_backend : Backend := fun _ request _ =>
  if mentions unsupported_keyword (req_tool_parameters request)
  then Rejected (Error "Invalid schema: unsupported keyword")
  else Fulfilled (mkCompletion (Some ("tasks_data", "{}")) (Some 1%Z) (Some 1%Z)).

(** ** The executor's schedule *)

(** A settled promise, awaited *)
Definition settled_outcome {A : Type} (p : Settled A) : Outcome A :=
  match p with
  | Fulfilled a => Return a
  | Rejected e => Throw e
  end.

(** Invocation number [k] is rejected with an error the executor retries. *)
Definition retried (providerApiFn : ProviderFn) (callParams : CallParams) (k : nat) : bool :=
  match providerApiFn callParams k with
  | Fulfilled _ => false
  | Rejected e => isRetryableError e
  end.

(** The events of [d] retries that follow retry number [retries]: an
    invocation, then [d] times a back-off and an invocation. *)
Fixpoint rounds (retries d : nat) (callParams : CallParams) : list Event :=
  match d with
  | O => [EvCall callParams]
  | S d' =>
    EvCall callParams :: EvSleep (backoff (S retries)) :: rounds (S retries) d' callParams
  end.

(** Milliseconds slept in a trace *)
Fixpoint slept (tr : list Event) : Z :=
  match tr with
  | [] => 0
  | EvSleep ms :: tr' => ms + slept tr'
  | _ :: tr' => slept tr'
  end.

(** ** The message an error leaves the runner with *)

(** The [catch] block of the runner, on the clean message *)
Definition surfaced (serviceType : ServiceType) (initialRole : string)
    (providerName modelId : option string) (cleanMessage : string) : string :=
  match serviceType with
  | generateObject =>
    if reports_no_tool_use (toLowerCase cleanMessage)
    then specificErrorMsg modelId providerName initialRole
    else cleanMessage
  | _ => cleanMessage
  end.

(** The property names every JavaScript object inherits from
    [Object.prototype]: a lookup [table[name]] in an object literal finds
    them although the literal does not list them. *)
Definition inherited_property (name : string) : bool :=
  bool_decide (name ∈ ["constructor"; "__proto__"; "__defineGetter__"; "__defineSetter__";
                       "__lookupGetter__"; "__lookupSetter__"; "hasOwnProperty";
                       "isPrototypeOf"; "propertyIsEnumerable"; "toLocaleString";
                       "toString"; "valueOf"]).

(** A configuration whose roles all name the provider [providerName] *)
Definition config_with_provider (providerName : option string) : ConfigManager :=
  mkConfigManager
    (fun _ => providerName) (fun _ => Some "llama3")
    (fun _ => providerName) (fun _ => Some "llama3")
    (fun _ => providerName) (fun _ => Some "llama3")
    (fun _ _ => mkRoleParams (VNum 100) (VNum 0)) (fun _ _ => VUndef)
    (fun _ => None) false (Some mock_model_map).

(** ** Vocabulary: requests to the OpenAI adapter *)

(** The five checks that open [generateOpenAIObject] all pass. *)
Definition valid_object_request (params : CallParams) : bool :=
  truthy (param "apiKey" params) && truthy (param "modelId" params) &&
  nonempty_array (param "messages" params) && truthy (param "schema" params) &&
  truthy (param "objectName" params).

(** The messages of the five checks *)
Definition object_validation_messages : list string :=
  ["OpenAI API key is required."; "OpenAI Model ID is required.";
   "Invalid messages array for OpenAI object generation.";
   "Schema is required for OpenAI object generation.";
   "Object name is required for OpenAI object generation."].

(** The adapter's own message for a model without tool support *)
Definition tool_support_message (modelId : JsVal) : string :=
  "Model '" +:+ js_to_string modelId +:+
  "' via OpenAI API does not support the 'tool use' (function calling) required for object generation. Please configure a model that supports tool/function calling for this role.".

(** The client and the request body the adapter uses for a parameter object *)
Definition object_client (host : Host) (params : CallParams) : OpenAIClient :=
  getOpenAIClient host (param "apiKey" params) (param "baseUrl" params).

(** An endpoint that always fails with the same error *)
Definition failing_backend (e : Thrown) : Backend := fun _ _ _ => Rejected e.

(** An HTTP 429 whose message has none of the retry phrases *)
Definition too_many_requests : Thrown :=
  ThrownObject (mkErrorObject (Some "Too Many Requests") (Some 429%Z) None None None).

(** A host whose [JSON.parse] reads the text of an empty object *)
Definition parsing_host : Host :=
  mkHost (Some "/fake/project/root") mock_env (fun _ => ∅) "2025-01-01T00:00:00.000Z"
    (fun s => if (s =? "{}")%string then Fulfilled (VObj [])
              else Rejected (Error "Unexpected end of JSON input")).

(** The caller leaves the request fields that the adapter checks to the
    runner. *)
Definition plain_call (params : Params) : Prop :=
  restApiParams params !! "apiKey" = None ∧ restApiParams params !! "modelId" = None ∧
  restApiParams params !! "messages" = None.

(** The parameter object [generateObjectService] passes on:
    [{ ...defaults, ...params }] *)
Definition object_call_params (params : Params) : Params :=
  mkParams (role params) (session params) (projectRoot params) (systemPrompt params)
    (prompt params) (schema params)
    (with_default (objectName params) "generated_object") (commandName params)
    (with_default (outputType params) "cli")
    (restApiParams params ∪ {[ "maxRetries" := VNum 3 ]}).

(** The object name that an object call asks for: the caller's own
    property, whatever its value, else the default of the facade *)
Definition requested_name (params : Params) : JsVal :=
  opt_str (own_value (with_default (objectName params) "generated_object")).

(** A provider module whose object function is the shipped adapter *)
Definition shipped_adapter (host : Host) (backend : Backend) (openai : ProviderFnSet)
    : Prop :=
  fn_generateObject openai = generateOpenAIObject host backend.

(** ** The OpenAI adapter: text and streams *)

(** What [generateText] of the AI SDK resolves to, as far as the adapter
    reads it: [result.text] and the two counts of [result.usage] (the usage
    object itself is taken to be there). *)
Record TextResult : Type := mkTextResult {
  result_text : option string;
  promptTokens : option Z;
  completionTokens : option Z
}.

(** [generateText({ model: openaiClient(modelId), messages, maxTokens,
    temperature })]; [None] is a result that is [null] or [undefined]. *)
Definition TextSdk : Type :=
  OpenAIClient -> JsVal -> JsVal -> JsVal -> JsVal -> nat -> Settled (option TextResult).

(** [openaiClient.chat.stream(messages, { model, max_tokens, temperature })];
    the stream object is what the adapter returns. *)
Definition StreamSdk : Type :=
  OpenAIClient -> JsVal -> JsVal -> JsVal -> JsVal -> nat -> Settled ProviderResponse.

(** What the call [getClient(apiKey, baseUrl)] evaluates to *)
Definition ClientFactory : Type := JsVal -> JsVal -> Settled OpenAIClient.

(** [getClient] of the AI-SDK variant of the adapter: its [baseUrl]
    parameter is not read. *)
Definition getClient (host : Host) : ClientFactory := fun apiKey baseUrl =>
  if negb (truthy apiKey) then Rejected (Error "OpenAI API key is required.")
  else
    let openAIBaseUrl :=
      js_or (opt_str (processEnv host !! "OPENAI_API_BASE_URL"))
            (VStr "https://api.openai.com/v1") in
    Fulfilled (mkClient apiKey openAIBaseUrl).

(** In [openai.js] the text functions call [getClient], a name that the
    module neither declares nor imports: evaluating the call throws a
    [ReferenceError]. *)
Definition getClient_unbound : ClientFactory := fun _ _ =>
  Rejected (Error "getClient is not defined").

Section TextAdapter.

(** The binding of [getClient] in the module, and [String.prototype.trim] *)
Variable getClient : ClientFactory.
Variable trim : string -> string.

Definition openai_text_catch (error : Thrown) : Thrown :=
  Error ("OpenAI API error during text generation: " +:+
         js_to_string (opt_str (thrown_message error))).

Definition generateOpenAIText (sdk : TextSdk) : ProviderFn := fun params k =>
  let apiKey := param "apiKey" params in
  let modelId := param "modelId" params in
  let messages := param "messages" params in
  if negb (truthy apiKey) then Rejected (Error "OpenAI API key is required.")
  else if negb (truthy modelId) then Rejected (Error "OpenAI Model ID is required.")
  else if negb (nonempty_array messages) then
    Rejected (Error "Invalid or empty messages array provided for OpenAI.")
  else
    match getClient apiKey (param "baseUrl" params) with
    | Rejected error => Rejected error
    | Fulfilled openaiClient =>
      match sdk openaiClient modelId messages (param "maxTokens" params)
              (param "temperature" params) k with
      | Rejected error => Rejected (openai_text_catch error)
      | Fulfilled result =>
        match result with
        | Some result =>
          if str_truthy (result_text result) then
            Fulfilled (mkResponse (VStr (trim (default "" (result_text result)))) VUndef
                         (Some (mkUsage (promptTokens result) (completionTokens result)))
                         None)
          else Rejected (openai_text_catch
                           (Error "Failed to extract content from OpenAI response."))
        | None => Rejected (openai_text_catch
                              (Error "Failed to extract content from OpenAI response."))
        end
      end
    end.

Definition openai_stream_catch (error : Thrown) : Thrown :=
  Error ("OpenAI API error during streaming initiation: " +:+
         js_to_string (opt_str (thrown_message error))).

Definition streamOpenAIText (sdk : StreamSdk) : ProviderFn := fun params k =>
  let apiKey := param "apiKey" params in
  let modelId := param "modelId" params in
  let messages := param "messages" params in
  if negb (truthy apiKey) then Rejected (Error "OpenAI API key is required.")
  else if negb (truthy modelId) then Rejected (Error "OpenAI Model ID is required.")
  else if negb (nonempty_array messages) then
    Rejected (Error "Invalid or empty messages array provided for OpenAI streaming.")
  else
    match getClient apiKey (param "baseUrl" params) with
    | Rejected error => Rejected error
    | Fulfilled openaiClient =>
      match sdk openaiClient messages modelId (param "maxTokens" params)
              (param "temperature" params) k with
      | Rejected error => Rejected (openai_stream_catch error)
      | Fulfilled stream => Fulfilled stream
      end
    end.

End TextAdapter.

(** The three checks that open the text functions all pass. *)
Definition valid_text_request (params : CallParams) : bool :=
  truthy (param "apiKey" params) && truthy (param "modelId" params) &&
  nonempty_array (param "messages" params).

(** A provider module whose text and stream functions are those of
    [openai.js], where [getClient] is not bound *)
Definition shipped_text_functions (trim : string -> string) (sdk : TextSdk)
    (streamSdk : StreamSdk) (openai : ProviderFnSet) : Prop :=
  fn_generateText openai = generateOpenAIText getClient_unbound trim sdk ∧
  fn_streamText openai = streamOpenAIText getClient_unbound streamSdk.

(** ** The PRD parser: what is written to the tasks file *)

(** The own properties of a task object, in order *)
Definition TaskObj : Type := list (string * JsVal).

(** [{ ...o, key: v }] and [o.key = v]: an own property keeps its place, a
    new one comes last. *)
Fixpoint set_prop (key : string) (v : JsVal) (fields : TaskObj) : TaskObj :=
  match fields with
  | [] => [(key, v)]
  | (k, w) :: rest =>
    if (k =? key)%string then (k, v) :: rest else (k, w) :: set_prop key v rest
  end.

(** Key equality of a [Map] (SameValueZero).  Objects and arrays are equal
    only to themselves; ids that [JSON.parse] produced as objects are
    distinct objects. *)
Definition same_value_zero (a b : JsVal) : bool :=
  match a, b with
  | VUndef, VUndef | VNull, VNull => true
  | VBool x, VBool y => Bool.eqb x y
  | VNum x, VNum y => (x =? y)%Z
  | VStr x, VStr y => (x =? y)%string
  | _, _ => false
  end.

(** A [Map] from ids of the AI to new ids, the latest entry first *)
Definition TaskMap : Type := list (JsVal * Z).

Definition taskMap_get (taskMap : TaskMap) (depId : JsVal) : option Z :=
  snd <$> find (fun entry => same_value_zero entry.1 depId) taskMap.

(** [Math.max(...existingTasks.map((t) => t.id || 0))], for tasks whose id
    is a number or is missing *)
Definition id_or_0 (t : JsVal) : Z :=
  match get "id" t with
  | VNum n => n
  | _ => 0%Z
  end.

Definition max_id (existingTasks : list JsVal) : Z :=
  match existingTasks with
  | [] => 0%Z
  | t :: rest => foldl (fun m t' => Z.max m (id_or_0 t')) (id_or_0 t) rest
  end.

(** How [parsePRD] starts: the tasks to keep and the first new id, or the
    refusal to overwrite.  [existingData] is what [readJSON(tasksPath)]
    returned.  The first new id is the binary64 sum of the largest stored
    id and 1. *)
Inductive Plan : Type :=
| Proceed (existingTasks : list JsVal) (nextId : Z)
| OverwriteRefused.

Definition plan (fileExists append force : bool) (existingData : JsVal) : Plan :=
  if fileExists then
    if append then
      match get "tasks" existingData with
      | VArr existingTasks =>
        Proceed existingTasks
          (match existingTasks with
           | [] => 1%Z
           | _ => js_add_int (max_id existingTasks) 1
           end)
      | _ => Proceed [] 1%Z
      end
    else if negb force then OverwriteRefused
    else Proceed [] 1%Z
  else Proceed [] 1%Z.

(** One step of [generatedData.tasks.map((task) => ...)] *)
Definition process_task (newId : Z) (task : TaskObj) : TaskObj :=
  set_prop "subtasks" (VArr [])
    (set_prop "dependencies"
       (match assoc "dependencies" task with
        | VArr deps => VArr deps
        | _ => VArr []
        end)
       (set_prop "priority" (js_or (assoc "priority" task) (VStr "medium"))
          (set_prop "status" (VStr "pending") (set_prop "id" (VNum newId) task)))).

(** The [map] with its counter [currentId] and the [taskMap] it fills *)
Fixpoint number_tasks (currentId : Z) (taskMap : TaskMap) (tasks : list TaskObj)
    : list TaskObj * TaskMap :=
  match tasks with
  | [] => ([], taskMap)
  | task :: rest =>
    let newId := currentId in
    let taskMap := (assoc "id" task, newId) :: taskMap in
    let '(processed, taskMap) := number_tasks (currentId + 1) taskMap rest in
    (process_task newId task :: processed, taskMap)
  end.

(** [a < v] for a number [a] *)
Definition lt_value (a : Z) (v : JsVal) : bool :=
  match v with
  | VNum b => (a <? b)%Z
  | _ => false
  end.

Section ParsePRD.

(** [findTaskById] of the utilities, as far as its result is truthy *)
Variable findTaskById : list JsVal -> Z -> bool.

(** The body of [processedNewTasks.forEach((task) => ...)] *)
Definition remap_dependencies (existingTasks : list JsVal) (taskMap : TaskMap)
    (processedNewTasks : list TaskObj) (task : TaskObj) : TaskObj :=
  let dependencies :=
    match assoc "dependencies" task with
    | VArr deps => deps
    | _ => []
    end in
  let kept :=
    List.filter
      (fun newDepId =>
         lt_value newDepId (assoc "id" task) &&
         (findTaskById existingTasks newDepId ||
          existsb (fun t => same_value_zero (assoc "id" t) (VNum newDepId))
            processedNewTasks))
      (omap (taskMap_get taskMap) dependencies) in
  set_prop "dependencies" (VArr (map VNum kept)) task.

(** What [parsePRD] writes for the tasks the AI generated *)
Inductive Written : Type :=
| Wrote (finalTasks : list JsVal)
| Refused.

Definition new_tasks (existingTasks : list JsVal) (nextId : Z) (generated : list TaskObj)
    : list TaskObj :=
  let '(processedNewTasks, taskMap) := number_tasks nextId [] generated in
  map (remap_dependencies existingTasks taskMap processedNewTasks) processedNewTasks.

Definition parsePRD_tasks (fileExists append force : bool) (existingData : JsVal)
    (generated : list TaskObj) : Written :=
  match plan fileExists append force existingData with
  | OverwriteRefused => Refused
  | Proceed existingTasks nextId =>
    let processedNewTasks := new_tasks existingTasks nextId generated in
    Wrote (if append then existingTasks ++ map VObj processedNewTasks
           else map VObj processedNewTasks)
  end.

End ParsePRD.

(** The ids of a list of tasks *)
Definition task_ids (tasks : list JsVal) : list JsVal := map (get "id") tasks.

(** Stored tasks to which [count] tasks can be appended with every id an
    integer below 2^53: each has a numeric id, of a magnitude that leaves
    room for [count] more *)
Definition room_for (count : nat) (existingTasks : list JsVal) : Prop :=
  Forall (fun t => ∃ n, get "id" t = VNum n ∧ (Z.abs n + Z.of_nat count < 2 ^ 53)%Z)
    existingTasks.

(** ** Vocabulary: positions in a schema *)

(** One step into a value: a property of an object, or an element of an
    array *)
Inductive Step : Type :=
| Property (key : string)
| Element (index : nat).

Definition step_into (v : JsVal) (s : Step) : JsVal :=
  match s, v with
  | Property key, _ => get key v
  | Element index, VArr items => nth index items VUndef
  | Element _, _ => VUndef
  end.

(** The value at a path, [undefined] when the path leaves the value *)
Definition at_path (v : JsVal) (path : list Step) : JsVal := foldl step_into v path.

(** A path that names no unsupported keyword *)
Definition supported_path (path : list Step) : bool :=
  forallb (fun s => match s with
                    | Property key => negb (unsupported_keyword key)
                    | Element _ => true
                    end) path.

(** The two keywords that the helper of the AI-SDK variant deletes *)
Definition deleted_by_cleanSchema (key : string) : bool :=
  (key =? "$schema")%string || (key =? "exclusiveMinimum")%string.

(** ** Model management: [setModel] *)

(** An entry of [getAvailableModels()], as far as [setModel] reads it *)
Record ModelEntry : Type := mkModelEntry {
  entry_id : string;
  entry_provider : option string
}.

(** [currentConfig.models]: for each role, its settings *)
Abbreviation RoleSettings := (gmap string JsVal).
Abbreviation ModelsConfig := (gmap string RoleSettings).

Inductive SetModelResponse : Type :=
| SetModelSuccess (role provider modelId message : string) (warning : option string)
| SetModelFailure (code message : string).

(** How the provider is determined: a provider with a warning, an early
    [return] of a failure, or a [throw] *)
Inductive Determination : Type :=
| Determined (determinedProvider : option string) (warningMessage : option string)
| EarlyReturn (code message : string)
| Raised (error : Thrown).

Definition valid_roles : list string := ["main"; "research"; "search"; "fallback"].

(** In [models.js] the name [isOllamaModel] is called but is neither
    declared nor imported: evaluating the call throws a [ReferenceError]. *)
Definition isOllamaModel_unbound : string -> Settled bool := fun _ =>
  Rejected (Error "isOllamaModel is not defined").

Section SetModel.

(** [String.prototype.trim], the binding of [isOllamaModel] in the module,
    and [writeConfig] of the configuration manager *)
Variable trim : string -> string.
Variable isOllamaModel : string -> Settled bool.
Variable writeConfig : ModelsConfig -> bool.

Definition determine_provider (availableModels : list ModelEntry) (modelId : string)
    (providerHint : option string) : Determination :=
  let modelData := find (fun m => (entry_id m =? modelId)%string) availableModels in
  if str_truthy providerHint then
    let providerHint := default "" providerHint in
    if match modelData with
       | Some m => bool_decide (entry_provider m = Some providerHint)
       | None => false
       end
    then Determined (Some providerHint) None
    else if (providerHint =? "ollama")%string then
      Determined (Some "ollama")
        (Some ("Warning: Custom Ollama model '" +:+ modelId +:+
               "' set. Ensure your Ollama server is running and has pulled this model. Taskmaster cannot guarantee compatibility."))
    else Raised (Error ("Invalid provider hint received: " +:+ providerHint))
  else
    match modelData with
    | Some m => Determined (entry_provider m) None
    | None =>
      match isOllamaModel modelId with
      | Rejected error => Raised error
      | Fulfilled true => Determined (Some "ollama") None
      | Fulfilled false =>
        EarlyReturn "MODEL_NOT_FOUND_NO_HINT"
          ("Model ID " +:+ String (ascii_of_nat 34) modelId +:+
           String (ascii_of_nat 34)
             " not found in Taskmaster's supported models. If this is a custom model, please specify the provider using --ollama.")
      end
    end.

(** [setModel(role, modelId, { providerHint })]: the response, and the
    configuration handed to [writeConfig], if any.  [configExists] is the
    outcome of the check for the configuration file. *)
Definition setModel (configExists : bool) (availableModels : list ModelEntry)
    (currentConfig : ModelsConfig) (role : string) (modelId : JsVal)
    (providerHint : option string) : SetModelResponse * option ModelsConfig :=
  let invalid_id :=
    (SetModelFailure "INVALID_MODEL_ID"
       ("Invalid model ID: " +:+ js_to_string modelId +:+ ". Must be a non-empty string."),
     None) in
  if negb configExists then
    (SetModelFailure "CONFIG_MISSING"
       ("The .taskmasterconfig file is missing. Run " +:+
        String (ascii_of_nat 34) "task-master models --setup" +:+
        String (ascii_of_nat 34) " to create it."), None)
  else if negb (bool_decide (role ∈ valid_roles)) then
    (SetModelFailure "INVALID_ROLE"
       ("Invalid role: " +:+ role +:+
        ". Must be one of: main, research, search, fallback."), None)
  else
    match modelId with
    | VStr modelId =>
      if (trim modelId =? "")%string then invalid_id
      else
        match determine_provider availableModels modelId providerHint with
        | Raised error =>
          (SetModelFailure "SET_MODEL_ERROR"
             (js_to_string (opt_str (thrown_message error))), None)
        | EarlyReturn code message => (SetModelFailure code message, None)
        | Determined determinedProvider warningMessage =>
          if negb (str_truthy determinedProvider) then
            (SetModelFailure "PROVIDER_UNDETERMINED"
               ("Could not determine the provider for model ID " +:+
                String (ascii_of_nat 34) modelId +:+ String (ascii_of_nat 34) "."), None)
          else
            let determinedProvider := default "" determinedProvider in
            let currentConfig : ModelsConfig :=
              <[role := <["modelId" := VStr modelId]>
                          (<["provider" := VStr determinedProvider]>
                             (default ∅ (currentConfig !! role)))]> currentConfig in
            if negb (writeConfig currentConfig) then
              (SetModelFailure "WRITE_ERROR"
                 "Error writing updated configuration to .taskmasterconfig",
               Some currentConfig)
            else
              (SetModelSuccess role determinedProvider modelId
                 ("Successfully set " +:+ role +:+ " model to " +:+ modelId +:+
                  " (Provider: " +:+ determinedProvider +:+ ")") warningMessage,
               Some currentConfig)
        end
    | _ => invalid_id
    end.

End SetModel.

(** The code of a response, [None] for a success *)
Definition response_code (response : SetModelResponse) : option string :=
  match response with
  | SetModelSuccess _ _ _ _ _ => None
  | SetModelFailure code _ => Some code
  end.

(** ** More scenarios *)

(** An object call as the PRD parser makes it *)
Definition object_params : Params :=
  mkParams "main" None None (Some "System") (Some "Test") draft07_schema
    (Some (Some "tasks_data")) (Some "parse-prd") None ∅.

(** An endpoint that answers with the requested tool call *)
Definition answering_backend : Backend := fun _ _ _ =>
  Fulfilled (mkCompletion (Some ("tasks_data", "{}")) (Some 7%Z) None).

(** The provider module with the shipped object function *)
Definition shipped_openai (host : Host) (backend : Backend) : ProviderFnSet :=
  mkProviderFnSet (answers mock_response) (answers mock_response)
    (generateOpenAIObject host backend).

(** An SDK that resolves to nothing, and the provider module with the text
    functions of [openai.js] *)
Definition silent_sdk : TextSdk := fun _ _ _ _ _ _ => Fulfilled None.

Definition silent_stream_sdk : StreamSdk := fun _ _ _ _ _ _ => Fulfilled mock_response.

Definition openai_js_text : ProviderFnSet :=
  mkProviderFnSet (generateOpenAIText getClient_unbound (fun s => s) silent_sdk)
    (streamOpenAIText getClient_unbound silent_stream_sdk) (answers mock_response).

(** Two generated tasks, the second depending on the first and on a task
    that does not exist; and a tasks file with one task *)
Definition generated_tasks : list TaskObj :=
  [[("id", VNum 1); ("title", VStr "Setup"); ("dependencies", VArr [])];
   [("id", VNum 2); ("title", VStr "Build"); ("priority", VStr "high");
    ("dependencies", VArr [VNum 1; VNum 3])]].

Definition stored_tasks : JsVal :=
  VObj [("tasks", VArr [VObj [("id", VNum 4); ("title", VStr "Old")]])].

Definition no_lookup : list JsVal -> Z -> bool := fun _ _ => false.

(** A list of available models and a configuration *)
Definition listed_models : list ModelEntry := [mkModelEntry "gpt-4o" (Some "openai")].

Definition stored_config : ModelsConfig :=
  {[ "main" := {[ "provider" := VStr "openai"; "modelId" := VStr "gpt-3.5-turbo";
                  "maxTokens" := VNum 64000 ]} ]}.

Definition write_ok : ModelsConfig -> bool := fun _ => true.

(* ================================================================== *)
(** * Part II. Properties                                              *)
(* ================================================================== *)

(** ** Strings *)




Lemma str_truthy_Some (s : string) : str_truthy (Some s) = true ↔ s ≠ "".
Proof.
  unfold str_truthy; simpl. rewrite negb_true_iff. split.
  - intros H ->. discriminate.
  - intros H. destruct s; [congruence | reflexivity].
Qed.

Lemma str_truthy_None : str_truthy None = false.
Proof. reflexivity. Qed.


Lemma or_else_falsy (a b : option string) : str_truthy a = false → or_else a b = b.
Proof. unfold or_else. by intros ->. Qed.

(** ** Traces *)

Lemma invocations_app (tr tr' : list Event) :
  invocations (tr ++ tr') = invocations tr + invocations tr'.
Proof. unfold invocations. by rewrite filter_app, length_app. Qed.

Lemma invocations_calls (tr : list Event) : invocations tr = length (calls tr).
Proof.
  unfold invocations, calls. induction tr as [|ev tr IH]; [done|].
  destruct ev.
  - rewrite filter_cons_True by done. simpl. by rewrite IH.
  - rewrite filter_cons_False by (simpl; congruence). exact IH.
  - rewrite filter_cons_False by (simpl; congruence). exact IH.
Qed.

Lemma calls_app (tr tr' : list Event) : calls (tr ++ tr') = calls tr ++ calls tr'.
Proof. unfold calls. apply omap_app. Qed.

Lemma invocations_nil : invocations [] = 0.
Proof. reflexivity. Qed.

Lemma invocations_call (tr : list Event) (cp : CallParams) :
  invocations (tr ++ [EvCall cp]) = S (invocations tr).
Proof. rewrite invocations_app. unfold invocations at 2. simpl. lia. Qed.

Lemma invocations_sleep (tr : list Event) (ms : Z) :
  invocations (tr ++ [EvSleep ms]) = invocations tr.
Proof. rewrite invocations_app. unfold invocations at 2. simpl. lia. Qed.

Lemma invocations_log (tr : list Event) (level msg : string) :
  invocations (tr ++ [EvLog level msg]) = invocations tr.
Proof. rewrite invocations_app. unfold invocations at 2. simpl. lia. Qed.

(** ** Retry executor *)

Section RetryExecutor.

Variables (providerApiFn : ProviderFn) (callParams : CallParams).
Variables (fnName providerName attemptRole : string).

(** One iteration of the loop *)
Lemma retry_loop_step (fuel retries : nat) (tr : list Event) :
  retry_loop (S fuel) providerApiFn callParams fnName providerName
      attemptRole retries tr =
  if retries <=? MAX_RETRIES then
    match providerApiFn callParams (invocations tr) with
    | Fulfilled r => (Return r, tr ++ [EvCall callParams])
    | Rejected e =>
      if isRetryableError e && (retries <? MAX_RETRIES)
      then retry_loop fuel providerApiFn callParams fnName providerName
      attemptRole (S retries) ((tr ++ [EvCall callParams]) ++ [EvSleep (backoff (S retries))])
      else (Throw e, tr ++ [EvCall callParams])
    end
  else (Throw (Error ("Exhausted all retries for role " +:+ attemptRole +:+ " (" +:+
                      fnName +:+ " / " +:+ providerName +:+ ")")), tr).
Proof.
  cbn [retry_loop].
  destruct (retries <=? MAX_RETRIES); [|reflexivity].
  unfold try_catch, call.
  destruct (providerApiFn callParams (invocations tr)) as [r|e]; [reflexivity|].
  destruct (isRetryableError e && (retries <? MAX_RETRIES)); reflexivity.
Qed.

(** The loop ends, after at least one and at most [MAX_RETRIES + 1 - retries]
    further invocations. *)
Lemma retry_loop_bounds (fuel retries : nat) (tr : list Event) :
  retries ≤ MAX_RETRIES → MAX_RETRIES - retries < fuel →
  ∃ out tr', retry_loop fuel providerApiFn callParams fnName providerName
      attemptRole retries tr = (out, tr') ∧ out ≠ Diverge ∧
    invocations tr < invocations tr' ∧
    invocations tr' + retries ≤ invocations tr + MAX_RETRIES + 1.
Proof.
  revert retries tr. induction fuel as [|fuel IH]; intros retries tr Hle Hfuel; [lia|].
  rewrite retry_loop_step.
  destruct (Nat.leb_spec retries MAX_RETRIES) as [_|Hgt]; [|lia].
  destruct (providerApiFn callParams (invocations tr)) as [r|e].
  - eexists _, _. split; [reflexivity|]. rewrite invocations_call.
    split; [discriminate | lia].
  - destruct (isRetryableError e); simpl.
    + destruct (Nat.ltb_spec retries MAX_RETRIES) as [Hlt|Hge].
      * destruct (IH (S retries) ((tr ++ [EvCall callParams]) ++
                                 [EvSleep (backoff (S retries))]))
          as (out & tr' & Heq & Hout & Hlo & Hhi); [lia | lia |].
        rewrite invocations_sleep, invocations_call in Hlo, Hhi.
        eexists _, _. split; [exact Heq|]. split; [exact Hout | lia].
      * eexists _, _. split; [reflexivity|]. rewrite invocations_call.
        split; [discriminate | lia].
    + eexists _, _. split; [reflexivity|]. rewrite invocations_call.
      split; [discriminate | lia].
Qed.

(** A function that keeps failing with retryable errors is invoked until the
    retry budget is spent; the error of the last invocation comes out. *)
Lemma retry_loop_exhaust (fuel retries : nat) (tr : list Event) :
  retries ≤ MAX_RETRIES → MAX_RETRIES - retries < fuel →
  (∀ k, invocations tr ≤ k ≤ invocations tr + (MAX_RETRIES - retries) →
        ∃ e, providerApiFn callParams k = Rejected e ∧ isRetryableError e = true) →
  ∃ e tr', retry_loop fuel providerApiFn callParams fnName providerName
      attemptRole retries tr = (Throw e, tr') ∧
    providerApiFn callParams (invocations tr + (MAX_RETRIES - retries)) = Rejected e ∧
    invocations tr' = invocations tr + (MAX_RETRIES - retries) + 1.
Proof.
  revert retries tr. induction fuel as [|fuel IH]; intros retries tr Hle Hfuel Hall; [lia|].
  rewrite retry_loop_step.
  destruct (Nat.leb_spec retries MAX_RETRIES) as [_|Hgt]; [|lia].
  destruct (Hall (invocations tr)) as (e & He & Hretry); [lia|].
  rewrite He, Hretry. simpl.
  destruct (Nat.ltb_spec retries MAX_RETRIES) as [Hlt|Hge].
  - destruct (IH (S retries) ((tr ++ [EvCall callParams]) ++
                             [EvSleep (backoff (S retries))]))
      as (e' & tr' & Heq & Hlast & Hn); [lia | lia | |].
    + intros k Hk. rewrite invocations_sleep, invocations_call in Hk. apply Hall. lia.
    + rewrite invocations_sleep, invocations_call in Hlast, Hn.
      exists e', tr'. split; [exact Heq|].
      replace (invocations tr + (MAX_RETRIES - retries))
        with (S (invocations tr) + (MAX_RETRIES - S retries)) by lia.
      split; [exact Hlast | lia].
  - exists e, (tr ++ [EvCall callParams]). split; [reflexivity|].
    replace (MAX_RETRIES - retries) with 0 by lia.
    rewrite Nat.add_0_r, invocations_call. split; [exact He | lia].
Qed.

(** A non-retryable error ends the loop at once. *)
Lemma retry_loop_fatal (fuel retries : nat) (tr : list Event) (e : Thrown) :
  retries ≤ MAX_RETRIES →
  providerApiFn callParams (invocations tr) = Rejected e → isRetryableError e = false →
  retry_loop (S fuel) providerApiFn callParams fnName providerName
      attemptRole retries tr = (Throw e, tr ++ [EvCall callParams]).
Proof.
  intros Hle He Hfatal. rewrite retry_loop_step.
  destruct (Nat.leb_spec retries MAX_RETRIES) as [_|Hgt]; [|lia].
  by rewrite He, Hfatal.
Qed.

(** A success ends the loop at once. *)
Lemma retry_loop_success (fuel retries : nat) (tr : list Event) (r : ProviderResponse) :
  retries ≤ MAX_RETRIES →
  providerApiFn callParams (invocations tr) = Fulfilled r →
  retry_loop (S fuel) providerApiFn callParams fnName providerName
      attemptRole retries tr = (Return r, tr ++ [EvCall callParams]).
Proof.
  intros Hle Hr. rewrite retry_loop_step.
  destruct (Nat.leb_spec retries MAX_RETRIES) as [_|Hgt]; [|lia].
  by rewrite Hr.
Qed.

End RetryExecutor.

Lemma isRetryableError_spec (error : Thrown) :
  isRetryableError error = true ↔ retryable error.
Proof.
  unfold isRetryableError, retryable, retryable_phrases.
  set (m := toLowerCase (default "" (thrown_message error))).
  rewrite !orb_true_iff. split.
  - intros [[[[[H|H]|H]|H]|H]|H].
    1-5: left; eexists; split; [|exact H]; set_solver.
    destruct (thrown_status error) as [st|]; [|discriminate].
    apply orb_true_iff in H as [H|H].
    + right; left. apply Z.eqb_eq in H. by subst.
    + right; right. exists st. split; [done|]. by apply Z.leb_le.
  - intros [(phrase & Hin & H)|[H|(st & Hst & H)]].
    + rewrite !elem_of_cons, elem_of_nil in Hin.
      destruct Hin as [->|[->|[->|[->|[->|[]]]]]]; tauto.
    + right. by rewrite H.
    + right. rewrite Hst. apply orb_true_iff. right. by apply Z.leb_le.
Qed.

(** C2.  The retry executor always ends, after between one and
    [MAX_RETRIES + 1] invocations of the provider function.  If every
    invocation fails with a retryable error, exactly [MAX_RETRIES + 1]
    invocations are made and the error thrown by the last one comes out
    unchanged.  If the first invocation fails with a non-retryable error,
    that is the only invocation and its error comes out unchanged.  An error
    is retryable exactly when its lower-cased message contains one of the
    phrases "rate limit", "overloaded", "service temporarily unavailable",
    "timeout", "network error", or its status is 429 or at least 500. *)
Theorem retry_executor_policy (providerApiFn : ProviderFn) (callParams : CallParams)
    (fnName providerName modelId attemptRole : string) :
  let result :=
    run (_attemptProviderCallWithRetries providerApiFn callParams fnName providerName
           modelId attemptRole) in
  (result.1 ≠ Diverge ∧ 1 ≤ invocations result.2 ≤ MAX_RETRIES + 1) ∧
  ((∀ k, k ≤ MAX_RETRIES →
      ∃ e, providerApiFn callParams k = Rejected e ∧ isRetryableError e = true) →
   invocations result.2 = MAX_RETRIES + 1 ∧
   ∃ e, providerApiFn callParams MAX_RETRIES = Rejected e ∧ result.1 = Throw e) ∧
  (∀ e, providerApiFn callParams 0 = Rejected e → isRetryableError e = false →
        invocations result.2 = 1 ∧ result.1 = Throw e) ∧
  (∀ e, isRetryableError e = true ↔ retryable e).
Proof.
  unfold run, _attemptProviderCallWithRetries. cbv zeta.
  split; [|split; [|split]].
  - destruct (retry_loop_bounds providerApiFn callParams fnName providerName attemptRole
                (S (S MAX_RETRIES)) 0 [])
      as (out & tr' & Heq & Hout & Hlo & Hhi); [lia | lia |].
    rewrite Heq. cbn [fst snd]. rewrite invocations_nil in Hlo, Hhi. split; [exact Hout | lia].
  - intros Hall.
    destruct (retry_loop_exhaust providerApiFn callParams fnName providerName attemptRole
                (S (S MAX_RETRIES)) 0 [])
      as (e & tr' & Heq & Hlast & Hn); [lia | lia | |].
    + intros k Hk. apply Hall. rewrite invocations_nil in Hk. lia.
    + rewrite Heq. cbn [fst snd]. rewrite invocations_nil in Hlast, Hn.
      split; [lia|]. exists e. split; [|reflexivity].
      by rewrite Nat.add_0_l, Nat.sub_0_r in Hlast.
  - intros e He Hfatal.
    rewrite (retry_loop_fatal providerApiFn callParams fnName providerName attemptRole
               (S MAX_RETRIES) 0 [] e); [split; reflexivity | lia | exact He | exact Hfatal].
  - apply isRetryableError_spec.
Qed.

(** The executor only looks at the number of earlier invocations: events
    that are not invocations can be put in front of the trace. *)
Lemma retry_loop_frame (providerApiFn : ProviderFn) (callParams : CallParams)
    (fnName providerName attemptRole : string) (tr0 : list Event) :
  invocations tr0 = 0 →
  ∀ fuel retries tr,
    retry_loop fuel providerApiFn callParams fnName providerName attemptRole retries
      (tr0 ++ tr) =
    let '(out, tr') :=
      retry_loop fuel providerApiFn callParams fnName providerName attemptRole retries tr in
    (out, tr0 ++ tr').
Proof.
  intros H0. induction fuel as [|fuel IH]; intros retries tr; [reflexivity|].
  rewrite !retry_loop_step.
  destruct (retries <=? MAX_RETRIES); [|reflexivity].
  rewrite invocations_app, H0. simpl.
  destruct (providerApiFn callParams (invocations tr)) as [r|e].
  - by rewrite app_assoc.
  - destruct (isRetryableError e && (retries <? MAX_RETRIES)).
    + rewrite <- IH. by rewrite !app_assoc.
    + by rewrite app_assoc.
Qed.

(** ** Unified service runner: the paths through it *)

Section RunnerPaths.

Variable cm : ConfigManager.
Variable host : Host.
Variable openai : ProviderFnSet.

Lemma role_switch_run (r : string) (root : option string) (tr : list Event) :
  role_switch cm r root tr = (Return (role_config cm r root), tr ++ role_log r).
Proof.
  unfold role_switch, role_config, role_log, known_role.
  destruct (String.eqb_spec r "main") as [->|Hmain]; simpl.
  { unfold mret, M_ret. by rewrite app_nil_r. }
  destruct (String.eqb_spec r "research") as [->|Hres]; simpl.
  { unfold mret, M_ret. by rewrite app_nil_r. }
  destruct (String.eqb_spec r "fallback") as [->|Hfb]; simpl.
  { unfold mret, M_ret. by rewrite app_nil_r. }
  reflexivity.
Qed.

Lemma runner_with_run (recorder : Recorder) (serviceType : ServiceType) (params : Params)
    (tr : list Event) :
  runner_with cm host openai recorder serviceType params tr =
  let root := effective_root host params in
  let pm := role_config cm (role params) root in
  try_catch (runner_try cm host openai recorder serviceType params root (getUserId cm root)
               pm.1 pm.2)
    (runner_catch host serviceType (role params) pm.1 pm.2)
    (tr ++ role_log (role params)).
Proof.
  unfold runner_with. unfold mbind at 1, M_bind at 1.
  rewrite role_switch_run. unfold effective_root.
  by destruct (role_config cm (role params) _).
Qed.

Lemma resolveApiKey_openai (session : option Session) (root : option string)
    (tr : list Event) :
  _resolveApiKey host "openai" session root tr =
  let apiKey := resolveEnvVariable host "OPENAI_API_KEY" session root in
  if str_truthy apiKey then (Return apiKey, tr) else (Return None, tr ++ [no_key_warning]).
Proof.
  unfold _resolveApiKey.
  replace (keyMap !! "openai") with (Some "OPENAI_API_KEY") by reflexivity.
  simpl. destruct (str_truthy (resolveEnvVariable host "OPENAI_API_KEY" session root));
    reflexivity.
Qed.

Lemma lower_openai_nonempty (providerName : string) :
  toLowerCase providerName = "openai" → str_truthy (Some providerName) = true.
Proof. intros H. apply str_truthy_Some. intros ->. discriminate. Qed.

(** The [try] block, for a role that resolves to the OpenAI provider *)
Lemma runner_try_configured (recorder : Recorder) (serviceType : ServiceType)
    (params : Params) (userId : option string) (providerName modelId : string)
    (tr : list Event) :
  toLowerCase providerName = "openai" → modelId ≠ "" →
  runner_try cm host openai recorder serviceType params (effective_root host params) userId
    (Some providerName) (Some modelId) tr =
  if str_truthy (credential host params) then
    if str_truthy (prompt params) then
      (providerResponse ←
         _attemptProviderCallWithRetries (select_fn openai serviceType)
           (request_of cm host serviceType params modelId
              (default "" (credential host params)))
           (fn_name serviceType) providerName modelId (role params);
       runner_success recorder serviceType params userId providerName modelId
         providerResponse) tr
    else (Throw (Error "User prompt content is missing."), tr)
  else (Throw (Error ("API key missing for provider '" +:+ providerName +:+ "'.")),
        tr ++ [no_key_warning]).
Proof.
  intros Hlow Hmid. unfold runner_try.
  rewrite (lower_openai_nonempty _ Hlow).
  rewrite (proj2 (str_truthy_Some modelId) Hmid).
  cbn [negb orb default from_option]. unfold Datatypes.id. rewrite Hlow.
  replace (PROVIDER_FUNCTIONS openai !! "openai") with (Some openai)
    by (unfold PROVIDER_FUNCTIONS; by rewrite lookup_singleton_eq).
  unfold mbind at 1, M_bind at 1. rewrite resolveApiKey_openai.
  fold (credential host params). cbv zeta.
  destruct (str_truthy (credential host params)) eqn:Hcred.
  - destruct (credential host params) as [apiKey|] eqn:Hc; [|discriminate].
    destruct (str_truthy (prompt params)); reflexivity.
  - reflexivity.
Qed.

End RunnerPaths.

(** ** Errors crossing the runner boundary *)

Lemma toLowerCase_app (a b : string) :
  toLowerCase (a +:+ b) = toLowerCase a +:+ toLowerCase b.
Proof. induction a as [|c a IH]; [reflexivity|]. simpl. by rewrite IH. Qed.

Lemma extract_Error (host : Host) (m : string) :
  m ≠ "" → _extractErrorMessage host (Error m) = m.
Proof.
  intros Hm. destruct m as [|c m]; [congruence | reflexivity].
Qed.

(** The [catch] block always re-throws, and touches no trace. *)
Lemma runner_catch_throws (host : Host) (serviceType : ServiceType) (r : string)
    (providerName modelId : option string) (error : Thrown) (tr : list Event) :
  ∃ e, runner_catch host serviceType r providerName modelId error tr = (Throw e, tr).
Proof.
  unfold runner_catch. destruct serviceType; try (eexists; reflexivity).
  destruct (reports_no_tool_use _); eexists; reflexivity.
Qed.

(** What the [catch] block throws *)
Lemma runner_catch_run (host : Host) (serviceType : ServiceType) (r : string)
    (providerName modelId : option string) (error : Thrown) (tr : list Event) :
  runner_catch host serviceType r providerName modelId error tr =
    (Throw (Error
       (if match serviceType with generateObject => true | _ => false end &&
           reports_no_tool_use (toLowerCase (_extractErrorMessage host error))
        then specificErrorMsg modelId providerName r
        else _extractErrorMessage host error)), tr).
Proof.
  unfold runner_catch. destruct serviceType; try reflexivity.
  cbn [andb]. destruct (reports_no_tool_use _); reflexivity.
Qed.

(** An error whose clean message does not speak of tool use is re-thrown
    with that message alone. *)
Lemma runner_catch_plain (host : Host) (serviceType : ServiceType) (r : string)
    (providerName modelId : option string) (error : Thrown) (tr : list Event) :
  reports_no_tool_use (toLowerCase (_extractErrorMessage host error)) = false →
  runner_catch host serviceType r providerName modelId error tr =
    (Throw (Error (_extractErrorMessage host error)), tr).
Proof.
  intros H. unfold runner_catch. destruct serviceType; try reflexivity. by rewrite H.
Qed.

Lemma unresolvable_falsy (host : Host) (key : string) (session : option Session)
    (root : option string) :
  unresolvable host key session root →
  str_truthy (resolveEnvVariable host key session root) = false.
Proof.
  intros (Hs & He & Hd). unfold resolveEnvVariable.
  rewrite (or_else_falsy _ _ Hs), (or_else_falsy _ _ He). exact Hd.
Qed.

Lemma invocations_role_log (r : string) : invocations (role_log r) = 0.
Proof. unfold role_log. by destruct (known_role r). Qed.

(** C5.  When the role resolves to the OpenAI provider and the key
    [OPENAI_API_KEY] is set neither in the session, nor in the process
    environment, nor in the project's [.env]: the credential resolver
    returns [null] after logging a warning (it does not throw), and the
    runner fails with the message "API key missing for provider 'X'.",
    where X is the configured provider name, without invoking the provider
    function. *)
Theorem missing_credential_fails_before_call (cm : ConfigManager) (host : Host)
    (openai : ProviderFnSet) (serviceType : ServiceType) (params : Params)
    (providerName modelId : string) :
  role_configured cm host params providerName modelId →
  unresolvable host "OPENAI_API_KEY" (session params) (effective_root host params) →
  run (_resolveApiKey host (toLowerCase providerName) (session params)
         (effective_root host params)) = (Return None, [no_key_warning]) ∧
  ∃ tr, run (_unifiedServiceRunner cm host openai serviceType params) =
          (Throw (Error ("API key missing for provider '" +:+ providerName +:+ "'.")), tr) ∧
        invocations tr = 0.
Proof.
  intros (Hcfg & Hlow & Hmid) Hkey.
  pose proof (unresolvable_falsy _ _ _ _ Hkey) as Hcred.
  split.
  - unfold run. rewrite Hlow, resolveApiKey_openai. cbv zeta. by rewrite Hcred.
  - unfold run, _unifiedServiceRunner. rewrite runner_with_run. cbv zeta.
    rewrite Hcfg. cbn [fst snd]. unfold try_catch.
    rewrite (runner_try_configured cm host openai _ _ _ _ _ _ _ Hlow Hmid).
    unfold credential. rewrite Hcred.
    rewrite runner_catch_plain.
    + rewrite extract_Error by (intros H; discriminate).
      eexists. split; [reflexivity|].
      rewrite !invocations_app, invocations_role_log. reflexivity.
    + rewrite extract_Error by (intros H; discriminate).
      rewrite !toLowerCase_app, Hlow. reflexivity.
Qed.

(** ** Telemetry recorder: evaluation *)

Lemma logAiUsage_run (cm : ConfigManager) (host : Host) (userId : string)
    (commandName : option string) (providerName modelId : string)
    (inputTokens outputTokens : option Z) (outputType : option string) (tr : list Event) :
  logAiUsage cm host userId commandName providerName modelId inputTokens outputTokens
    outputType tr =
  match _getCostForModel cm providerName modelId with
  | Fulfilled cost =>
    (Return (Some (telemetry_record host userId commandName providerName modelId
                     inputTokens outputTokens cost)), tr)
  | Rejected e => (Return None, tr ++ [telemetry_failure_log e])
  end.
Proof.
  unfold logAiUsage, try_catch, mbind, M_bind, settle.
  destruct (_getCostForModel cm providerName modelId) as [cost|e]; reflexivity.
Qed.

Lemma getCostForModel_sound (cm : ConfigManager) (providerName modelId : string) :
  (MODEL_MAP cm ≫= fun table => table !! providerName) ≠ Some NotAnArray →
  ∃ cost, _getCostForModel cm providerName modelId = Fulfilled cost.
Proof.
  intros H. unfold _getCostForModel.
  destruct (MODEL_MAP cm ≫= _) as [[models|]|]; [| congruence | by eexists].
  destruct (find _ models ≫= cost_per_1m_tokens); by eexists.
Qed.

(** ** Unified service runner: evaluation *)

Lemma try_catch_bind {A B : Type} (m : M A) (k : A → M B) (h : Thrown → M B)
    (tr : list Event) :
  try_catch (m ≫= k) h tr =
  match m tr with
  | (Return a, tr') => try_catch (k a) h tr'
  | (Throw e, tr') => h e tr'
  | (Diverge, tr') => (Diverge, tr')
  end.
Proof. unfold try_catch, mbind, M_bind. by destruct (m tr) as [[a|e|] tr']. Qed.

Lemma attempt_frame (providerApiFn : ProviderFn) (callParams : CallParams)
    (fnName providerName modelId attemptRole : string) (tr0 : list Event) :
  invocations tr0 = 0 →
  _attemptProviderCallWithRetries providerApiFn callParams fnName providerName modelId
    attemptRole tr0 =
  let '(out, tr') :=
    run (_attemptProviderCallWithRetries providerApiFn callParams fnName providerName
           modelId attemptRole) in
  (out, tr0 ++ tr').
Proof.
  intros H0. unfold run, _attemptProviderCallWithRetries.
  rewrite <- (app_nil_r tr0) at 1. by apply retry_loop_frame.
Qed.

(** Every invocation the executor makes carries the same request. *)
Lemma retry_loop_calls (providerApiFn : ProviderFn) (callParams : CallParams)
    (fnName providerName attemptRole : string) :
  ∀ fuel retries tr out tr',
    retry_loop fuel providerApiFn callParams fnName providerName attemptRole retries tr =
      (out, tr') →
    ∃ n, calls tr' = calls tr ++ replicate n callParams.
Proof.
  induction fuel as [|fuel IH]; intros retries tr out tr' Heq.
  - inversion Heq; subst. exists 0. by rewrite app_nil_r.
  - rewrite retry_loop_step in Heq.
    destruct (retries <=? MAX_RETRIES).
    2:{ inversion Heq; subst. exists 0. by rewrite app_nil_r. }
    destruct (providerApiFn callParams (invocations tr)) as [r|e].
    { inversion Heq; subst. exists 1. by rewrite calls_app. }
    destruct (isRetryableError e && (retries <? MAX_RETRIES)).
    + apply IH in Heq as [n Hn]. exists (S n).
      rewrite Hn, !calls_app. simpl. by rewrite <- !app_assoc.
    + inversion Heq; subst. exists 1. by rewrite calls_app.
Qed.

Lemma calls_log (tr : list Event) (level msg : string) :
  calls (tr ++ [EvLog level msg]) = calls tr.
Proof. rewrite calls_app. simpl. apply app_nil_r. Qed.

Lemma calls_role_log (r : string) : calls (role_log r) = [].
Proof. unfold role_log. by destruct (known_role r). Qed.

Section RunnerEvaluation.

Variable cm : ConfigManager.
Variable host : Host.
Variable openai : ProviderFnSet.

(** With the recorder of this module, the success branch returns the main
    result, makes no provider call, and has telemetry whenever usage and
    user id are there and nothing fails inside the recorder. *)
Lemma runner_success_logAiUsage (serviceType : ServiceType) (params : Params)
    (userId : option string) (providerName modelId : string) (resp : ProviderResponse)
    (tr : list Event) :
  ∃ t tr',
    runner_success (logAiUsage cm host) serviceType params userId providerName modelId
      resp tr = (Return (mkServiceResult (finalMainResult serviceType resp) t), tr') ∧
    calls tr' = calls tr ∧
    (is_Some (usage resp) → str_truthy userId = true → recorder_sound cm providerName →
     is_Some t) ∧
    (is_Some t → is_Some (usage resp) ∧ str_truthy userId = true).
Proof.
  unfold runner_success.
  destruct (usage resp) as [u|]; destruct (str_truthy userId) eqn:Hu.
  - rewrite try_catch_bind, logAiUsage_run.
    destruct (_getCostForModel cm providerName modelId) as [cost|e] eqn:Hcost.
    + eexists _, _. split; [reflexivity|]. split; [reflexivity|].
      split; [by eauto | by eauto].
    + eexists _, _. split; [reflexivity|]. split; [apply calls_log|].
      split; [|by intros []]. intros _ _ Hsound.
      destruct (getCostForModel_sound cm providerName modelId Hsound). congruence.
  - eexists _, _. split; [reflexivity|]. split; [reflexivity|].
    split; [discriminate | by intros []].
  - eexists _, _. split; [reflexivity|]. split; [apply calls_log|].
    split; [by intros [] | by intros []].
  - eexists _, _. split; [reflexivity|]. split; [reflexivity|].
    split; [by intros [] | by intros []].
Qed.

(** Either the [try] block fails before any provider call, or the role is
    configured, the credential resolved and the prompt present. *)
Lemma runner_try_cases (recorder : Recorder) (serviceType : ServiceType) (params : Params)
    (userId providerName modelId : option string) (tr : list Event) :
  (∃ e tr', runner_try cm host openai recorder serviceType params
              (effective_root host params) userId providerName modelId tr = (Throw e, tr') ∧
            calls tr' = calls tr) ∨
  (∃ pn mid, providerName = Some pn ∧ modelId = Some mid ∧
             toLowerCase pn = "openai" ∧ mid ≠ "" ∧
             str_truthy (credential host params) = true ∧
             str_truthy (prompt params) = true).
Proof.
  destruct (str_truthy providerName) eqn:Hp.
  2:{ left. unfold runner_try. rewrite Hp. eexists _, _. split; reflexivity. }
  destruct (str_truthy modelId) eqn:Hm.
  2:{ left. unfold runner_try. rewrite Hp, Hm. eexists _, _. split; reflexivity. }
  destruct providerName as [pn|]; [|discriminate].
  destruct modelId as [mid|]; [|discriminate].
  apply str_truthy_Some in Hm.
  destruct (decide (toLowerCase pn = "openai")) as [Hlow|Hlow].
  - rewrite (runner_try_configured cm host openai _ _ _ _ _ _ _ Hlow Hm).
    destruct (str_truthy (credential host params)).
    + destruct (str_truthy (prompt params)).
      * right. exists pn, mid. by repeat split.
      * left. eexists _, _. split; reflexivity.
    + left. eexists _, _. split; [reflexivity | apply calls_log].
  - left. unfold runner_try. rewrite Hp, (proj2 (str_truthy_Some mid) Hm).
    cbn [negb orb default from_option]. unfold Datatypes.id.
    replace (PROVIDER_FUNCTIONS openai !! toLowerCase pn) with (@None ProviderFnSet).
    + eexists _, _. split; reflexivity.
    + unfold PROVIDER_FUNCTIONS. symmetry. apply lookup_singleton_None. congruence.
Qed.

(** The whole runner, for a configured role, in terms of the executor *)
Lemma runner_configured_run (recorder : Recorder) (serviceType : ServiceType)
    (params : Params) (providerName modelId : string) :
  role_configured cm host params providerName modelId →
  str_truthy (credential host params) = true →
  str_truthy (prompt params) = true →
  run (runner_with cm host openai recorder serviceType params) =
  let '(out, tr1) :=
    run (_attemptProviderCallWithRetries (select_fn openai serviceType)
           (request_of cm host serviceType params modelId
              (default "" (credential host params)))
           (fn_name serviceType) providerName modelId (role params)) in
  let tr := role_log (role params) ++ tr1 in
  match out with
  | Return resp =>
    try_catch
      (runner_success recorder serviceType params
         (getUserId cm (effective_root host params)) providerName modelId resp)
      (runner_catch host serviceType (role params) (Some providerName) (Some modelId)) tr
  | Throw e =>
    runner_catch host serviceType (role params) (Some providerName) (Some modelId) e tr
  | Diverge => (Diverge, tr)
  end.
Proof.
  intros (Hcfg & Hlow & Hmid) Hcred Hprompt.
  unfold run at 1. rewrite runner_with_run. cbv zeta. rewrite Hcfg. cbn [fst snd app].
  unfold try_catch at 1.
  rewrite (runner_try_configured cm host openai _ _ _ _ _ _ _ Hlow Hmid).
  rewrite Hcred, Hprompt.
  unfold mbind at 1, M_bind at 1.
  rewrite attempt_frame by apply invocations_role_log.
  destruct (run (_attemptProviderCallWithRetries _ _ _ _ _ _)) as [[resp|e|] tr1];
    reflexivity.
Qed.

End RunnerEvaluation.

Section RunnerTraces.

Variable cm : ConfigManager.
Variable host : Host.
Variable openai : ProviderFnSet.

Lemma reaches_provider_spec (params : Params) :
  reaches_provider cm host params = true ↔
  ∃ pn mid, role_configured cm host params pn mid ∧
            str_truthy (credential host params) = true ∧
            str_truthy (prompt params) = true.
Proof.
  unfold reaches_provider, role_configured. cbv zeta.
  destruct (role_config cm (role params) (effective_root host params)) as [p m].
  cbn [fst snd]. rewrite !andb_true_iff. split.
  - intros ((((Hp & Hm) & Hlow) & Hcred) & Hprompt).
    destruct p as [pn|]; [|discriminate]. destruct m as [mid|]; [|discriminate].
    exists pn, mid. apply String.eqb_eq in Hlow. apply str_truthy_Some in Hm.
    by repeat split.
  - intros (pn & mid & (Heq & Hlow & Hmid) & Hcred & Hprompt).
    inversion Heq; subst. repeat split; try done.
    + by apply lower_openai_nonempty.
    + by apply str_truthy_Some.
    + by apply String.eqb_eq.
Qed.

(** A call that does not get as far as the provider fails, whatever the
    recorder, and invokes nothing. *)
Lemma runner_unreached (recorder : Recorder) (serviceType : ServiceType) (params : Params) :
  reaches_provider cm host params = false →
  ∃ e tr, run (runner_with cm host openai recorder serviceType params) = (Throw e, tr) ∧
          calls tr = [].
Proof.
  intros Hno. unfold run. rewrite runner_with_run. cbv zeta. unfold try_catch.
  destruct (runner_try_cases cm host openai recorder serviceType params
              (getUserId cm (effective_root host params))
              (role_config cm (role params) (effective_root host params)).1
              (role_config cm (role params) (effective_root host params)).2
              ([] ++ role_log (role params)))
    as [(e & tr' & Heq & Hcalls)|(pn & mid & Hp & Hm & Hlow & Hmid & Hcred & Hprompt)].
  - rewrite Heq.
    destruct (runner_catch_throws host serviceType (role params)
                (role_config cm (role params) (effective_root host params)).1
                (role_config cm (role params) (effective_root host params)).2 e tr')
      as [e' He'].
    rewrite He'. exists e', tr'. split; [reflexivity|].
    rewrite Hcalls. apply calls_role_log.
  - assert (reaches_provider cm host params = true) as Hyes; [|congruence].
    apply reaches_provider_spec. exists pn, mid. repeat split; try done.
    destruct (role_config cm (role params) (effective_root host params)).
    simpl in *. congruence.
Qed.

(** A call that gets as far as the provider: what the runner adds to the
    executor's run. *)
Lemma runner_reached (serviceType : ServiceType) (params : Params)
    (providerName modelId : string) :
  role_configured cm host params providerName modelId →
  str_truthy (credential host params) = true →
  str_truthy (prompt params) = true →
  ∀ out1 tr1,
    run (_attemptProviderCallWithRetries (select_fn openai serviceType)
           (request_of cm host serviceType params modelId
              (default "" (credential host params)))
           (fn_name serviceType) providerName modelId (role params)) = (out1, tr1) →
    ∃ out tr,
      run (_unifiedServiceRunner cm host openai serviceType params) = (out, tr) ∧
      calls tr = calls tr1 ∧
      match out1 with
      | Return resp =>
        ∃ t, out = Return (mkServiceResult (finalMainResult serviceType resp) t) ∧
             (is_Some (usage resp) →
              str_truthy (getUserId cm (effective_root host params)) = true →
              recorder_sound cm providerName → is_Some t) ∧
             (is_Some t → is_Some (usage resp) ∧
                          str_truthy (getUserId cm (effective_root host params)) = true)
      | Throw e =>
        out = Throw (Error
                (if match serviceType with generateObject => true | _ => false end &&
                    reports_no_tool_use (toLowerCase (_extractErrorMessage host e))
                 then specificErrorMsg (Some modelId) (Some providerName) (role params)
                 else _extractErrorMessage host e))
      | Diverge => out = Diverge
      end.
Proof.
  intros Hcfg Hcred Hprompt out1 tr1 Hrun.
  unfold _unifiedServiceRunner.
  rewrite (runner_configured_run cm host openai _ _ _ _ _ Hcfg Hcred Hprompt), Hrun.
  cbv zeta. destruct out1 as [resp|e|].
  - unfold try_catch.
    destruct (runner_success_logAiUsage cm host serviceType params
                (getUserId cm (effective_root host params)) providerName modelId resp
                (role_log (role params) ++ tr1))
      as (t & tr' & Heq & Hcalls & Hsome & Hnone).
    rewrite Heq. exists (Return (mkServiceResult (finalMainResult serviceType resp) t)), tr'.
    split; [reflexivity|]. split.
    + by rewrite Hcalls, calls_app, calls_role_log.
    + exists t. split; [reflexivity | split; assumption].
  - rewrite runner_catch_run. eexists _, _. split; [reflexivity|]. split; [|reflexivity].
    by rewrite calls_app, calls_role_log.
  - eexists _, _. split; [reflexivity|]. split; [|reflexivity].
    by rewrite calls_app, calls_role_log.
Qed.

End RunnerTraces.

(** ** The executor run from the empty trace *)

Lemma attempt_bounds (providerApiFn : ProviderFn) (callParams : CallParams)
    (fnName providerName modelId attemptRole : string) :
  ∃ out tr n,
    run (_attemptProviderCallWithRetries providerApiFn callParams fnName providerName
           modelId attemptRole) = (out, tr) ∧
    out ≠ Diverge ∧ calls tr = replicate n callParams ∧ 1 ≤ n ≤ MAX_RETRIES + 1.
Proof.
  unfold run, _attemptProviderCallWithRetries.
  destruct (retry_loop_bounds providerApiFn callParams fnName providerName attemptRole
              (S (S MAX_RETRIES)) 0 [])
    as (out & tr & Heq & Hout & Hlo & Hhi); [lia | lia |].
  destruct (retry_loop_calls _ _ _ _ _ _ _ _ _ _ Heq) as [n Hn]. simpl in Hn.
  exists out, tr, n. repeat split; try done.
  - rewrite invocations_nil, invocations_calls, Hn, length_replicate in Hlo. lia.
  - rewrite invocations_nil, invocations_calls, Hn, length_replicate in Hhi. lia.
Qed.

Lemma attempt_first_success (providerApiFn : ProviderFn) (callParams : CallParams)
    (fnName providerName modelId attemptRole : string) (resp : ProviderResponse) :
  providerApiFn callParams 0 = Fulfilled resp →
  run (_attemptProviderCallWithRetries providerApiFn callParams fnName providerName
         modelId attemptRole) = (Return resp, [EvCall callParams]).
Proof.
  intros H. unfold run, _attemptProviderCallWithRetries.
  by rewrite (retry_loop_success _ _ _ _ _ _ _ _ resp) by (try lia; exact H).
Qed.

(** ** The request *)

(** A key that the runner does not destructure *)
Ltac not_destructured :=
  unfold destructured_keys; rewrite !not_elem_of_cons;
  repeat split; try discriminate; apply not_elem_of_nil.

Lemma rest_of_lookup (params : Params) (key : string) :
  key ∉ destructured_keys → rest_of params !! key = restApiParams params !! key.
Proof.
  intros Hkey. unfold rest_of, destructured_keys in *. simpl.
  rewrite !lookup_delete_ne; [done|..]; intros <-; apply Hkey; set_solver.
Qed.

Lemma request_messages (cm : ConfigManager) (host : Host) (serviceType : ServiceType)
    (params : Params) (modelId apiKey : string) :
  restApiParams params !! "messages" = None →
  param "messages" (request_of cm host serviceType params modelId apiKey) =
    VArr (built_messages params).
Proof.
  intros Hrest. unfold param, request_of, build_callParams. cbv zeta.
  rewrite lookup_union_r.
  - by destruct serviceType; simplify_map_eq.
  - rewrite rest_of_lookup; [done | not_destructured].
Qed.

Lemma built_messages_end (params : Params) :
  str_truthy (prompt params) = true → ends_in_user_message (VArr (built_messages params)).
Proof.
  intros Hprompt. unfold built_messages. eexists _, _. split; [reflexivity|].
  destruct (prompt params) as [p|]; [|discriminate]. by apply str_truthy_Some.
Qed.

(** ** The runner: results *)

(** C1 (as amended).  When the role resolves to the OpenAI provider and a
    model, the credential is resolved, the prompt is non-empty and the
    adapter call succeeds with [resp], the runner returns an object whose
    [mainResult] is [resp.text] for generateText, [resp.object] for
    generateObject and [resp] itself for streamText; its [telemetryData] is
    non-null whenever [resp] carries usage data, the configuration yields a
    user id, and nothing fails inside the telemetry recorder -- and it is
    null when there is no usage data or no user id. *)
Theorem successful_call_result (cm : ConfigManager) (host : Host) (openai : ProviderFnSet)
    (serviceType : ServiceType) (params : Params) (providerName modelId : string)
    (resp : ProviderResponse) :
  role_configured cm host params providerName modelId →
  str_truthy (credential host params) = true →
  str_truthy (prompt params) = true →
  (run (_attemptProviderCallWithRetries (select_fn openai serviceType)
          (request_of cm host serviceType params modelId
             (default "" (credential host params)))
          (fn_name serviceType) providerName modelId (role params))).1 = Return resp →
  ∃ telemetry tr,
    run (_unifiedServiceRunner cm host openai serviceType params) =
      (Return (mkServiceResult
                 match serviceType with
                 | generateText => Payload (text resp)
                 | generateObject => Payload (object resp)
                 | streamText => WholeResponse resp
                 end telemetry), tr) ∧
    (is_Some (usage resp) →
     str_truthy (getUserId cm (effective_root host params)) = true →
     recorder_sound cm providerName → is_Some telemetry) ∧
    (is_Some telemetry →
     is_Some (usage resp) ∧ str_truthy (getUserId cm (effective_root host params)) = true).
Proof.
  intros Hcfg Hcred Hprompt Hrun.
  destruct (run (_attemptProviderCallWithRetries _ _ _ _ _ _)) as [out1 tr1] eqn:Hattempt.
  simpl in Hrun. subst out1.
  destruct (runner_reached cm host openai serviceType params providerName modelId
              Hcfg Hcred Hprompt _ _ Hattempt)
    as (out & tr & Heq & _ & t & -> & Hsome & Hnone).
  exists t, tr. split; [|split; assumption].
  rewrite Heq. by destruct serviceType.
Qed.


(** C4 (as amended).  For every service type, a call whose prompt is absent
    or empty fails without any invocation of the provider function; and
    when the caller's parameter object has no [messages] property of its
    own, every request passed to the provider function carries a non-empty
    [messages] array that ends in a user message. *)
Theorem missing_prompt_fails_before_call (cm : ConfigManager) (host : Host)
    (openai : ProviderFnSet) (serviceType : ServiceType) (params : Params) :
  (str_truthy (prompt params) = false →
   ∃ e tr, run (_unifiedServiceRunner cm host openai serviceType params) = (Throw e, tr) ∧
           invocations tr = 0) ∧
  (restApiParams params !! "messages" = None →
   ∀ cp, cp ∈ calls (run (_unifiedServiceRunner cm host openai serviceType params)).2 →
         ends_in_user_message (param "messages" cp)).
Proof.
  split.
  - intros Hprompt.
    destruct (runner_unreached cm host openai (logAiUsage cm host) serviceType params)
      as (e & tr & Heq & Hcalls).
    + unfold reaches_provider. rewrite Hprompt. apply andb_false_r.
    + exists e, tr. split; [exact Heq|]. by rewrite invocations_calls, Hcalls.
  - intros Hrest cp Hin.
    destruct (reaches_provider cm host params) eqn:Hreach.
    + apply reaches_provider_spec in Hreach as (pn & mid & Hcfg & Hcred & Hprompt).
      destruct (attempt_bounds (select_fn openai serviceType)
                  (request_of cm host serviceType params mid
                     (default "" (credential host params)))
                  (fn_name serviceType) pn mid (role params))
        as (out1 & tr1 & n & Hattempt & _ & Hcalls1 & _).
      destruct (runner_reached cm host openai serviceType params pn mid
                  Hcfg Hcred Hprompt _ _ Hattempt) as (out & tr & Heq & Hcalls & _).
      rewrite Heq in Hin. simpl in Hin. rewrite Hcalls, Hcalls1 in Hin.
      apply elem_of_replicate_inv in Hin as ->.
      rewrite request_messages by exact Hrest. by apply built_messages_end.
    + destruct (runner_unreached cm host openai (logAiUsage cm host) serviceType params
                  Hreach) as (e & tr & Heq & Hcalls).
      unfold _unifiedServiceRunner in Hin. rewrite Heq in Hin. simpl in Hin.
      rewrite Hcalls in Hin. by apply elem_of_nil in Hin.
Qed.

(** ** Failures of the provider call *)





(** ** Telemetry failures *)

(** C8.  [logAiUsage] never throws: what fails inside it (the price lookup
    on a malformed table) is caught and turned into a [null] result.  And
    should the recorder the runner calls throw all the same, the runner's
    own guard returns [{mainResult, telemetryData: null}] with the main
    result of the provider call. *)
Theorem telemetry_failure_is_isolated (cm : ConfigManager) (host : Host)
    (openai : ProviderFnSet) :
  (∀ userId commandName providerName modelId inputTokens outputTokens outputType tr,
     ∃ t tr',
       logAiUsage cm host userId commandName providerName modelId inputTokens outputTokens
         outputType tr = (Return t, tr') ∧
       ((∃ e, _getCostForModel cm providerName modelId = Rejected e) → t = None)) ∧
  (∀ (recorder : Recorder) serviceType params providerName modelId resp,
     role_configured cm host params providerName modelId →
     str_truthy (credential host params) = true →
     str_truthy (prompt params) = true →
     (run (_attemptProviderCallWithRetries (select_fn openai serviceType)
             (request_of cm host serviceType params modelId
                (default "" (credential host params)))
             (fn_name serviceType) providerName modelId (role params))).1 = Return resp →
     (∀ a b c d e f g tr, ∃ err tr', recorder a b c d e f g tr = (Throw err, tr')) →
     (run (runner_with cm host openai recorder serviceType params)).1 =
       Return (mkServiceResult (finalMainResult serviceType resp) None)).
Proof.
  split.
  - intros. rewrite logAiUsage_run.
    destruct (_getCostForModel cm providerName modelId) as [cost|e] eqn:Hcost.
    + eexists _, _. split; [reflexivity|]. intros (e & He). discriminate.
    + eexists _, _. split; reflexivity.
  - intros recorder serviceType params providerName modelId resp Hcfg Hcred Hprompt Hrun
      Hthrows.
    rewrite (runner_configured_run cm host openai _ _ _ _ _ Hcfg Hcred Hprompt).
    destruct (run (_attemptProviderCallWithRetries _ _ _ _ _ _)) as [out1 tr1].
    simpl in Hrun. subst out1. cbv zeta.
    unfold try_catch at 1. unfold runner_success.
    destruct (usage resp) as [u|];
      destruct (str_truthy (getUserId cm (effective_root host params))); try reflexivity.
    rewrite try_catch_bind.
    destruct (Hthrows (default "" (getUserId cm (effective_root host params)))
                (commandName params) providerName modelId (inputTokens u) (outputTokens u)
                (own_value (outputType params)) (role_log (role params) ++ tr1)) as (err & tr' & ->).
    reflexivity.
Qed.

(** ** The retry budget *)

(** Two requests on which the provider function agrees are retried alike. *)
Lemma retry_loop_ext (providerApiFn : ProviderFn) (cp1 cp2 : CallParams)
    (fnName providerName attemptRole : string) :
  (∀ k, providerApiFn cp1 k = providerApiFn cp2 k) →
  ∀ fuel retries tr1 tr2, invocations tr1 = invocations tr2 →
    (retry_loop fuel providerApiFn cp1 fnName providerName attemptRole retries tr1).1 =
    (retry_loop fuel providerApiFn cp2 fnName providerName attemptRole retries tr2).1 ∧
    invocations
      (retry_loop fuel providerApiFn cp1 fnName providerName attemptRole retries tr1).2 =
    invocations
      (retry_loop fuel providerApiFn cp2 fnName providerName attemptRole retries tr2).2.
Proof.
  intros Hext. induction fuel as [|fuel IH]; intros retries tr1 tr2 Htr.
  - by split.
  - rewrite !retry_loop_step. destruct (retries <=? MAX_RETRIES); [|by split].
    rewrite Htr, Hext.
    destruct (providerApiFn cp2 (invocations tr2)) as [r|e].
    + split; [reflexivity|]. simpl. by rewrite !invocations_call, Htr.
    + destruct (isRetryableError e && (retries <? MAX_RETRIES)).
      * apply IH. by rewrite !invocations_sleep, !invocations_call, Htr.
      * split; [reflexivity|]. simpl. by rewrite !invocations_call, Htr.
Qed.

Lemma rest_of_set_maxRetries (v : JsVal) (params : Params) :
  rest_of (set_maxRetries v params) = <["maxRetries" := v]> (rest_of params).
Proof.
  unfold rest_of. cbn [restApiParams set_maxRetries].
  apply foldr_delete_insert_notin. not_destructured.
Qed.

Lemma request_of_set_maxRetries (cm : ConfigManager) (host : Host)
    (serviceType : ServiceType) (v : JsVal) (params : Params) (modelId apiKey : string) :
  request_of cm host serviceType (set_maxRetries v params) modelId apiKey =
    <["maxRetries" := v]> (request_of cm host serviceType params modelId apiKey).
Proof.
  unfold request_of, build_callParams. cbv zeta.
  rewrite rest_of_set_maxRetries. by rewrite insert_union_l.
Qed.

(** The OpenAI adapter reads eight named properties of the request, and
    [maxRetries] is none of them. *)
Lemma generateOpenAIObject_ignores_maxRetries (host : Host) (backend : Backend)
    (callParams : CallParams) (v : JsVal) (k : nat) :
  generateOpenAIObject host backend (<["maxRetries" := v]> callParams) k =
  generateOpenAIObject host backend callParams k.
Proof.
  unfold generateOpenAIObject, openai_object_request, param.
  by rewrite !lookup_insert_ne by discriminate.
Qed.

Section RetryBudget.

Variable cm : ConfigManager.
Variable host : Host.
Variable openai : ProviderFnSet.

Lemma runner_invocation_bound (serviceType : ServiceType) (params : Params) :
  invocations (run (_unifiedServiceRunner cm host openai serviceType params)).2
    ≤ MAX_RETRIES + 1.
Proof.
  destruct (reaches_provider cm host params) eqn:Hreach.
  - apply reaches_provider_spec in Hreach as (pn & mid & Hcfg & Hcred & Hprompt).
    destruct (attempt_bounds (select_fn openai serviceType)
                (request_of cm host serviceType params mid
                   (default "" (credential host params)))
                (fn_name serviceType) pn mid (role params))
      as (out1 & tr1 & n & Hattempt & _ & Hcalls1 & Hn).
    destruct (runner_reached cm host openai serviceType params pn mid
                Hcfg Hcred Hprompt _ _ Hattempt) as (out & tr & Heq & Hcalls & _).
    rewrite Heq. cbn [snd]. rewrite invocations_calls, Hcalls, Hcalls1, length_replicate. lia.
  - destruct (runner_unreached cm host openai (logAiUsage cm host) serviceType params
                Hreach) as (e & tr & Heq & Hcalls).
    unfold _unifiedServiceRunner. rewrite Heq. cbn [snd].
    rewrite invocations_calls, Hcalls. simpl. lia.
Qed.

(** The runner always ends: the fuel of the executor is never used up. *)
Lemma runner_total (serviceType : ServiceType) (params : Params) :
  (run (_unifiedServiceRunner cm host openai serviceType params)).1 ≠ Diverge.
Proof.
  destruct (reaches_provider cm host params) eqn:Hreach.
  - apply reaches_provider_spec in Hreach as (pn & mid & Hcfg & Hcred & Hprompt).
    destruct (attempt_bounds (select_fn openai serviceType)
                (request_of cm host serviceType params mid
                   (default "" (credential host params)))
                (fn_name serviceType) pn mid (role params))
      as (out1 & tr1 & n & Hattempt & Hout1 & _).
    destruct (runner_reached cm host openai serviceType params pn mid
                Hcfg Hcred Hprompt _ _ Hattempt) as (out & tr & Heq & _ & Hres).
    rewrite Heq. cbn [fst]. destruct out1 as [resp|e|]; [| |done].
    + destruct Hres as (t & -> & _). discriminate.
    + rewrite Hres. discriminate.
  - destruct (runner_unreached cm host openai (logAiUsage cm host) serviceType params
                Hreach) as (e & tr & Heq & _).
    unfold _unifiedServiceRunner. rewrite Heq. discriminate.
Qed.

(** The requests of a run all carry the [maxRetries] of the parameters. *)
Lemma runner_calls_rest (serviceType : ServiceType) (params : Params) (key : string)
    (cp : CallParams) :
  key ∉ destructured_keys →
  key ∉ ["apiKey"; "modelId"; "maxTokens"; "temperature"; "messages"; "baseUrl"; "schema";
         "objectName"] →
  cp ∈ calls (run (_unifiedServiceRunner cm host openai serviceType params)).2 →
  cp !! key = restApiParams params !! key.
Proof.
  intros Hkey Hbuilt Hin.
  destruct (reaches_provider cm host params) eqn:Hreach.
  - apply reaches_provider_spec in Hreach as (pn & mid & Hcfg & Hcred & Hprompt).
    destruct (attempt_bounds (select_fn openai serviceType)
                (request_of cm host serviceType params mid
                   (default "" (credential host params)))
                (fn_name serviceType) pn mid (role params))
      as (out1 & tr1 & n & Hattempt & _ & Hcalls1 & Hn).
    destruct (runner_reached cm host openai serviceType params pn mid
                Hcfg Hcred Hprompt _ _ Hattempt) as (out & tr & Heq & Hcalls & _).
    rewrite Heq in Hin. cbn [snd] in Hin. rewrite Hcalls, Hcalls1 in Hin.
    apply elem_of_replicate_inv in Hin as ->.
    unfold request_of, build_callParams. cbv zeta.
    rewrite !not_elem_of_cons in Hbuilt.
    destruct Hbuilt as (? & ? & ? & ? & ? & ? & ? & ? & _).
    rewrite lookup_union, (rest_of_lookup params key Hkey).
    destruct serviceType; rewrite !lookup_insert_ne, lookup_empty by done;
      by destruct (restApiParams params !! key).
  - destruct (runner_unreached cm host openai (logAiUsage cm host) serviceType params
                Hreach) as (e & tr & Heq & Hcalls).
    unfold _unifiedServiceRunner in Hin. rewrite Heq in Hin. cbn [snd] in Hin.
    rewrite Hcalls in Hin. by apply elem_of_nil in Hin.
Qed.

End RetryBudget.

Section MaxRetriesParameter.

Variable cm : ConfigManager.
Variable host : Host.
Variable openai : ProviderFnSet.

(** A provider function that does not read [maxRetries] is invoked equally
    often, whatever value the caller passes for it. *)
Lemma runner_maxRetries_count (serviceType : ServiceType) (params : Params) (v : JsVal) :
  (∀ cp k, select_fn openai serviceType (<["maxRetries" := v]> cp) k =
           select_fn openai serviceType cp k) →
  invocations
    (run (_unifiedServiceRunner cm host openai serviceType (set_maxRetries v params))).2 =
  invocations (run (_unifiedServiceRunner cm host openai serviceType params)).2.
Proof.
  intros Hfn.
  destruct (reaches_provider cm host params) eqn:Hreach.
  - apply reaches_provider_spec in Hreach as (pn & mid & Hcfg & Hcred & Hprompt).
    destruct (run (_attemptProviderCallWithRetries (select_fn openai serviceType)
                (request_of cm host serviceType params mid
                   (default "" (credential host params)))
                (fn_name serviceType) pn mid (role params))) as [out1 tr1] eqn:Hattempt.
    destruct (run (_attemptProviderCallWithRetries (select_fn openai serviceType)
                (request_of cm host serviceType (set_maxRetries v params) mid
                   (default "" (credential host params)))
                (fn_name serviceType) pn mid (role params))) as [out2 tr2] eqn:Hattempt'.
    destruct (runner_reached cm host openai serviceType params pn mid
                Hcfg Hcred Hprompt _ _ Hattempt) as (out & tr & Heq & Hcalls & _).
    destruct (runner_reached cm host openai serviceType (set_maxRetries v params) pn mid
                Hcfg Hcred Hprompt _ _ Hattempt') as (out' & tr' & Heq' & Hcalls' & _).
    rewrite Heq, Heq'. cbn [snd].
    rewrite !invocations_calls, Hcalls, Hcalls', <- !invocations_calls.
    unfold run, _attemptProviderCallWithRetries in Hattempt, Hattempt'.
    rewrite request_of_set_maxRetries in Hattempt'.
    destruct (retry_loop_ext (select_fn openai serviceType)
                (<["maxRetries" := v]>
                   (request_of cm host serviceType params mid
                      (default "" (credential host params))))
                (request_of cm host serviceType params mid
                   (default "" (credential host params)))
                (fn_name serviceType) pn (role params) (Hfn _)
                (S (S MAX_RETRIES)) 0 [] [] eq_refl) as [_ Hcount].
    by rewrite Hattempt, Hattempt' in Hcount.
  - destruct (runner_unreached cm host openai (logAiUsage cm host) serviceType params
                Hreach) as (e & tr & Heq & Hcalls).
    destruct (runner_unreached cm host openai (logAiUsage cm host) serviceType
                (set_maxRetries v params) Hreach) as (e' & tr' & Heq' & Hcalls').
    unfold _unifiedServiceRunner. rewrite Heq, Heq'. cbn [snd].
    by rewrite !invocations_calls, Hcalls, Hcalls'.
Qed.

Lemma generateObjectService_set_maxRetries (v : JsVal) (params : Params) :
  generateObjectService cm host openai (set_maxRetries v params) =
  _unifiedServiceRunner cm host openai generateObject
    (set_maxRetries v
       (mkParams (role params) (session params) (projectRoot params) (systemPrompt params)
          (prompt params) (schema params)
          (with_default (objectName params) "generated_object") (commandName params)
          (with_default (outputType params) "cli")
          (restApiParams params ∪ {[ "maxRetries" := VNum 3 ]}))).
Proof.
  unfold generateObjectService, set_maxRetries. cbn [role session projectRoot systemPrompt
    prompt schema objectName commandName outputType restApiParams].
  by rewrite insert_union_l.
Qed.

(** C10.  Through each of the three facade entry points the provider
    function is invoked at most [MAX_RETRIES + 1 = 3] times.  The
    [maxRetries] property that [generateObjectService] accepts, and defaults
    to 3, travels into the request passed to the provider function and
    nowhere else; the OpenAI adapter does not read it; and the number of
    invocations is the same whatever value the caller gives it. *)
Theorem attempts_bounded_by_MAX_RETRIES (params : Params) :
  MAX_RETRIES + 1 = 3 ∧
  invocations (run (generateTextService cm host openai params)).2 ≤ MAX_RETRIES + 1 ∧
  invocations (run (streamTextService cm host openai params)).2 ≤ MAX_RETRIES + 1 ∧
  invocations (run (generateObjectService cm host openai params)).2 ≤ MAX_RETRIES + 1 ∧
  (∀ cp, cp ∈ calls (run (generateObjectService cm host openai params)).2 →
         cp !! "maxRetries" =
           Some (default (VNum 3) (restApiParams params !! "maxRetries"))) ∧
  (∀ backend cp v k,
     generateOpenAIObject host backend (<["maxRetries" := v]> cp) k =
     generateOpenAIObject host backend cp k) ∧
  (∀ backend v,
     fn_generateObject openai = generateOpenAIObject host backend →
     invocations (run (generateObjectService cm host openai (set_maxRetries v params))).2 =
     invocations (run (generateObjectService cm host openai params)).2).
Proof.
  split; [reflexivity|].
  split; [apply runner_invocation_bound|].
  split; [apply runner_invocation_bound|].
  split; [apply runner_invocation_bound|].
  split; [|split].
  - intros cp Hin. unfold generateObjectService in Hin.
    assert ("maxRetries" ∉ destructured_keys) as Hk1 by not_destructured.
    assert ("maxRetries" ∉ ["apiKey"; "modelId"; "maxTokens"; "temperature"; "messages";
                            "baseUrl"; "schema"; "objectName"]) as Hk2.
    { rewrite !not_elem_of_cons. repeat split; try discriminate. apply not_elem_of_nil. }
    rewrite (runner_calls_rest cm host openai generateObject _ "maxRetries" cp Hk1 Hk2 Hin).
    cbn [restApiParams]. rewrite lookup_union, lookup_singleton_eq.
    by destruct (restApiParams params !! "maxRetries").
  - intros. apply generateOpenAIObject_ignores_maxRetries.
  - intros backend v Hadapter.
    rewrite generateObjectService_set_maxRetries. unfold generateObjectService.
    apply runner_maxRetries_count. intros cp k. cbn [select_fn]. rewrite Hadapter.
    apply generateOpenAIObject_ignores_maxRetries.
Qed.

End MaxRetriesParameter.

(** ** Cost of a call *)

Lemma Qred_inject_div (n : Z) : (Qred (inject_Z n / 1000000) == n # 1000000)%Q.
Proof.
  rewrite Qred_correct. unfold Qeq, Qdiv, Qmult, Qinv, inject_Z. simpl.
  rewrite ?Pos.mul_1_l. lia.
Qed.

Lemma toFixed6_nonneg (x : Q) :
  (0 <= x)%Q →
  toFixed6 x = Qred (inject_Z (Qfloor (x * 1000000 + (1 # 2))) / 1000000)%Q.
Proof.
  intros Hx. unfold toFixed6. cbv zeta.
  rewrite (proj2 (Qle_bool_iff 0 x) Hx).
  apply Qred_complete.
  assert (Qabs x == x)%Q as Habs by by apply Qabs_pos.
  by rewrite Habs.
Qed.

Lemma toFixed6_neg (x : Q) :
  (x < 0)%Q →
  toFixed6 x = Qred (- Qred (inject_Z (Qfloor (- x * 1000000 + (1 # 2))) / 1000000))%Q.
Proof.
  intros Hx. unfold toFixed6. cbv zeta.
  destruct (Qle_bool 0 x) eqn:Hle.
  { apply Qle_bool_iff in Hle. lra. }
  apply Qred_complete.
  assert (Qabs x == - x)%Q as Habs by (apply Qabs_neg; lra).
  by rewrite Habs.
Qed.

(** [toFixed6] yields a multiple of 10^-6 within half a unit of its
    argument. *)
Lemma toFixed6_rounds (x : Q) :
  (∃ n : Z, toFixed6 x == n # 1000000)%Q ∧
  (Qabs (toFixed6 x - x) <= 1 # 2000000)%Q.
Proof.
  destruct (Qlt_le_dec x 0) as [Hneg|Hpos].
  - rewrite (toFixed6_neg x Hneg).
    set (n := Qfloor (- x * 1000000 + (1 # 2))%Q).
    pose proof (Qfloor_le (- x * 1000000 + (1 # 2))%Q) as Hlo.
    pose proof (Qlt_floor (- x * 1000000 + (1 # 2))%Q) as Hhi.
    fold n in Hlo, Hhi. rewrite inject_Z_plus in Hhi.
    assert (Qred (- Qred (inject_Z n / 1000000)) == - (inject_Z n / 1000000))%Q as Hval.
    { by rewrite !Qred_correct. }
    split.
    + exists (- n)%Z. rewrite Hval. unfold Qeq, Qdiv, Qmult, Qinv, Qopp, inject_Z. simpl.
      rewrite ?Pos.mul_1_l. lia.
    + rewrite Hval. apply Qabs_Qle_condition.
      change (inject_Z 1) with 1%Q in Hhi. unfold Qdiv.
      change (/ 1000000)%Q with (1 # 1000000)%Q. split; lra.
  - rewrite (toFixed6_nonneg x Hpos).
    set (n := Qfloor (x * 1000000 + (1 # 2))%Q).
    pose proof (Qfloor_le (x * 1000000 + (1 # 2))%Q) as Hlo.
    pose proof (Qlt_floor (x * 1000000 + (1 # 2))%Q) as Hhi.
    fold n in Hlo, Hhi. rewrite inject_Z_plus in Hhi.
    split.
    + exists n. apply Qred_inject_div.
    + rewrite Qred_correct. apply Qabs_Qle_condition.
      change (inject_Z 1) with 1%Q in Hhi. unfold Qdiv.
      change (/ 1000000)%Q with (1 # 1000000)%Q. split; lra.
Qed.

(** [toFixed6] does not depend on how its argument is written. *)
Lemma toFixed6_comp (x y : Q) : (x == y)%Q → toFixed6 x = toFixed6 y.
Proof.
  intros Hxy. unfold toFixed6. cbv zeta.
  assert (Qfloor (Qabs x * 1000000 + (1 # 2)) = Qfloor (Qabs y * 1000000 + (1 # 2)))
    as -> by (apply Qfloor_comp; by rewrite Hxy).
  assert (Qle_bool 0 x = Qle_bool 0 y) as ->; [|reflexivity].
  destruct (Qle_bool 0 y) eqn:Hy.
  - apply Qle_bool_iff. apply Qle_bool_iff in Hy. by rewrite Hxy.
  - destruct (Qle_bool 0 x) eqn:Hx; [|reflexivity].
    apply Qle_bool_iff in Hx. rewrite Hxy in Hx. apply Qle_bool_iff in Hx. congruence.
Qed.

(** *** Binary64 values do not depend on how a number is written *)

Lemma Qnum_0 (x : Q) : (x == 0)%Q ↔ Qnum x = 0%Z.
Proof. unfold Qeq. simpl. lia. Qed.

Lemma Qpow2_pos (e : Z) : (0 < 2 ^ e)%Q.
Proof. by apply Qpower_0_lt. Qed.

Lemma Qpow2_succ (e : Z) : (2 ^ (e + 1) == 2 * 2 ^ e)%Q.
Proof. rewrite Qpower_plus by done. change (2 ^ 1)%Q with 2%Q. ring. Qed.

(** [Qlog2 x] is the integer part of the binary logarithm of [|x|]. *)
Lemma Qlog2_spec (x : Q) :
  ¬ (x == 0)%Q → (2 ^ Qlog2 x <= Qabs x)%Q ∧ (Qabs x < 2 ^ (Qlog2 x + 1))%Q.
Proof.
  intros Hx. unfold Qlog2. cbv zeta.
  set (a := Z.log2 (Z.abs (Qnum x))). set (b := Z.log2 (Z.pos (Qden x))).
  assert (0 < Z.abs (Qnum x))%Z as Hn by (rewrite Qnum_0 in Hx; lia).
  destruct (Z.log2_spec _ Hn) as [Ha1 Ha2]. fold a in Ha1, Ha2.
  destruct (Z.log2_spec (Z.pos (Qden x)) ltac:(lia)) as [Hb1 Hb2]. fold b in Hb1, Hb2.
  assert (0 <= a)%Z as Ha0 by apply Z.log2_nonneg.
  assert (0 <= b)%Z as Hb0 by apply Z.log2_nonneg.
  assert (Qabs x == inject_Z (Z.abs (Qnum x)) / inject_Z (Z.pos (Qden x)))%Q as Habs.
  { destruct x as [n d]. unfold Qabs, Qeq, Qdiv, Qmult, Qinv, inject_Z. simpl. lia. }
  assert (inject_Z (2 ^ a) == 2 ^ a)%Q as HA by by apply Zpower_Qpower.
  assert (inject_Z (2 ^ b) == 2 ^ b)%Q as HB by by apply Zpower_Qpower.
  assert (inject_Z (2 ^ a) <= inject_Z (Z.abs (Qnum x)))%Q as Ha1' by by rewrite <- Zle_Qle.
  assert (inject_Z (Z.abs (Qnum x)) < inject_Z (2 ^ Z.succ a))%Q as Ha2' by by rewrite <- Zlt_Qlt.
  assert (inject_Z (2 ^ b) <= inject_Z (Z.pos (Qden x)))%Q as Hb1' by by rewrite <- Zle_Qle.
  assert (inject_Z (Z.pos (Qden x)) < inject_Z (2 ^ Z.succ b))%Q as Hb2' by by rewrite <- Zlt_Qlt.
  rewrite !Z.pow_succ_r, !inject_Z_mult in * by done.
  change (inject_Z 2) with 2%Q in *. rewrite HA in Ha1', Ha2'. rewrite HB in Hb1', Hb2'.
  set (N := inject_Z (Z.abs (Qnum x))) in *. set (D := inject_Z (Z.pos (Qden x))) in *.
  pose proof (Qpow2_pos a) as HPa. pose proof (Qpow2_pos b) as HPb.
  assert (0 < D)%Q as HD by lra.
  assert (2 ^ (a - b) == 2 ^ a / 2 ^ b)%Q as He by by apply Qpower_minus.
  assert (Qabs x < 2 ^ (a - b + 1))%Q as Hup.
  { rewrite Habs, Qpow2_succ, He. apply Qlt_shift_div_r; [exact HD|].
    assert (2 * (2 ^ a / 2 ^ b) * D == (2 * 2 ^ a) * (D / 2 ^ b))%Q as ->
      by (field; lra).
    assert (1 <= D / 2 ^ b)%Q as H1 by (apply Qle_shift_div_l; lra).
    nra. }
  assert (2 ^ (a - b - 1) < Qabs x)%Q as Hlo.
  { assert (2 ^ (a - b - 1) == 2 ^ a / (2 * 2 ^ b))%Q as ->.
    { rewrite (Qpower_minus 2 (a - b) 1), He by done. change (2 ^ 1)%Q with 2%Q.
      field. lra. }
    rewrite Habs. apply Qlt_shift_div_l; [exact HD|].
    assert (2 ^ a / (2 * 2 ^ b) * D == 2 ^ a * (D / (2 * 2 ^ b)))%Q as ->
      by (field; lra).
    assert (D / (2 * 2 ^ b) < 1)%Q as H1 by (apply Qlt_shift_div_r; lra).
    nra. }
  destruct (Qle_bool (2 ^ (a - b)) (Qabs x)) eqn:Hle.
  - apply Qle_bool_iff in Hle. by split.
  - split; [by apply Qlt_le_weak|].
    replace (a - b - 1 + 1)%Z with (a - b)%Z by lia.
    apply Qnot_le_lt. intros H. apply Qle_bool_iff in H. congruence.
Qed.

Lemma Qlog2_unique (y : Q) (k m : Z) :
  (2 ^ k <= y)%Q → (y < 2 ^ (k + 1))%Q → (2 ^ m <= y)%Q → (y < 2 ^ (m + 1))%Q → k = m.
Proof.
  intros Hk1 Hk2 Hm1 Hm2.
  assert (2 ^ k < 2 ^ (m + 1))%Q as H1 by lra.
  assert (2 ^ m < 2 ^ (k + 1))%Q as H2 by lra.
  apply Qpower_lt_compat_l_inv in H1; [|done].
  apply Qpower_lt_compat_l_inv in H2; [|done]. lia.
Qed.

Lemma Qlog2_comp (x y : Q) : (x == y)%Q → ¬ (x == 0)%Q → Qlog2 x = Qlog2 y.
Proof.
  intros Hxy Hx.
  assert (¬ (y == 0)%Q) as Hy by by rewrite <- Hxy.
  destruct (Qlog2_spec x Hx) as [H1 H2]. destruct (Qlog2_spec y Hy) as [H3 H4].
  assert (Qabs x == Qabs y)%Q as Habs by by apply Qabs_wd.
  apply (Qlog2_unique (Qabs x)); try done; by rewrite Habs.
Qed.

Lemma round_half_even_comp (x y : Q) : (x == y)%Q → round_half_even x = round_half_even y.
Proof.
  intros Hxy. unfold round_half_even. cbv zeta.
  rewrite (Qfloor_comp x y Hxy).
  assert ((x - inject_Z (Qfloor y) ?= 1 # 2) = (y - inject_Z (Qfloor y) ?= 1 # 2))%Q as ->;
    [|reflexivity].
  apply Qcompare_comp; [by rewrite Hxy | reflexivity].
Qed.

(** [binary64] does not depend on how its argument is written. *)
Lemma binary64_comp (x y : Q) : (x == y)%Q → binary64 x = binary64 y.
Proof.
  intros Hxy. unfold binary64. cbv zeta.
  destruct (Z.eqb_spec (Qnum x) 0) as [Hx|Hx]; destruct (Z.eqb_spec (Qnum y) 0) as [Hy|Hy].
  - reflexivity.
  - exfalso. apply Hy. apply Qnum_0. rewrite <- Hxy. by apply Qnum_0.
  - exfalso. apply Hx. apply Qnum_0. rewrite Hxy. by apply Qnum_0.
  - rewrite <- (Qlog2_comp x y Hxy) by by rewrite Qnum_0.
    set (q := Z.max _ _).
    rewrite (round_half_even_comp (x / 2 ^ q) (y / 2 ^ q)) by by rewrite Hxy.
    reflexivity.
Qed.

Lemma binary64_0 (x : Q) : (x == 0)%Q → binary64 x = 0%Q.
Proof. intros Hx. unfold binary64. apply Qnum_0 in Hx. by rewrite Hx. Qed.

Lemma js_div_comp (a a' b b' : Q) : (a == a')%Q → (b == b')%Q → js_div a b = js_div a' b'.
Proof. intros Ha Hb. apply binary64_comp. by rewrite Ha, Hb. Qed.

Lemma js_mul_comp (a a' b b' : Q) : (a == a')%Q → (b == b')%Q → js_mul a b = js_mul a' b'.
Proof. intros Ha Hb. apply binary64_comp. by rewrite Ha, Hb. Qed.

Lemma js_add_comp (a a' b b' : Q) : (a == a')%Q → (b == b')%Q → js_add a b = js_add a' b'.
Proof. intros Ha Hb. apply binary64_comp. by rewrite Ha, Hb. Qed.

Lemma round_half_even_Z (m : Z) : round_half_even (inject_Z m) = m.
Proof.
  unfold round_half_even. cbv zeta. rewrite Qfloor_Z.
  assert ((inject_Z m - inject_Z m ?= 1 # 2) = Lt)%Q as ->; [|reflexivity].
  rewrite <- Qlt_alt. lra.
Qed.

Lemma Qred_inject_Z (z : Z) : Qred (inject_Z z) = inject_Z z.
Proof.
  unfold Qred, inject_Z.
  pose proof (Z.ggcd_gcd z 1) as Hg. pose proof (Z.ggcd_correct_divisors z 1) as Hd.
  destruct (Z.ggcd z 1) as [g [q1 q2]]. cbn [fst snd] in *.
  rewrite Z.gcd_1_r in Hg. subst g. destruct Hd as [H1 H2].
  replace q2 with 1%Z by lia. replace q1 with z by lia. reflexivity.
Qed.

(** The integers up to 2^53 are binary64 values. *)
Lemma binary64_integer (z : Z) :
  (Z.abs z ≤ 2 ^ 53)%Z → binary64 (inject_Z z) = inject_Z z.
Proof.
  intros Hz.
  destruct (Z.eq_dec (Z.abs z) (2 ^ 53)%Z) as [Htop|Htop].
  { assert (z = 2 ^ 53 ∨ z = - 2 ^ 53)%Z as [-> | ->] by lia; vm_compute; reflexivity. }
  destruct (Z.eq_dec z 0%Z) as [-> | Hz0]; [reflexivity|].
  unfold binary64. cbn [Qnum inject_Z]. destruct (Z.eqb_spec z 0%Z) as [|_]; [done|].
  cbv zeta.
  assert (¬ (inject_Z z == 0)%Q) as Hnz by (rewrite Qnum_0; exact Hz0).
  destruct (Qlog2_spec (inject_Z z) Hnz) as [Hlo Hhi].
  set (e := Qlog2 (inject_Z z)) in *.
  assert (Qabs (inject_Z z) == inject_Z (Z.abs z))%Q as Habs.
  { unfold Qabs, inject_Z. reflexivity. }
  assert (1 <= Qabs (inject_Z z))%Q as H1.
  { rewrite Habs. change 1%Q with (inject_Z 1). rewrite <- Zle_Qle. lia. }
  assert (Qabs (inject_Z z) < 2 ^ 53)%Q as H53.
  { rewrite Habs. change (2 ^ 53)%Q with (inject_Z (2 ^ 53)). rewrite <- Zlt_Qlt. lia. }
  assert (0 ≤ e)%Z as He0.
  { assert (2 ^ 0 < 2 ^ (e + 1))%Q as H by (change (2 ^ 0)%Q with 1%Q; lra).
    apply (Qpower_lt_compat_l_inv 2 0 (e + 1)) in H; [lia | done]. }
  assert (e ≤ 52)%Z as He52.
  { assert (2 ^ e < 2 ^ 53)%Q as H by lra.
    apply (Qpower_lt_compat_l_inv 2 e 53) in H; [lia | done]. }
  replace (Z.max (e - 52) (-1074)) with (- (52 - e))%Z by lia.
  set (k := (52 - e)%Z). assert (0 ≤ k)%Z as Hk by lia.
  assert (2 ^ (- k) == / inject_Z (2 ^ k))%Q as Hpow.
  { rewrite Qpower_opp, Zpower_Qpower by exact Hk. reflexivity. }
  assert (0 < inject_Z (2 ^ k))%Q as Hpos.
  { rewrite Zpower_Qpower by exact Hk. by apply Qpower_0_lt. }
  rewrite (round_half_even_comp _ (inject_Z (z * 2 ^ k))).
  2:{ rewrite Hpow, inject_Z_mult. field. lra. }
  rewrite round_half_even_Z.
  etrans; [|apply (Qred_inject_Z z)]. apply Qred_complete. rewrite Hpow, inject_Z_mult. field. lra.
Qed.

Lemma js_add_int_exact (a b : Z) : (Z.abs (a + b) ≤ 2 ^ 53)%Z → js_add_int a b = (a + b)%Z.
Proof. intros H. unfold js_add_int. by rewrite binary64_integer, Qfloor_Z. Qed.

Lemma find_unlisted (models : list ModelData) (modelId : string) :
  (∀ m, m ∈ models → id m ≠ modelId) →
  find (fun m => (id m =? modelId)%string) models = None.
Proof.
  induction models as [|m models IH]; intros Hall; [reflexivity|]. simpl.
  destruct (String.eqb_spec (id m) modelId) as [Heq|_].
  - exfalso. apply (Hall m); [left | exact Heq].
  - apply IH. intros m' Hin. apply Hall. by right.
Qed.

Lemma getCostForModel_unlisted (cm : ConfigManager) (providerName modelId : string) :
  unlisted cm providerName modelId →
  _getCostForModel cm providerName modelId = Fulfilled (mkCostInfo 0 0 "USD").
Proof.
  unfold unlisted, _getCostForModel.
  destruct (MODEL_MAP cm ≫= _) as [[models|]|]; [| tauto | reflexivity].
  intros Hall. by rewrite (find_unlisted models modelId Hall).
Qed.

(** [parseFloat(x.toFixed(6))] of a number below 10^21 is the binary64
    value of a multiple of 10^-6 within half a unit of the number. *)
Lemma parseFloat_toFixed6_rounds (x : Q) :
  (Qabs x < 10 ^ 21)%Q →
  ∃ (r : Q) (n : Z),
    parseFloat_toFixed6 x = binary64 r ∧ (r == n # 1000000)%Q ∧
    (Qabs (r - x) <= 1 # 2000000)%Q.
Proof.
  intros Hx. unfold parseFloat_toFixed6.
  destruct (Qle_bool (10 ^ 21) (Qabs x)) eqn:Hle.
  { apply Qle_bool_iff in Hle. lra. }
  destruct (toFixed6_rounds x) as [[n Hn] Hnear]. by exists (toFixed6 x), n.
Qed.

Lemma getCostForModel_listed (cm : ConfigManager) (providerName modelId : string)
    (pricing : Pricing.t) :
  listed_price cm providerName modelId pricing →
  _getCostForModel cm providerName modelId =
    Fulfilled (mkCostInfo (or_zero (Pricing.input pricing))
                 (or_zero (Pricing.output pricing))
                 (default "USD" (or_else (Pricing.currency pricing) (Some "USD")))).
Proof.
  intros (table & models & entry & Hmap & Htable & Hfind & Hcost).
  unfold _getCostForModel. rewrite Hmap. cbn [mbind option_bind]. rewrite Htable, Hfind.
  cbn [mbind option_bind]. by rewrite Hcost.
Qed.

Lemma cost_formula_comp (inputTokens outputTokens inputCost inputCost' outputCost
    outputCost' : Q) :
  (inputCost == inputCost')%Q → (outputCost == outputCost')%Q →
  parseFloat_toFixed6
    (js_add (js_mul (js_div inputTokens 1000000) inputCost)
       (js_mul (js_div outputTokens 1000000) outputCost)) =
  parseFloat_toFixed6
    (js_add (js_mul (js_div inputTokens 1000000) inputCost')
       (js_mul (js_div outputTokens 1000000) outputCost')).
Proof.
  intros Hin Hout.
  rewrite (js_mul_comp _ _ inputCost inputCost' ltac:(reflexivity) Hin).
  by rewrite (js_mul_comp _ _ outputCost outputCost' ltac:(reflexivity) Hout).
Qed.

(** The cost that a call records at prices of 0 *)
Lemma free_call_costs_nothing (inputTokens outputTokens : Z) :
  parseFloat_toFixed6
    (js_add (js_mul (js_div (inject_Z inputTokens) 1000000) 0)
       (js_mul (js_div (inject_Z outputTokens) 1000000) 0)) = 0%Q.
Proof.
  unfold js_mul.
  rewrite (binary64_0 (js_div (inject_Z inputTokens) 1000000 * 0)%Q) by ring.
  rewrite (binary64_0 (js_div (inject_Z outputTokens) 1000000 * 0)%Q) by ring.
  reflexivity.
Qed.

(** C7.  A call that is priced records as its [totalCost] the value of
    [parseFloat((inputTokens / 1e6 * inputCost + outputTokens / 1e6 *
    outputCost).toFixed(6))], absent counts taken as 0 and every operation
    a binary64 one; the prices are those that the pricing table lists for
    the (provider, model) pair; the rounding yields the binary64 value of
    a multiple of 10^-6 within half a unit of the computed sum; at listed
    prices of 5 and 15 a call of a million tokens each way records 20; and
    for a pair that the table does not list both prices are 0, no error is
    raised and the recorded cost is 0. *)
Theorem telemetry_cost (cm : ConfigManager) (host : Host) :
  (∀ providerName modelId cost inputTokens outputTokens,
     _getCostForModel cm providerName modelId = Fulfilled cost →
     safe_count inputTokens → safe_count outputTokens →
     safe_price (inputCost cost) → safe_price (outputCost cost) →
     ∀ userId commandName outputType tr,
       ∃ t, logAiUsage cm host userId commandName providerName modelId inputTokens
              outputTokens outputType tr = (Return (Some t), tr) ∧
            Telemetry.totalCost t =
              parseFloat_toFixed6
                (js_add
                   (js_mul (js_div (inject_Z (default 0%Z inputTokens)) 1000000)
                      (inputCost cost))
                   (js_mul (js_div (inject_Z (default 0%Z outputTokens)) 1000000)
                      (outputCost cost))) ∧
            Telemetry.currency t = currency cost) ∧
  (∀ providerName modelId pricing,
     listed_price cm providerName modelId pricing →
     _getCostForModel cm providerName modelId =
       Fulfilled (mkCostInfo (or_zero (Pricing.input pricing))
                    (or_zero (Pricing.output pricing))
                    (default "USD" (or_else (Pricing.currency pricing) (Some "USD"))))) ∧
  (∀ x : Q,
     (Qabs x < 10 ^ 21)%Q →
     ∃ (r : Q) (n : Z),
       parseFloat_toFixed6 x = binary64 r ∧ (r == n # 1000000)%Q ∧
       (Qabs (r - x) <= 1 # 2000000)%Q) ∧
  (∀ providerName modelId pricing,
     listed_price cm providerName modelId pricing →
     (or_zero (Pricing.input pricing) == 5)%Q →
     (or_zero (Pricing.output pricing) == 15)%Q →
     ∀ userId commandName outputType tr,
       ∃ t, logAiUsage cm host userId commandName providerName modelId (Some 1000000%Z)
              (Some 1000000%Z) outputType tr = (Return (Some t), tr) ∧
            Telemetry.totalCost t = 20%Q) ∧
  (∀ providerName modelId,
     unlisted cm providerName modelId →
     _getCostForModel cm providerName modelId = Fulfilled (mkCostInfo 0 0 "USD") ∧
     ∀ userId commandName inputTokens outputTokens outputType tr,
       ∃ t, logAiUsage cm host userId commandName providerName modelId inputTokens
              outputTokens outputType tr = (Return (Some t), tr) ∧
            Telemetry.totalCost t = 0%Q).
Proof.
  split; [|split; [|split; [|split]]].
  - intros providerName modelId cost inputTokens outputTokens Hcost _ _ _ _
      userId commandName outputType tr.
    rewrite logAiUsage_run, Hcost. eexists. split; [reflexivity|]. by split.
  - apply getCostForModel_listed.
  - apply parseFloat_toFixed6_rounds.
  - intros providerName modelId pricing Hlisted Hin Hout userId commandName outputType tr.
    rewrite logAiUsage_run, (getCostForModel_listed _ _ _ _ Hlisted).
    eexists. split; [reflexivity|].
    etrans; [apply (cost_formula_comp _ _ _ 5%Q _ 15%Q Hin Hout)|].
    vm_compute. reflexivity.
  - intros providerName modelId Hun.
    pose proof (getCostForModel_unlisted cm providerName modelId Hun) as Hcost.
    split; [exact Hcost|].
    intros userId commandName inputTokens outputTokens outputType tr.
    rewrite logAiUsage_run, Hcost. eexists. split; [reflexivity|].
    unfold telemetry_record. cbn [Telemetry.totalCost inputCost outputCost].
    apply free_call_costs_nothing.
Qed.

(** ** Schema sanitisation *)

Lemma JsVal_induction (P : JsVal → Prop) :
  P VUndef → P VNull → (∀ b, P (VBool b)) → (∀ n, P (VNum n)) → (∀ s, P (VStr s)) →
  (∀ items, Forall P items → P (VArr items)) →
  (∀ fields, Forall (fun kv => P kv.2) fields → P (VObj fields)) →
  ∀ v, P v.
Proof.
  intros HUndef HNull HBool HNum HStr HArr HObj.
  fix IH 1. intros [| |b|n|s|items|fields].
  - exact HUndef.
  - exact HNull.
  - apply HBool.
  - apply HNum.
  - apply HStr.
  - apply HArr. induction items as [|item items IHitems]; constructor; [apply IH | exact IHitems].
  - apply HObj. induction fields as [|[key v] fields IHfields]; constructor;
      [apply IH | exact IHfields].
Qed.

Lemma cleanJsonSchema_not_object (v : JsVal) : is_object v = false → cleanJsonSchema v = v.
Proof. by destruct v. Qed.

(** The object case: the unsupported keys go, the others stay in order, with
    their values cleaned. *)
Lemma cleanJsonSchema_object (fields : list (string * JsVal)) :
  cleanJsonSchema (VObj fields) =
  VObj (map (fun kv => (kv.1, cleanJsonSchema kv.2))
          (List.filter (fun kv => negb (unsupported_keyword kv.1)) fields)).
Proof.
  cbn [cleanJsonSchema]. f_equal.
  induction fields as [|[key v] fields IH]; [reflexivity|].
  cbn [List.filter fst snd]. destruct (unsupported_keyword key); cbn [negb]; [exact IH|].
  cbn [map fst snd]. rewrite <- IH.
  destruct (is_object v) eqn:Hobj; [reflexivity|].
  by rewrite (cleanJsonSchema_not_object v Hobj).
Qed.

Lemma cleanJsonSchema_clean (schema : JsVal) :
  mentions unsupported_keyword (cleanJsonSchema schema) = false.
Proof.
  induction schema as [| | | | |items IH|fields IH] using JsVal_induction; try reflexivity.
  - cbn [cleanJsonSchema mentions].
    induction IH as [|item items Hitem _ IHitems]; [reflexivity|].
    cbn [map existsb]. by rewrite Hitem, IHitems.
  - rewrite cleanJsonSchema_object. cbn [mentions].
    induction IH as [|[key v] fields Hv _ IHfields]; [reflexivity|].
    cbn [List.filter fst snd] in *. destruct (unsupported_keyword key) eqn:Hkey; cbn [negb];
      [exact IHfields|].
    cbn [map existsb fst snd]. by rewrite Hkey, Hv, IHfields.
Qed.

Lemma cleanJsonSchema_id (schema : JsVal) :
  mentions unsupported_keyword schema = false → cleanJsonSchema schema = schema.
Proof.
  induction schema as [| | | | |items IH|fields IH] using JsVal_induction; try reflexivity.
  - cbn [cleanJsonSchema mentions]. intros Hno. f_equal.
    induction IH as [|item items Hitem _ IHitems]; [reflexivity|].
    cbn [existsb] in Hno. apply orb_false_iff in Hno as [Hno1 Hno2].
    cbn [map]. by rewrite Hitem, IHitems.
  - rewrite cleanJsonSchema_object. cbn [mentions]. intros Hno. f_equal.
    induction IH as [|[key v] fields Hv _ IHfields]; [reflexivity|].
    cbn [existsb fst snd] in Hno. apply orb_false_iff in Hno as [Hno1 Hno2].
    apply orb_false_iff in Hno1 as [Hkey Hval].
    cbn [List.filter fst snd] in *. rewrite Hkey. cbn [negb map fst snd].
    by rewrite Hv, IHfields.
Qed.

Lemma assoc_filter_map (key : string) (fields : list (string * JsVal)) :
  unsupported_keyword key = false →
  assoc key (map (fun kv => (kv.1, cleanJsonSchema kv.2))
               (List.filter (fun kv => negb (unsupported_keyword kv.1)) fields)) =
  cleanJsonSchema (assoc key fields).
Proof.
  intros Hkey. induction fields as [|[k v] fields IH]; [reflexivity|].
  cbn [List.filter assoc fst snd].
  destruct (String.eqb_spec k key) as [->|Hne].
  - rewrite Hkey. cbn [negb map assoc fst snd]. by rewrite String.eqb_refl.
  - destruct (unsupported_keyword k); cbn [negb]; [exact IH|].
    cbn [map assoc fst snd]. by rewrite (proj2 (String.eqb_neq k key) Hne).
Qed.

(** What a surviving key holds after cleaning is the cleaned value it held
    before. *)
Lemma cleanJsonSchema_get (key : string) (schema : JsVal) :
  unsupported_keyword key = false →
  get key (cleanJsonSchema schema) = cleanJsonSchema (get key schema).
Proof.
  intros Hkey. destruct schema as [| | | | |items|fields]; try reflexivity.
  rewrite cleanJsonSchema_object. cbn [get]. by apply assoc_filter_map.
Qed.

(** The in-place helper of the AI-SDK variant leaves [exclusiveMaximum]. *)
Lemma cleanSchema_keeps_exclusiveMaximum :
  cleanSchema bounded_schema = bounded_schema ∧
  mentions unsupported_keyword (cleanSchema bounded_schema) = true.
Proof. split; reflexivity. Qed.

Section SchemaTransmission.

Variable cm : ConfigManager.
Variable host : Host.
Variable openai : ProviderFnSet.

(** A structured-object request carries the schema of the parameters. *)
Lemma runner_calls_schema (params : Params) (cp : CallParams) :
  cp ∈ calls (run (_unifiedServiceRunner cm host openai generateObject params)).2 →
  param "schema" cp = schema params.
Proof.
  intros Hin.
  destruct (reaches_provider cm host params) eqn:Hreach.
  - apply reaches_provider_spec in Hreach as (pn & mid & Hcfg & Hcred & Hprompt).
    destruct (attempt_bounds (select_fn openai generateObject)
                (request_of cm host generateObject params mid
                   (default "" (credential host params)))
                (fn_name generateObject) pn mid (role params))
      as (out1 & tr1 & n & Hattempt & _ & Hcalls1 & Hn).
    destruct (runner_reached cm host openai generateObject params pn mid
                Hcfg Hcred Hprompt _ _ Hattempt) as (out & tr & Heq & Hcalls & _).
    rewrite Heq in Hin. cbn [snd] in Hin. rewrite Hcalls, Hcalls1 in Hin.
    apply elem_of_replicate_inv in Hin as ->.
    unfold param, request_of, build_callParams. cbv zeta.
    rewrite lookup_union_r.
    + by rewrite lookup_insert_ne, lookup_insert_eq by discriminate.
    + unfold rest_of, destructured_keys. cbn [foldr].
      rewrite !lookup_delete_ne by discriminate. apply lookup_delete_eq.
  - destruct (runner_unreached cm host openai (logAiUsage cm host) generateObject params
                Hreach) as (e & tr & Heq & Hcalls).
    unfold _unifiedServiceRunner in Hin. rewrite Heq in Hin. cbn [snd] in Hin.
    rewrite Hcalls in Hin. by apply elem_of_nil in Hin.
Qed.

(** C9 (as amended).  [cleanJsonSchema] removes the keys [$schema],
    [exclusiveMinimum] and [exclusiveMaximum] at every depth of a schema and
    leaves everything else as it was: a schema without these keys is
    returned unchanged, an object keeps its other properties in order with
    cleaned values, an array is cleaned element by element, and any other
    value is returned as it is.  The OpenAI adapter does no cleaning of its
    own: it transmits, as the tool's parameters, the schema of the request
    it is given.  The PRD parser cleans the schema before it calls
    [generateObjectService], so that what the adapter transmits for it is
    the cleaned schema. *)
Theorem schema_sanitisation :
  (∀ schema, mentions unsupported_keyword (cleanJsonSchema schema) = false) ∧
  (∀ schema, mentions unsupported_keyword schema = false →
             cleanJsonSchema schema = schema) ∧
  (∀ fields,
     cleanJsonSchema (VObj fields) =
     VObj (map (fun kv => (kv.1, cleanJsonSchema kv.2))
             (List.filter (fun kv => negb (unsupported_keyword kv.1)) fields))) ∧
  (∀ items, cleanJsonSchema (VArr items) = VArr (map cleanJsonSchema items)) ∧
  (∀ v, is_object v = false → cleanJsonSchema v = v) ∧
  (∀ callParams,
     req_tool_parameters (openai_object_request callParams) = param "schema" callParams) ∧
  (∀ jsonSchema session projectRoot systemPrompt userPrompt isMCP cp,
     cp ∈ calls (run (generateObjectService cm host openai
                        (parsePRD_params jsonSchema session projectRoot systemPrompt
                           userPrompt isMCP))).2 →
     req_tool_parameters (openai_object_request cp) = cleanJsonSchema jsonSchema ∧
     mentions unsupported_keyword (req_tool_parameters (openai_object_request cp)) = false).
Proof.
  split; [apply cleanJsonSchema_clean|].
  split; [apply cleanJsonSchema_id|].
  split; [apply cleanJsonSchema_object|].
  split; [reflexivity|].
  split; [apply cleanJsonSchema_not_object|].
  split; [reflexivity|].
  intros jsonSchema session projectRoot systemPrompt userPrompt isMCP cp Hin.
  unfold generateObjectService in Hin. apply runner_calls_schema in Hin.
  cbn [openai_object_request req_tool_parameters]. rewrite Hin.
  cbn [schema parsePRD_params]. split; [reflexivity | apply cleanJsonSchema_clean].
Qed.

End SchemaTransmission.

(** ** The properties on the fixtures *)

(** C1, as first stated, fails: without a user id the runner returns
    [telemetryData: null] although the adapter result includes usage data. *)
Lemma telemetry_without_user_id_counterexample :
  role_configured (mock_config None) (mock_host mock_env)
    (mock_params "main" (Some "Test") ∅) "openai" "gpt-4o" ∧
  str_truthy (credential (mock_host mock_env) (mock_params "main" (Some "Test") ∅)) = true ∧
  str_truthy (prompt (mock_params "main" (Some "Test") ∅)) = true ∧
  known_role (role (mock_params "main" (Some "Test") ∅)) = true ∧
  is_Some (usage mock_response) ∧
  run (generateTextService (mock_config None) (mock_host mock_env)
         (mock_openai (answers mock_response)) (mock_params "main" (Some "Test") ∅)) =
    (Return (mkServiceResult (Payload (VStr "Main provider response")) None),
     [EvCall (request_of (mock_config None) (mock_host mock_env) generateText
                (mock_params "main" (Some "Test") ∅) "gpt-4o" "mock-openai-key")]).
Proof.
  split; [|split; [|split; [|split; [|split]]]].
  - unfold role_configured. split; [reflexivity|]. split; [reflexivity | discriminate].
  - vm_compute. reflexivity.
  - reflexivity.
  - reflexivity.
  - by eexists.
  - vm_compute. reflexivity.
Qed.

Lemma successful_call_result_witness :
  ∃ telemetry tr,
    run (_unifiedServiceRunner (mock_config (Some "test-user-id")) (mock_host mock_env)
           (mock_openai (answers mock_response)) generateText
           (mock_params "main" (Some "Test") ∅)) =
      (Return (mkServiceResult (Payload (text mock_response)) telemetry), tr) ∧
    (is_Some (usage mock_response) →
     str_truthy (getUserId (mock_config (Some "test-user-id"))
                   (effective_root (mock_host mock_env)
                      (mock_params "main" (Some "Test") ∅))) = true →
     recorder_sound (mock_config (Some "test-user-id")) "openai" → is_Some telemetry) ∧
    (is_Some telemetry →
     is_Some (usage mock_response) ∧
     str_truthy (getUserId (mock_config (Some "test-user-id"))
                   (effective_root (mock_host mock_env)
                      (mock_params "main" (Some "Test") ∅))) = true).
Proof.
  apply (successful_call_result (mock_config (Some "test-user-id")) (mock_host mock_env)
           (mock_openai (answers mock_response)) generateText
           (mock_params "main" (Some "Test") ∅) "openai" "gpt-4o" mock_response).
  - unfold role_configured. split; [reflexivity|]. split; [reflexivity | discriminate].
  - vm_compute. reflexivity.
  - reflexivity.
  - vm_compute. reflexivity.
Defined.

Lemma retry_executor_policy_witness :
  invocations
    (run (_attemptProviderCallWithRetries (fails_with rate_limited) ∅ "generateOpenAIText"
            "openai" "gpt-4o" "main")).2 = MAX_RETRIES + 1 ∧
  ∃ e, fails_with rate_limited ∅ MAX_RETRIES = Rejected e ∧
       (run (_attemptProviderCallWithRetries (fails_with rate_limited) ∅
               "generateOpenAIText" "openai" "gpt-4o" "main")).1 = Throw e.
Proof.
  apply (retry_executor_policy (fails_with rate_limited) ∅ "generateOpenAIText" "openai"
           "gpt-4o" "main").
  intros k _. exists rate_limited. split; reflexivity.
Defined.

(** The executor on the fixtures: one retry after a rate limit, with a
    back-off of one second; and the full budget, with back-offs of one and
    two seconds. *)
Example retry_then_success :
  run (_attemptProviderCallWithRetries (fails_once rate_limited mock_response) ∅
         "generateOpenAIText" "openai" "gpt-4o" "main") =
    (Return mock_response, [EvCall ∅; EvSleep 1000; EvCall ∅]).
Proof. vm_compute. reflexivity. Qed.

Example retry_exhausted :
  run (_attemptProviderCallWithRetries (fails_with rate_limited) ∅ "generateOpenAIText"
         "openai" "gpt-4o" "main") =
    (Throw rate_limited, [EvCall ∅; EvSleep 1000; EvCall ∅; EvSleep 2000; EvCall ∅]).
Proof. vm_compute. reflexivity. Qed.

Example no_retry_on_fatal_error :
  run (_attemptProviderCallWithRetries (fails_with (Error "Invalid model id")) ∅
         "generateOpenAIText" "openai" "gpt-4o" "main") =
    (Throw (Error "Invalid model id"), [EvCall ∅]).
Proof. vm_compute. reflexivity. Qed.



(** C4, as first stated, fails in its second half: a [messages] property of
    the caller's own replaces the array the runner built, and the provider
    function receives an empty [messages] array. *)
Lemma messages_override_counterexample :
  str_truthy (prompt (mock_params "main" (Some "Test") {[ "messages" := VArr [] ]})) = true ∧
  ∃ cp,
    cp ∈ calls (run (generateTextService (mock_config (Some "test-user-id"))
                      (mock_host mock_env) (mock_openai (answers mock_response))
                      (mock_params "main" (Some "Test") {[ "messages" := VArr [] ]}))).2 ∧
    param "messages" cp = VArr [] ∧
    ¬ ends_in_user_message (param "messages" cp).
Proof.
  split; [reflexivity|].
  eexists. split; [vm_compute; apply list_elem_of_here|].
  assert (∀ v, v = VArr [] → ¬ ends_in_user_message v) as Hempty.
  { intros v -> (earlier & content & Heq & _). destruct earlier; discriminate. }
  split; [vm_compute; reflexivity | apply Hempty; vm_compute; reflexivity].
Qed.

Lemma missing_prompt_fails_before_call_witness :
  (∃ e tr,
     run (_unifiedServiceRunner (mock_config (Some "test-user-id")) (mock_host mock_env)
            (mock_openai (answers mock_response)) generateText
            (mock_params "main" None ∅)) = (Throw e, tr) ∧
     invocations tr = 0) ∧
  ends_in_user_message
    (param "messages"
       (request_of (mock_config (Some "test-user-id")) (mock_host mock_env) generateText
          (mock_params "main" (Some "Test") ∅) "gpt-4o" "mock-openai-key")).
Proof.
  split.
  - apply (missing_prompt_fails_before_call (mock_config (Some "test-user-id"))
             (mock_host mock_env) (mock_openai (answers mock_response)) generateText
             (mock_params "main" None ∅)).
    reflexivity.
  - apply (proj2 (missing_prompt_fails_before_call (mock_config (Some "test-user-id"))
                    (mock_host mock_env) (mock_openai (answers mock_response)) generateText
                    (mock_params "main" (Some "Test") ∅))).
    + reflexivity.
    + vm_compute. apply list_elem_of_here.
Defined.

Lemma missing_credential_fails_before_call_witness :
  ∃ tr,
    run (_unifiedServiceRunner (mock_config (Some "test-user-id")) (mock_host ∅)
           (mock_openai (answers mock_response)) generateText
           (mock_params "main" (Some "Test") ∅)) =
      (Throw (Error ("API key missing for provider '" +:+ "openai" +:+ "'.")), tr) ∧
    invocations tr = 0.
Proof.
  apply (missing_credential_fails_before_call (mock_config (Some "test-user-id"))
           (mock_host ∅) (mock_openai (answers mock_response)) generateText
           (mock_params "main" (Some "Test") ∅) "openai" "gpt-4o").
  - unfold role_configured. split; [reflexivity|]. split; [reflexivity | discriminate].
  - unfold unresolvable. repeat split; vm_compute; reflexivity.
Defined.

(** What the shipped adapter makes of such a backend error: its own message,
    which names the model and none of the phrases the runner looks for. *)
Lemma openai_adapter_rewrites_tool_use_error (host : Host) (backend : Backend)
    (schema : JsVal) (k : nat) (client : OpenAIClient) :
  truthy schema = true →
  getOpenAIClient host (VStr "mock-openai-key") VUndef = client →
  backend client (openai_object_request (object_request schema)) k = Rejected no_tools →
  generateOpenAIObject host backend (object_request schema) k =
    Rejected (Error "Model 'gpt-4o' via OpenAI API does not support the 'tool use' (function calling) required for object generation. Please configure a model that supports tool/function calling for this role.") ∧
  reports_no_tool_use (toLowerCase "Model 'gpt-4o' via OpenAI API does not support the 'tool use' (function calling) required for object generation. Please configure a model that supports tool/function calling for this role.") = false.
Proof.
  intros Hschema Hclient Hbackend. split; [|vm_compute; reflexivity].
  unfold generateOpenAIObject.
  replace (param "apiKey" (object_request schema)) with (VStr "mock-openai-key")
    by (vm_compute; reflexivity).
  replace (param "modelId" (object_request schema)) with (VStr "gpt-4o")
    by (vm_compute; reflexivity).
  replace (param "messages" (object_request schema)) with (VArr [message_obj "user" "Test"])
    by (vm_compute; reflexivity).
  replace (param "objectName" (object_request schema)) with (VStr "tasks_data")
    by (vm_compute; reflexivity).
  replace (param "baseUrl" (object_request schema)) with VUndef by (vm_compute; reflexivity).
  replace (param "schema" (object_request schema)) with schema.
  - rewrite Hschema. cbn [truthy negb String.eqb nonempty_array]. simpl negb. cbv iota.
    rewrite Hclient, Hbackend. reflexivity.
  - unfold param, object_request.
    by rewrite !lookup_insert_ne, lookup_insert_eq by discriminate.
Qed.

Lemma telemetry_cost_witness :
  (∃ t, logAiUsage (mock_config (Some "test-user-id")) (mock_host mock_env) "test-user-id"
          None "openai" "gpt-4o" (Some 10%Z) (Some 20%Z) None [] =
          (Return (Some t), []) ∧
        Telemetry.totalCost t = binary64 (7 # 20000) ∧ Telemetry.currency t = "USD") ∧
  _getCostForModel (mock_config (Some "test-user-id")) "openai" "gpt-4o" =
    Fulfilled (mkCostInfo 5 15 "USD") ∧
  (∃ (r : Q) (n : Z),
     parseFloat_toFixed6 (1 # 3) = binary64 r ∧ (r == n # 1000000)%Q ∧
     (Qabs (r - (1 # 3)) <= 1 # 2000000)%Q) ∧
  (∃ t, logAiUsage (mock_config (Some "test-user-id")) (mock_host mock_env) "test-user-id"
          None "openai" "gpt-4o" (Some 1000000%Z) (Some 1000000%Z) None [] =
          (Return (Some t), []) ∧
        Telemetry.totalCost t = 20%Q) ∧
  ∃ t, logAiUsage (mock_config (Some "test-user-id")) (mock_host mock_env) "test-user-id"
         None "openai" "gpt-4o-mini" (Some 10%Z) (Some 20%Z) None [] =
         (Return (Some t), []) ∧
       Telemetry.totalCost t = 0%Q.
Proof.
  destruct (telemetry_cost (mock_config (Some "test-user-id")) (mock_host mock_env))
    as (Hrecord & Hlisted & Hrounds & Hexample & Hunlisted).
  assert (listed_price (mock_config (Some "test-user-id")) "openai" "gpt-4o"
            (Pricing.mk (Some 5%Q) (Some 15%Q) (Some "USD"))) as Hgpt4o.
  { eexists _, _, _. split; [reflexivity|]. split; [reflexivity|].
    split; reflexivity. }
  split; [|split; [|split; [|split]]].
  - destruct (Hrecord "openai" "gpt-4o" (mkCostInfo 5 15 "USD") (Some 10%Z) (Some 20%Z))
      with (userId := "test-user-id") (commandName := @None string)
           (outputType := @None string) (tr := @nil Event) as (t & Hrun & Hcost & Hcurrency).
    + vm_compute. reflexivity.
    + unfold safe_count. simpl. lia.
    + unfold safe_count. simpl. lia.
    + split; [vm_compute; reflexivity | unfold Qle; simpl; lia].
    + split; [vm_compute; reflexivity | unfold Qle; simpl; lia].
    + exists t. split; [exact Hrun|]. split; [|exact Hcurrency].
      rewrite Hcost. vm_compute. reflexivity.
  - apply (Hlisted "openai" "gpt-4o" _ Hgpt4o).
  - apply (Hrounds (1 # 3)%Q). unfold Qlt. simpl. lia.
  - apply (Hexample "openai" "gpt-4o" _ Hgpt4o); reflexivity.
  - destruct (Hunlisted "openai" "gpt-4o-mini") as [_ Hzero].
    + unfold unlisted. replace (MODEL_MAP _ ≫= _) with
        (Some (ModelList [mkModelData "gpt-4o"
                            (Some (Pricing.mk (Some 5%Q) (Some 15%Q) (Some "USD")))]))
        by (vm_compute; reflexivity).
      intros m Hin. apply list_elem_of_singleton in Hin as ->. discriminate.
    + apply (Hzero "test-user-id" None (Some 10%Z) (Some 20%Z) None []).
Defined.

(** The priced model of the fixtures, a million tokens each way *)
Example telemetry_cost_gpt4o :
  ∃ t, logAiUsage (mock_config (Some "test-user-id")) (mock_host mock_env) "test-user-id"
         None "openai" "gpt-4o" (Some 1000000%Z) (Some 1000000%Z) None [] =
         (Return (Some t), []) ∧
       Telemetry.totalCost t = 20%Q ∧ Telemetry.totalTokens t = 2000000%Z.
Proof. eexists. split; [vm_compute; reflexivity | split; vm_compute; reflexivity]. Qed.

(** One token at a price of a half: the product is computed below
    0.0000005 and the record holds 0. *)
Example telemetry_cost_half_price :
  ∃ t, logAiUsage half_price_config (mock_host mock_env) "test-user-id"
         None "openai" "gpt-4o" (Some 1%Z) None None [] = (Return (Some t), []) ∧
       Telemetry.totalCost t = 0%Q ∧ Telemetry.totalTokens t = 1%Z.
Proof. eexists. split; [vm_compute; reflexivity | split; vm_compute; reflexivity]. Qed.

Lemma telemetry_failure_is_isolated_witness :
  (run (runner_with (mock_config (Some "test-user-id")) (mock_host mock_env)
          (mock_openai (answers mock_response)) broken_recorder generateText
          (mock_params "main" (Some "Test") ∅))).1 =
    Return (mkServiceResult (finalMainResult generateText mock_response) None).
Proof.
  destruct (telemetry_failure_is_isolated (mock_config (Some "test-user-id"))
              (mock_host mock_env) (mock_openai (answers mock_response))) as [_ Hguard].
  apply (Hguard broken_recorder generateText (mock_params "main" (Some "Test") ∅)
           "openai" "gpt-4o" mock_response).
  - unfold role_configured. split; [reflexivity|]. split; [reflexivity | discriminate].
  - vm_compute. reflexivity.
  - reflexivity.
  - vm_compute. reflexivity.
  - intros. eexists _, _. reflexivity.
Defined.

(** C9, as first stated, fails: the adapter sends the schema it is given,
    with its [$schema] and [exclusiveMinimum] keys, and an endpoint that
    rejects these keys rejects the call. *)
Lemma adapter_forwards_schema_counterexample :
  mentions unsupported_keyword draft07_schema = true ∧
  req_tool_parameters (openai_object_request (object_request draft07_schema)) =
    draft07_schema ∧
  generateOpenAIObject (mock_host mock_env) strict_backend (object_request draft07_schema) 0 =
    Rejected (Error "OpenAI API error during object generation: Invalid schema: unsupported keyword") ∧
  strict_backend (getOpenAIClient (mock_host mock_env) (VStr "mock-openai-key") VUndef)
    (openai_object_request (object_request (cleanJsonSchema draft07_schema))) 0 =
    Fulfilled (mkCompletion (Some ("tasks_data", "{}")) (Some 1%Z) (Some 1%Z)).
Proof. repeat split; vm_compute; reflexivity. Qed.

Lemma schema_sanitisation_witness :
  cleanJsonSchema draft07_schema =
    VObj [("type", VStr "object");
          ("properties", VObj [("id", VObj [("type", VStr "integer")])])] ∧
  ∀ cp,
    cp ∈ calls (run (generateObjectService (mock_config (Some "test-user-id"))
                       (mock_host mock_env) (mock_openai (answers mock_response))
                       (parsePRD_params draft07_schema None None "System" "Test" false))).2 →
    req_tool_parameters (openai_object_request cp) = cleanJsonSchema draft07_schema ∧
    mentions unsupported_keyword (req_tool_parameters (openai_object_request cp)) = false.
Proof.
  split; [reflexivity|]. intros cp Hin.
  exact (proj2 (proj2 (proj2 (proj2 (proj2 (proj2
           (schema_sanitisation (mock_config (Some "test-user-id")) (mock_host mock_env)
              (mock_openai (answers mock_response))))))))
           draft07_schema None None "System" "Test" false cp Hin).
Defined.

Lemma attempts_bounded_by_MAX_RETRIES_witness :
  invocations
    (run (generateObjectService (mock_config (Some "test-user-id")) (mock_host mock_env)
            (mkProviderFnSet (answers mock_response) (answers mock_response)
               (generateOpenAIObject (mock_host mock_env) strict_backend))
            (set_maxRetries (VNum 7) (mock_params "main" (Some "Test") ∅)))).2 =
  invocations
    (run (generateObjectService (mock_config (Some "test-user-id")) (mock_host mock_env)
            (mkProviderFnSet (answers mock_response) (answers mock_response)
               (generateOpenAIObject (mock_host mock_env) strict_backend))
            (mock_params "main" (Some "Test") ∅))).2.
Proof.
  destruct (attempts_bounded_by_MAX_RETRIES (mock_config (Some "test-user-id"))
              (mock_host mock_env)
              (mkProviderFnSet (answers mock_response) (answers mock_response)
                 (generateOpenAIObject (mock_host mock_env) strict_backend))
              (mock_params "main" (Some "Test") ∅))
    as (_ & _ & _ & _ & _ & _ & Hsame).
  apply (Hsame strict_backend (VNum 7)). reflexivity.
Defined.

(* ================================================================== *)
(** * Part III. Further properties of the embedded code                *)
(* ================================================================== *)

(** ** Retry executor: when it stops, and how long it waits *)

Section ExecutorSchedule.

Variables (providerApiFn : ProviderFn) (callParams : CallParams).
Variables (fnName providerName modelId attemptRole : string).

Lemma retried_true (k : nat) :
  retried providerApiFn callParams k = true →
  ∃ e, providerApiFn callParams k = Rejected e ∧ isRetryableError e = true.
Proof.
  unfold retried. destruct (providerApiFn callParams k) as [r|e]; [discriminate|].
  intros H. by exists e.
Qed.

(** The loop, from retry number [retries], when the first [d] further
    invocations are retried and the next one is final. *)
Lemma retry_loop_rounds (d : nat) :
  ∀ fuel retries tr,
    retries + d ≤ MAX_RETRIES → d < fuel →
    (∀ j, j < d → retried providerApiFn callParams (invocations tr + j) = true) →
    retried providerApiFn callParams (invocations tr + d) = false ∨
      retries + d = MAX_RETRIES →
    retry_loop fuel providerApiFn callParams fnName providerName attemptRole retries tr =
      (settled_outcome (providerApiFn callParams (invocations tr + d)),
       tr ++ rounds retries d callParams).
Proof.
  induction d as [|d IH]; intros fuel retries tr Hle Hfuel Hretried Hfinal.
  - destruct fuel as [|fuel]; [lia|]. rewrite retry_loop_step.
    destruct (Nat.leb_spec retries MAX_RETRIES) as [_|Hgt]; [|lia].
    rewrite Nat.add_0_r in *. unfold retried in Hfinal. cbn [rounds].
    destruct (providerApiFn callParams (invocations tr)) as [r|e]; [reflexivity|].
    destruct Hfinal as [Hfatal|Hmax].
    + by rewrite Hfatal.
    + destruct (Nat.ltb_spec retries MAX_RETRIES) as [Hlt|_]; [lia|].
      by rewrite andb_false_r.
  - destruct fuel as [|fuel]; [lia|]. rewrite retry_loop_step.
    destruct (Nat.leb_spec retries MAX_RETRIES) as [_|Hgt]; [|lia].
    destruct (retried_true (invocations tr)) as (e & He & Hretry).
    { rewrite <- (Nat.add_0_r (invocations tr)). apply Hretried. lia. }
    rewrite He, Hretry.
    destruct (Nat.ltb_spec retries MAX_RETRIES) as [_|Hge]; [|lia].
    cbn [andb]. rewrite IH.
    + rewrite invocations_sleep, invocations_call.
      replace (S (invocations tr) + d) with (invocations tr + S d) by lia.
      cbn [rounds]. by rewrite <- !app_assoc.
    + lia.
    + lia.
    + intros j Hj. rewrite invocations_sleep, invocations_call.
      replace (S (invocations tr) + j) with (invocations tr + S j) by lia.
      apply Hretried. lia.
    + rewrite invocations_sleep, invocations_call.
      replace (S (invocations tr) + d) with (invocations tr + S d) by lia.
      destruct Hfinal as [Hfatal|Hmax]; [by left | right; lia].
Qed.

(** Every run of the loop is of that form. *)
Lemma retry_loop_is_rounds :
  ∀ fuel retries tr,
    retries ≤ MAX_RETRIES → MAX_RETRIES - retries < fuel →
    ∃ d, retries + d ≤ MAX_RETRIES ∧
         (∀ j, j < d → retried providerApiFn callParams (invocations tr + j) = true) ∧
         (retried providerApiFn callParams (invocations tr + d) = false ∨
          retries + d = MAX_RETRIES) ∧
         retry_loop fuel providerApiFn callParams fnName providerName attemptRole retries
           tr =
           (settled_outcome (providerApiFn callParams (invocations tr + d)),
            tr ++ rounds retries d callParams).
Proof.
  induction fuel as [|fuel IH]; intros retries tr Hle Hfuel; [lia|].
  destruct (retried providerApiFn callParams (invocations tr)) eqn:Hfirst.
  - destruct (decide (retries = MAX_RETRIES)) as [Hmax|Hlt].
    + exists 0. rewrite !Nat.add_0_r. split; [lia|]. split; [intros j Hj; lia|].
      split; [by right|].
      pose proof (retry_loop_rounds 0 (S fuel) retries tr) as H0.
      rewrite !Nat.add_0_r in H0.
      apply H0; [lia | lia | intros j Hj; lia | right; lia].
    + destruct (IH (S retries) ((tr ++ [EvCall callParams]) ++
                               [EvSleep (backoff (S retries))]))
        as (d & Hd & Hretried & Hfinal & _); [lia | lia |].
      rewrite invocations_sleep, invocations_call in Hretried, Hfinal.
      assert (∀ j, j < S d → retried providerApiFn callParams (invocations tr + j) = true)
        as Hall.
      { intros [|j] Hj; [by rewrite Nat.add_0_r|].
        replace (invocations tr + S j) with (S (invocations tr) + j) by lia.
        apply Hretried. lia. }
      assert (retried providerApiFn callParams (invocations tr + S d) = false ∨
              retries + S d = MAX_RETRIES) as Hend.
      { replace (invocations tr + S d) with (S (invocations tr) + d) by lia.
        destruct Hfinal as [Hfatal|Hmax]; [by left | right; lia]. }
      exists (S d). split; [lia|]. split; [exact Hall|]. split; [exact Hend|].
      apply retry_loop_rounds; [lia | lia | exact Hall | exact Hend].
  - exists 0. rewrite !Nat.add_0_r. split; [lia|]. split; [intros j Hj; lia|].
    split; [by left|].
    pose proof (retry_loop_rounds 0 (S fuel) retries tr) as H0.
    rewrite !Nat.add_0_r in H0.
    apply H0; [lia | lia | intros j Hj; lia | by left].
Qed.

Lemma invocations_rounds (retries d : nat) :
  invocations (rounds retries d callParams) = S d.
Proof.
  revert retries. induction d as [|d IH]; intros retries; [reflexivity|].
  cbn [rounds].
  change (EvCall callParams :: EvSleep (backoff (S retries)) ::
          rounds (S retries) d callParams)
    with (([] ++ [EvCall callParams]) ++ [EvSleep (backoff (S retries))] ++
          rounds (S retries) d callParams).
  rewrite !invocations_app, IH. unfold invocations. simpl. lia.
Qed.

Lemma slept_rounds (retries d : nat) :
  slept (rounds retries d callParams) =
    (INITIAL_RETRY_DELAY_MS * 2 ^ Z.of_nat retries * (2 ^ Z.of_nat d - 1))%Z.
Proof.
  revert retries. induction d as [|d IH]; intros retries.
  - cbn [rounds slept]. change (2 ^ Z.of_nat 0)%Z with 1%Z. lia.
  - cbn [rounds slept]. rewrite IH. unfold backoff.
    replace (S retries - 1) with retries by lia.
    rewrite !Nat2Z.inj_succ, !Z.pow_succ_r by lia. ring.
Qed.

(** X1.  The executor stops at the first invocation that is not rejected
    with a retryable error, or at invocation number [MAX_RETRIES] if there
    is none before: when the invocations before number [n] are all retried
    and number [n] is final, the outcome is that of invocation [n], after
    exactly [n + 1] invocations. *)
Theorem executor_stops_at_first_final_answer (n : nat) :
  n ≤ MAX_RETRIES →
  (∀ k, k < n → retried providerApiFn callParams k = true) →
  retried providerApiFn callParams n = false ∨ n = MAX_RETRIES →
  run (_attemptProviderCallWithRetries providerApiFn callParams fnName providerName
         modelId attemptRole) =
    (settled_outcome (providerApiFn callParams n), rounds 0 n callParams) ∧
  invocations (rounds 0 n callParams) = n + 1.
Proof.
  intros Hn Hretried Hfinal. split; [|rewrite invocations_rounds; lia].
  unfold run, _attemptProviderCallWithRetries.
  rewrite (retry_loop_rounds n); [reflexivity | lia | lia | exact Hretried | ].
  destruct Hfinal as [Hfatal|Hmax]; [by left | right; lia].
Qed.

(** X2.  Every run of the executor is a schedule: for some [n] of at most
    [MAX_RETRIES], its trace is an invocation followed by [n] rounds of
    back-off and invocation, the back-off before retry [i] being
    [INITIAL_RETRY_DELAY_MS * 2^(i-1)]; the time slept is
    [1000 * (2^n - 1)] milliseconds, at most 3000. *)
Theorem executor_backoff_schedule :
  ∃ n, n ≤ MAX_RETRIES ∧
       run (_attemptProviderCallWithRetries providerApiFn callParams fnName providerName
              modelId attemptRole) =
         (settled_outcome (providerApiFn callParams n), rounds 0 n callParams) ∧
       slept (rounds 0 n callParams) = (1000 * (2 ^ Z.of_nat n - 1))%Z ∧
       (slept (rounds 0 n callParams) ≤ 3000)%Z.
Proof.
  destruct (retry_loop_is_rounds (S (S MAX_RETRIES)) 0 []) as (n & Hn & _ & _ & Hrun);
    [lia | lia |].
  exists n. split; [lia|]. split; [exact Hrun|].
  rewrite slept_rounds. unfold INITIAL_RETRY_DELAY_MS. change (2 ^ Z.of_nat 0)%Z with 1%Z.
  split; [lia|].
  assert (n = 0 ∨ n = 1 ∨ n = 2) as [-> | [-> | ->]] by (unfold MAX_RETRIES in Hn; lia);
    vm_compute; congruence.
Qed.

End ExecutorSchedule.

(** ** Unified service runner: failures before the provider call *)

Section RunnerFailures.

Variable cm : ConfigManager.
Variable host : Host.
Variable openai : ProviderFnSet.

Lemma runner_catch_surfaced (serviceType : ServiceType) (r : string)
    (providerName modelId : option string) (error : Thrown) (tr : list Event) :
  runner_catch host serviceType r providerName modelId error tr =
    (Throw (Error (surfaced serviceType r providerName modelId
                     (_extractErrorMessage host error))), tr).
Proof.
  rewrite runner_catch_run. unfold surfaced. by destruct serviceType.
Qed.

(** X3.  Whatever the runner throws is a fresh [Error] that carries a
    message and nothing else: the status and the nested fields of the
    original error are gone.  This holds for every recorder, service type
    and parameter object. *)
Theorem runner_rethrows_message_only (recorder : Recorder) (serviceType : ServiceType)
    (params : Params) (e : Thrown) :
  (run (runner_with cm host openai recorder serviceType params)).1 = Throw e →
  (∃ m, e = Error m) ∧ thrown_status e = None.
Proof.
  unfold run. rewrite runner_with_run. cbv zeta. unfold try_catch.
  destruct (runner_try _ _ _ _ _ _ _ _ _ _ _) as [[r|e'|] tr'].
  - discriminate.
  - rewrite runner_catch_run. cbn [fst]. intros [= <-]. split; [by eexists | reflexivity].
  - discriminate.
Qed.

(** X4.  When the role's provider or model is missing (undefined or
    empty), the runner fails with the message "Critical configuration
    missing for role '<role>': Provider: <provider>, Model: <model>", and
    no provider function is invoked. *)
Theorem incomplete_role_configuration (serviceType : ServiceType) (params : Params) :
  let pm := role_config cm (role params) (effective_root host params) in
  str_truthy pm.1 = false ∨ str_truthy pm.2 = false →
  ∃ tr,
    run (_unifiedServiceRunner cm host openai serviceType params) =
      (Throw (Error (surfaced serviceType (role params) pm.1 pm.2
                       ("Critical configuration missing for role '" +:+ role params +:+
                        "': Provider: " +:+ js_to_string (opt_str pm.1) +:+
                        ", Model: " +:+ js_to_string (opt_str pm.2)))),
       tr) ∧
    invocations tr = 0.
Proof.
  intros pm Hmissing. exists (role_log (role params)). split.
  - unfold run, _unifiedServiceRunner. rewrite runner_with_run.
    cbv zeta. fold pm. unfold try_catch, runner_try.
    replace (negb (str_truthy pm.1) || negb (str_truthy pm.2)) with true
      by (destruct Hmissing as [-> | ->]; [reflexivity | by rewrite orb_true_r]).
    unfold throw. rewrite runner_catch_surfaced.
    rewrite extract_Error by (intros H; discriminate). reflexivity.
  - unfold role_log. by destruct (known_role (role params)).
Qed.

(** X5.  A role whose provider is not OpenAI (compared in lower case, and
    not a property name that the table of provider functions inherits)
    fails with "Unsupported provider configured: <name>" before any
    credential is looked up and before any provider function is invoked;
    this includes the provider [ollama], for which the credential resolver
    has a branch. *)
Theorem unsupported_provider_configured (serviceType : ServiceType) (params : Params)
    (providerName modelId : string) :
  role_config cm (role params) (effective_root host params) =
    (Some providerName, Some modelId) →
  providerName ≠ "" → modelId ≠ "" → toLowerCase providerName ≠ "openai" →
  inherited_property (toLowerCase providerName) = false →
  run (_unifiedServiceRunner cm host openai serviceType params) =
    (Throw (Error (surfaced serviceType (role params) (Some providerName) (Some modelId)
                     ("Unsupported provider configured: " +:+ providerName))),
     role_log (role params)).
Proof.
  intros Hcfg Hpn Hmid Hlow _. unfold run, _unifiedServiceRunner. rewrite runner_with_run.
  cbv zeta. rewrite Hcfg. cbn [fst snd]. unfold try_catch, runner_try.
  rewrite (proj2 (str_truthy_Some providerName) Hpn).
  rewrite (proj2 (str_truthy_Some modelId) Hmid).
  cbn [negb orb default from_option]. unfold Datatypes.id.
  replace (PROVIDER_FUNCTIONS openai !! toLowerCase providerName)
    with (@None ProviderFnSet)
    by (unfold PROVIDER_FUNCTIONS; symmetry; apply lookup_singleton_None; congruence).
  unfold throw. rewrite runner_catch_surfaced.
  rewrite extract_Error by (intros H; discriminate). reflexivity.
Qed.

End RunnerFailures.

(** ** The credential resolver, case by case *)

(** X6.  The credential resolver, for a provider name that is not an
    inherited property name: it returns a key only when the key is a
    non-empty string, and then logs nothing; for [openai] without a key it
    logs the warning and returns [null]; for [ollama] it returns the fixed
    value without reading any source; for every other name it throws
    "Unknown provider '<name>' for API key resolution.".  Names are
    compared exactly: [OpenAI] is an unknown provider here. *)
Theorem resolveApiKey_cases (host : Host) (providerName : string)
    (session : option Session) (projectRoot : option string) :
  inherited_property providerName = false →
  match run (_resolveApiKey host providerName session projectRoot) with
  | (Return (Some apiKey), tr) =>
    apiKey ≠ "" ∧ tr = [] ∧
    (providerName = "ollama" ∧ apiKey = "ollama-no-key-required" ∨
     providerName = "openai" ∧
     resolveEnvVariable host "OPENAI_API_KEY" session projectRoot = Some apiKey)
  | (Return None, tr) =>
    providerName = "openai" ∧ tr = [no_key_warning] ∧
    str_truthy (resolveEnvVariable host "OPENAI_API_KEY" session projectRoot) = false
  | (Throw e, tr) =>
    providerName ≠ "openai" ∧ providerName ≠ "ollama" ∧ tr = [] ∧
    e = Error ("Unknown provider '" +:+ providerName +:+ "' for API key resolution.")
  | (Diverge, _) => False
  end.
Proof.
  intros _. unfold run.
  destruct (decide (providerName = "openai")) as [->|Hopenai].
  - rewrite resolveApiKey_openai. cbv zeta.
    destruct (str_truthy (resolveEnvVariable host "OPENAI_API_KEY" session projectRoot))
      eqn:Hkey; [|done].
    destruct (resolveEnvVariable host "OPENAI_API_KEY" session projectRoot)
      as [apiKey|]; [|discriminate].
    split; [by apply str_truthy_Some|]. split; [reflexivity|]. by right.
  - unfold _resolveApiKey.
    replace (keyMap !! providerName) with (@None string)
      by (unfold keyMap; symmetry; apply lookup_singleton_None; congruence).
    cbn [negb str_truthy]. replace (negb (str_truthy None)) with true by reflexivity.
    destruct (String.eqb_spec providerName "ollama") as [->|Hollama].
    + split; [discriminate|]. split; [reflexivity|]. by left.
    + done.
Qed.

(** ** The request that reaches the provider function *)

Section RequestContents.

Variable cm : ConfigManager.
Variable host : Host.
Variable openai : ProviderFnSet.

(** Every request of a run is the one request the runner builds. *)
Lemma runner_calls_request (serviceType : ServiceType) (params : Params) (cp : CallParams) :
  cp ∈ calls (run (_unifiedServiceRunner cm host openai serviceType params)).2 →
  ∃ providerName modelId apiKey,
    role_configured cm host params providerName modelId ∧
    credential host params = Some apiKey ∧ apiKey ≠ "" ∧
    str_truthy (prompt params) = true ∧
    cp = request_of cm host serviceType params modelId apiKey.
Proof.
  intros Hin.
  destruct (reaches_provider cm host params) eqn:Hreach.
  - apply reaches_provider_spec in Hreach as (pn & mid & Hcfg & Hcred & Hprompt).
    destruct (attempt_bounds (select_fn openai serviceType)
                (request_of cm host serviceType params mid
                   (default "" (credential host params)))
                (fn_name serviceType) pn mid (role params))
      as (out1 & tr1 & n & Hattempt & _ & Hcalls1 & Hn).
    destruct (runner_reached cm host openai serviceType params pn mid
                Hcfg Hcred Hprompt _ _ Hattempt) as (out & tr & Heq & Hcalls & _).
    rewrite Heq in Hin. cbn [snd] in Hin. rewrite Hcalls, Hcalls1 in Hin.
    apply elem_of_replicate_inv in Hin as ->.
    destruct (credential host params) as [apiKey|] eqn:Hkey; [|discriminate].
    exists pn, mid, apiKey. split; [exact Hcfg|]. split; [reflexivity|].
    split; [by apply str_truthy_Some|]. split; [exact Hprompt | reflexivity].
  - destruct (runner_unreached cm host openai (logAiUsage cm host) serviceType params
                Hreach) as (e & tr & Heq & Hcalls).
    unfold _unifiedServiceRunner in Hin. rewrite Heq in Hin. cbn [snd] in Hin.
    rewrite Hcalls in Hin. by apply elem_of_nil in Hin.
Qed.

(** A field the runner builds, unless the caller's own property of that
    name replaces it *)
Lemma build_callParams_lookup (serviceType : ServiceType) (params : Params)
    (apiKey modelId : string) (roleParams : RoleParams) (messages : list JsVal)
    (baseUrl : JsVal) (key : string) :
  key ∉ destructured_keys →
  build_callParams serviceType params apiKey modelId roleParams messages baseUrl !! key =
    match restApiParams params !! key with
    | Some v => Some v
    | None =>
      (<["apiKey" := VStr apiKey]> (<["modelId" := VStr modelId]>
       (<["maxTokens" := maxTokens roleParams]> (<["temperature" := temperature roleParams]>
       (<["messages" := VArr messages]> (<["baseUrl" := baseUrl]> ∅)))))
       : CallParams) !! key
    end.
Proof.
  intros Hkey. unfold build_callParams. cbv zeta.
  rewrite lookup_union, (rest_of_lookup params key Hkey).
  assert (key ≠ "schema" ∧ key ≠ "objectName") as [Hs Ho].
  { split; intros ->; apply Hkey; unfold destructured_keys; set_solver. }
  destruct (restApiParams params !! key) as [v|].
  - by destruct (_ !! key).
  - destruct serviceType; rewrite ?(lookup_insert_ne _ "objectName"),
      ?(lookup_insert_ne _ "schema") by done; by destruct (_ !! key).
Qed.

(** A destructured property reaches the request only as the runner puts it
    there. *)
Lemma build_callParams_destructured (serviceType : ServiceType) (params : Params)
    (apiKey modelId : string) (roleParams : RoleParams) (messages : list JsVal)
    (baseUrl : JsVal) (key : string) :
  key = "schema" ∨ key = "objectName" →
  build_callParams serviceType params apiKey modelId roleParams messages baseUrl !! key =
    match serviceType with
    | generateObject =>
      Some (if (key =? "schema")%string then schema params
            else opt_str (own_value (objectName params)))
    | _ => None
    end.
Proof.
  intros Hkey. unfold build_callParams. cbv zeta.
  rewrite lookup_union_r.
  - destruct Hkey as [-> | ->]; destruct serviceType; by simplify_map_eq.
  - unfold rest_of, destructured_keys. cbn [foldr].
    destruct Hkey as [-> | ->].
    + rewrite !lookup_delete_ne by discriminate. apply lookup_delete_eq.
    + rewrite !lookup_delete_ne by discriminate. apply lookup_delete_eq.
Qed.

(** X7.  Every request that reaches a provider function carries the
    resolved credential, the role's model id, the role's [maxTokens] and
    [temperature], the role's base URL and the built messages, each under
    its own key and each replaced by the caller's own property of that name
    when there is one; [schema] and [objectName] are in the request exactly
    for object generation, with the values of the parameter object. *)
Theorem request_carries_role_configuration (serviceType : ServiceType) (params : Params)
    (cp : CallParams) :
  cp ∈ calls (run (_unifiedServiceRunner cm host openai serviceType params)).2 →
  ∃ providerName modelId apiKey,
    role_configured cm host params providerName modelId ∧
    credential host params = Some apiKey ∧ apiKey ≠ "" ∧
    let roleParams := getParametersForRole cm (role params) (effective_root host params) in
    let baseUrl := getBaseUrlForRole cm (role params) (effective_root host params) in
    let unless_given key built := Some (default built (restApiParams params !! key)) in
    cp !! "apiKey" = unless_given "apiKey" (VStr apiKey) ∧
    cp !! "modelId" = unless_given "modelId" (VStr modelId) ∧
    cp !! "maxTokens" = unless_given "maxTokens" (maxTokens roleParams) ∧
    cp !! "temperature" = unless_given "temperature" (temperature roleParams) ∧
    cp !! "messages" = unless_given "messages" (VArr (built_messages params)) ∧
    cp !! "baseUrl" = unless_given "baseUrl" baseUrl ∧
    cp !! "schema" = match serviceType with
                     | generateObject => Some (schema params)
                     | _ => None
                     end ∧
    cp !! "objectName" = match serviceType with
                         | generateObject =>
                           Some (opt_str (own_value (objectName params)))
                         | _ => None
                         end.
Proof.
  intros Hin.
  destruct (runner_calls_request serviceType params cp Hin)
    as (pn & mid & apiKey & Hcfg & Hcred & Hkey & _ & ->).
  exists pn, mid, apiKey. split; [exact Hcfg|]. split; [exact Hcred|].
  split; [exact Hkey|]. cbv zeta. unfold request_of.
  repeat match goal with
  | |- _ ∧ _ => split
  end;
  try (rewrite build_callParams_lookup by not_destructured;
       destruct (restApiParams params !! _); [reflexivity | by simplify_map_eq]).
  - rewrite build_callParams_destructured by (by left). by destruct serviceType.
  - rewrite build_callParams_destructured by (by right). by destruct serviceType.
Qed.

(** X8.  What the three facades add.  A request sent for
    [generateObjectService] carries the caller's schema and names the
    object as the caller's own [objectName] property does, whatever its
    value ([undefined] included), and [generated_object] when the caller's
    object has no such property; a request sent for [generateTextService]
    or [streamTextService] has no [schema] and no [objectName] property,
    whatever the parameter object holds. *)
Theorem facade_request_defaults (params : Params) (cp : CallParams) :
  (cp ∈ calls (run (generateObjectService cm host openai params)).2 →
   cp !! "objectName" = Some (requested_name params) ∧
   cp !! "schema" = Some (schema params)) ∧
  (objectName params = None → requested_name params = VStr "generated_object") ∧
  (∀ v, objectName params = Some v → requested_name params = opt_str v) ∧
  (cp ∈ calls (run (generateTextService cm host openai params)).2 ∨
   cp ∈ calls (run (streamTextService cm host openai params)).2 →
   cp !! "objectName" = None ∧ cp !! "schema" = None).
Proof.
  split; [|split; [|split]].
  - intros Hin. unfold generateObjectService in Hin.
    destruct (runner_calls_request _ _ cp Hin) as (pn & mid & apiKey & _ & _ & _ & _ & ->).
    unfold request_of.
    by rewrite !build_callParams_destructured by (by left + by right).
  - unfold requested_name. by intros ->.
  - unfold requested_name. by intros v ->.
  - intros [Hin|Hin]; [unfold generateTextService in Hin | unfold streamTextService in Hin];
      destruct (runner_calls_request _ _ cp Hin) as (pn & mid & apiKey & _ & _ & _ & _ & ->);
      unfold request_of;
      by rewrite !build_callParams_destructured by (by left + by right).
Qed.

End RequestContents.

(** ** The OpenAI adapter for structured objects *)

Lemma includes_suffix (a b needle : string) :
  includes b needle = true → includes (a +:+ b) needle = true.
Proof.
  intros H. induction a as [|c a IH]; [exact H|].
  change (includes (String c (a +:+ b)) needle = true). cbn [includes].
  rewrite IH. apply orb_true_r.
Qed.

Lemma openai_object_catch_flat (modelId : JsVal) (error : Thrown) :
  ∃ m, openai_object_catch modelId error = Error m.
Proof. unfold openai_object_catch. destruct (default false _); by eexists. Qed.

(** The wrapping prefix neither contains a retry phrase nor completes one. *)
Lemma wrapped_message_retryable (m : string) :
  isRetryableError (Error ("OpenAI API error during object generation: " +:+ m)) =
  isRetryableError (Error m).
Proof.
  unfold isRetryableError. cbn [thrown_message thrown_status Error message status default
                                 from_option].
  unfold Datatypes.id. rewrite toLowerCase_app.
  generalize (toLowerCase m). intros lower. vm_compute. reflexivity.
Qed.

Section ObjectAdapter.

Variable host : Host.
Variable backend : Backend.

Lemma valid_object_request_run (params : CallParams) (k : nat) :
  valid_object_request params = true →
  generateOpenAIObject host backend params k =
    match backend (object_client host params) (openai_object_request params) k with
    | Rejected error => Rejected (openai_object_catch (param "modelId" params) error)
    | Fulfilled response =>
      match tool_call response with
      | Some (name, arguments) =>
        if negb (strict_eq_string name (param "objectName" params)) ||
           negb (truthy (VStr arguments))
        then Rejected (openai_object_catch (param "modelId" params)
                         (Error "Failed to extract object from OpenAI response."))
        else
          match JSON_parse host arguments with
          | Rejected syntaxError =>
            Rejected (openai_object_catch (param "modelId" params) syntaxError)
          | Fulfilled parsedObject =>
            Fulfilled (mkResponse VUndef parsedObject
                         (Some (mkUsage (Some (default 0%Z (prompt_tokens response)))
                                        (Some (default 0%Z (completion_tokens response)))))
                         None)
          end
      | None => Rejected (openai_object_catch (param "modelId" params)
                            (Error "Failed to extract object from OpenAI response."))
      end
    end.
Proof.
  unfold valid_object_request. rewrite !andb_true_iff.
  intros ((((Hkey & Hmid) & Hmsgs) & Hschema) & Hname).
  unfold generateOpenAIObject. cbv zeta. by rewrite Hkey, Hmid, Hmsgs, Hschema, Hname.
Qed.

Lemma invalid_object_request_run (params : CallParams) (k : nat) :
  valid_object_request params = false →
  ∃ m, m ∈ object_validation_messages ∧
       generateOpenAIObject host backend params k = Rejected (Error m) ∧
       ∀ host' backend' k', generateOpenAIObject host' backend' params k' =
                            Rejected (Error m).
Proof.
  unfold valid_object_request, generateOpenAIObject, object_validation_messages.
  cbv zeta. intros Hinvalid.
  destruct (truthy (param "apiKey" params));
    [|eexists; split; [|split; [reflexivity | intros; reflexivity]]; set_solver].
  destruct (truthy (param "modelId" params));
    [|eexists; split; [|split; [reflexivity | intros; reflexivity]]; set_solver].
  destruct (nonempty_array (param "messages" params));
    [|eexists; split; [|split; [reflexivity | intros; reflexivity]]; set_solver].
  destruct (truthy (param "schema" params));
    [|eexists; split; [|split; [reflexivity | intros; reflexivity]]; set_solver].
  destruct (truthy (param "objectName" params));
    [|eexists; split; [|split; [reflexivity | intros; reflexivity]]; set_solver].
  discriminate.
Qed.

(** X9.  When the adapter fulfils: exactly when the five checks pass, the
    endpoint answers with a tool call whose name is the requested object
    name and whose arguments are a non-empty text that [JSON.parse] accepts;
    the result is then the parsed object with the token counts of the
    answer, a missing count read as 0. *)
Theorem generateOpenAIObject_fulfils_iff (params : CallParams) (k : nat)
    (result : ProviderResponse) :
  generateOpenAIObject host backend params k = Fulfilled result ↔
  valid_object_request params = true ∧
  ∃ response name arguments parsedObject,
    backend (object_client host params) (openai_object_request params) k =
      Fulfilled response ∧
    tool_call response = Some (name, arguments) ∧
    param "objectName" params = VStr name ∧ arguments ≠ "" ∧
    JSON_parse host arguments = Fulfilled parsedObject ∧
    result = mkResponse VUndef parsedObject
               (Some (mkUsage (Some (default 0%Z (prompt_tokens response)))
                              (Some (default 0%Z (completion_tokens response))))) None.
Proof.
  split.
  - intros Hrun.
    destruct (valid_object_request params) eqn:Hvalid.
    2:{ destruct (invalid_object_request_run params k Hvalid) as (m & _ & Hrej & _).
        congruence. }
    split; [reflexivity|]. rewrite (valid_object_request_run params k Hvalid) in Hrun.
    destruct (backend _ _ k) as [response|error]; [|discriminate].
    destruct (tool_call response) as [[name arguments]|] eqn:Hcall; [|discriminate].
    destruct (strict_eq_string name (param "objectName" params)) eqn:Hname;
      [|discriminate].
    destruct arguments as [|c arguments]; [discriminate|].
    simpl in Hrun.
    destruct (JSON_parse host (String c arguments)) as [parsedObject|] eqn:Hparse;
      [|discriminate].
    exists response, name, (String c arguments), parsedObject.
    split; [reflexivity|]. split; [exact Hcall|]. split.
    { unfold strict_eq_string in Hname.
      destruct (param "objectName" params); try discriminate.
      apply String.eqb_eq in Hname. by subst. }
    split; [discriminate|]. split; [exact Hparse | congruence].
  - intros (Hvalid & response & name & arguments & parsedObject &
            Hanswer & Hcall & Hname & Hargs & Hparse & ->).
    rewrite (valid_object_request_run params k Hvalid), Hanswer, Hcall, Hname.
    cbn [strict_eq_string]. rewrite String.eqb_refl.
    destruct arguments as [|c arguments]; [congruence|].
    simpl. by rewrite Hparse.
Qed.


(** X11.  Every rejection of the adapter is a fresh [Error] with a message
    and no status.  For an error of the endpoint that does not speak of
    tool use, the rejection is retryable exactly when the endpoint's
    message contains a retry phrase: the status of the endpoint's error
    (429, 5xx) plays no part. *)
Theorem object_adapter_retry_by_message_only (params : CallParams) (k : nat) :
  (∀ e, generateOpenAIObject host backend params k = Rejected e →
        (∃ m, e = Error m) ∧ thrown_status e = None) ∧
  (∀ error,
     valid_object_request params = true →
     backend (object_client host params) (openai_object_request params) k =
       Rejected error →
     default false (reports_no_tool_use <$> (toLowerCase <$> thrown_message error)) =
       false →
     ∃ e, generateOpenAIObject host backend params k = Rejected e ∧
          isRetryableError e =
            isRetryableError (Error (js_to_string (opt_str (thrown_message error))))).
Proof.
  split.
  - intros e Hrej.
    assert (∃ m, e = Error m) as [m ->]; [|split; [by eexists | reflexivity]].
    destruct (valid_object_request params) eqn:Hvalid.
    + rewrite (valid_object_request_run params k Hvalid) in Hrej.
      repeat match type of Hrej with
      | context [match ?x with _ => _ end] => destruct x
      end; try discriminate; inversion Hrej; apply openai_object_catch_flat.
    + destruct (invalid_object_request_run params k Hvalid) as (m & _ & Hm & _).
      exists m. congruence.
  - intros error Hvalid Hanswer Hplain.
    rewrite (valid_object_request_run params k Hvalid), Hanswer.
    eexists. split; [reflexivity|]. unfold openai_object_catch. rewrite Hplain.
    apply wrapped_message_retryable.
Qed.

End ObjectAdapter.

(** ** Structured objects, from the facade to the endpoint *)

Lemma wrapped_message_plain (m : string) :
  reports_no_tool_use
    (toLowerCase ("OpenAI API error during object generation: " +:+ m)) =
  reports_no_tool_use (toLowerCase m).
Proof.
  unfold reports_no_tool_use. rewrite toLowerCase_app.
  generalize (toLowerCase m). intros lower. vm_compute. reflexivity.
Qed.

Section ObjectService.

Variable cm : ConfigManager.
Variable host : Host.
Variable openai : ProviderFnSet.

(** A first invocation that is rejected with an error the executor does not
    retry ends the call. *)
Lemma runner_first_invocation_final (serviceType : ServiceType) (params : Params)
    (providerName modelId apiKey : string) (e : Thrown) :
  role_configured cm host params providerName modelId →
  credential host params = Some apiKey → apiKey ≠ "" →
  str_truthy (prompt params) = true →
  select_fn openai serviceType (request_of cm host serviceType params modelId apiKey) 0 =
    Rejected e →
  isRetryableError e = false →
  run (_unifiedServiceRunner cm host openai serviceType params) =
    (Throw (Error (surfaced serviceType (role params) (Some providerName) (Some modelId)
                     (_extractErrorMessage host e))),
     role_log (role params) ++
     [EvCall (request_of cm host serviceType params modelId apiKey)]).
Proof.
  intros Hcfg Hkey Hnonempty Hprompt Hrej Hfatal.
  assert (str_truthy (credential host params) = true) as Hcred
    by (rewrite Hkey; by apply str_truthy_Some).
  unfold _unifiedServiceRunner.
  rewrite (runner_configured_run cm host openai _ _ _ _ _ Hcfg Hcred Hprompt).
  rewrite Hkey. cbn [default from_option]. unfold Datatypes.id.
  pose proof (retry_loop_rounds (select_fn openai serviceType)
                (request_of cm host serviceType params modelId apiKey)
                (fn_name serviceType) providerName (role params)
                0 (S (S MAX_RETRIES)) 0 []) as Hloop.
  change (invocations [] + 0) with 0 in Hloop.
  unfold run at 1, _attemptProviderCallWithRetries.
  rewrite Hloop.
  - rewrite Hrej. cbn [settled_outcome rounds app]. apply runner_catch_surfaced.
  - unfold MAX_RETRIES. lia.
  - lia.
  - intros j Hj. lia.
  - left. unfold retried. by rewrite Hrej.
Qed.

(** The request of a plain object call, field by field *)
Lemma object_call_request (params : Params) (modelId apiKey : string) :
  plain_call params →
  let request := request_of cm host generateObject (object_call_params params) modelId
                   apiKey in
  param "apiKey" request = VStr apiKey ∧ param "modelId" request = VStr modelId ∧
  param "messages" request = VArr (built_messages params) ∧
  param "schema" request = schema params ∧
  param "objectName" request = requested_name params.
Proof.
  intros (Hkey & Hmid & Hmsgs). cbv zeta. unfold param, request_of.
  rewrite (build_callParams_destructured _ _ _ _ _ _ _ "schema") by (by left).
  rewrite (build_callParams_destructured _ _ _ _ _ _ _ "objectName") by (by right).
  rewrite !build_callParams_lookup by not_destructured.
  cbn [restApiParams object_call_params].
  rewrite !lookup_union, Hkey, Hmid, Hmsgs.
  rewrite !lookup_singleton_ne by discriminate. simplify_map_eq.
  by repeat split.
Qed.

Lemma object_call_request_valid (params : Params) (modelId apiKey : string) :
  plain_call params → modelId ≠ "" → apiKey ≠ "" →
  truthy (requested_name params) = true →
  valid_object_request
    (request_of cm host generateObject (object_call_params params) modelId apiKey) =
    truthy (schema params).
Proof.
  intros Hplain Hmid Hkey Hname.
  destruct (object_call_request params modelId apiKey Hplain)
    as (Ha & Hm & Hms & Hs & Ho).
  unfold valid_object_request. rewrite Ha, Hm, Hms, Hs, Ho.
  assert (truthy (VStr apiKey) = true) as -> by (by apply (str_truthy_Some apiKey)).
  assert (truthy (VStr modelId) = true) as -> by (by apply (str_truthy_Some modelId)).
  assert (nonempty_array (VArr (built_messages params)) = true) as ->.
  { unfold built_messages. by destruct (str_truthy (systemPrompt params)). }
  rewrite Hname. by rewrite andb_true_r.
Qed.

(** X12.  An object call without a schema is not stopped by the runner: the
    request reaches the adapter, which rejects it at its fourth check; the
    call costs one invocation and fails with "Schema is required for OpenAI
    object generation.". *)
Theorem missing_schema_fails_in_adapter (backend : Backend) (params : Params)
    (providerName modelId apiKey : string) :
  role_configured cm host params providerName modelId →
  credential host params = Some apiKey → apiKey ≠ "" →
  str_truthy (prompt params) = true →
  plain_call params → shipped_adapter host backend openai →
  truthy (schema params) = false →
  run (generateObjectService cm host openai params) =
    (Throw (Error "Schema is required for OpenAI object generation."),
     role_log (role params) ++
     [EvCall (request_of cm host generateObject (object_call_params params) modelId
                apiKey)]).
Proof.
  intros Hcfg Hkey Hnonempty Hprompt Hplain Hshipped Hschema.
  destruct (object_call_request params modelId apiKey Hplain)
    as (Ha & Hm & Hms & Hs & Ho).
  change (generateObjectService cm host openai params)
    with (_unifiedServiceRunner cm host openai generateObject (object_call_params params)).
  rewrite (runner_first_invocation_final generateObject (object_call_params params)
             providerName modelId apiKey
             (Error "Schema is required for OpenAI object generation."));
    try done.
  cbn [select_fn]. rewrite Hshipped. unfold generateOpenAIObject. cbv zeta.
  rewrite Ha, Hm, Hms, Hs, Hschema.
  assert (truthy (VStr apiKey) = true) as -> by (by apply (str_truthy_Some apiKey)).
  assert (truthy (VStr modelId) = true) as ->
    by (apply (str_truthy_Some modelId); apply Hcfg).
  assert (nonempty_array (VArr (built_messages params)) = true) as ->
    by (unfold built_messages; by destruct (str_truthy (systemPrompt params))).
  reflexivity.
Qed.

(** X13.  An error of the endpoint that does not speak of tool use and whose
    message has no retry phrase ends an object call after one invocation,
    whatever its status (429 and 5xx included): the adapter has replaced it
    by a plain [Error], and the caller gets "OpenAI API error during object
    generation: <message>". *)
Theorem endpoint_status_is_not_retried (backend : Backend) (params : Params)
    (providerName modelId apiKey : string) (error : Thrown) :
  role_configured cm host params providerName modelId →
  credential host params = Some apiKey → apiKey ≠ "" →
  str_truthy (prompt params) = true →
  plain_call params → shipped_adapter host backend openai →
  truthy (schema params) = true → truthy (requested_name params) = true →
  let request := request_of cm host generateObject (object_call_params params) modelId
                   apiKey in
  backend (object_client host request) (openai_object_request request) 0 =
    Rejected error →
  default false (reports_no_tool_use <$> (toLowerCase <$> thrown_message error)) = false →
  isRetryableError (Error (js_to_string (opt_str (thrown_message error)))) = false →
  run (generateObjectService cm host openai params) =
    (Throw (Error ("OpenAI API error during object generation: " +:+
                   js_to_string (opt_str (thrown_message error)))),
     role_log (role params) ++ [EvCall request]).
Proof.
  intros Hcfg Hkey Hnonempty Hprompt Hplain Hshipped Hschema Hname request Hanswer
    Hplainmsg Hfatal.
  assert (valid_object_request request = true) as Hvalid.
  { unfold request. rewrite object_call_request_valid; try done. apply Hcfg. }
  change (generateObjectService cm host openai params)
    with (_unifiedServiceRunner cm host openai generateObject (object_call_params params)).
  rewrite (runner_first_invocation_final generateObject (object_call_params params)
             providerName modelId apiKey
             (Error ("OpenAI API error during object generation: " +:+
                     js_to_string (opt_str (thrown_message error)))));
    try done.
  - rewrite extract_Error by (intros H; discriminate).
    unfold surfaced. rewrite wrapped_message_plain.
    replace (reports_no_tool_use
               (toLowerCase (js_to_string (opt_str (thrown_message error)))))
      with false; [reflexivity|].
    destruct (thrown_message error) as [m|]; [by symmetry | reflexivity].
  - cbn [select_fn]. rewrite Hshipped.
    fold request. rewrite (valid_object_request_run host backend request 0 Hvalid).
    rewrite Hanswer. unfold openai_object_catch. by rewrite Hplainmsg.
Qed.

(** The run of an object call whose endpoint reports missing tool support *)
Lemma adapter_tool_use_run (backend : Backend) (params : Params)
    (providerName modelId apiKey : string) (error : Thrown) :
  role_configured cm host params providerName modelId →
  credential host params = Some apiKey → apiKey ≠ "" →
  str_truthy (prompt params) = true →
  plain_call params → shipped_adapter host backend openai →
  truthy (schema params) = true → truthy (requested_name params) = true →
  let request := request_of cm host generateObject (object_call_params params) modelId
                   apiKey in
  backend (object_client host request) (openai_object_request request) 0 =
    Rejected error →
  default false (reports_no_tool_use <$> (toLowerCase <$> thrown_message error)) = true →
  isRetryableError (Error (tool_support_message (VStr modelId))) = false →
  reports_no_tool_use (toLowerCase (tool_support_message (VStr modelId))) = false →
  run (generateObjectService cm host openai params) =
    (Throw (Error (tool_support_message (VStr modelId))),
     role_log (role params) ++ [EvCall request]).
Proof.
  intros Hcfg Hkey Hnonempty Hprompt Hplain Hshipped Hschema Hname request Hanswer
    Htools Hfatal Hpass.
  assert (valid_object_request request = true) as Hvalid.
  { unfold request. rewrite object_call_request_valid; try done. apply Hcfg. }
  destruct (object_call_request params modelId apiKey Hplain) as (_ & Hm & _).
  change (generateObjectService cm host openai params)
    with (_unifiedServiceRunner cm host openai generateObject (object_call_params params)).
  rewrite (runner_first_invocation_final generateObject (object_call_params params)
             providerName modelId apiKey (Error (tool_support_message (VStr modelId))));
    try done.
  - rewrite extract_Error by (intros H; discriminate).
    unfold surfaced. by rewrite Hpass.
  - cbn [select_fn]. rewrite Hshipped.
    fold request. rewrite (valid_object_request_run host backend request 0 Hvalid).
    rewrite Hanswer. unfold openai_object_catch. rewrite Htools.
    fold request in Hm. by rewrite Hm.
Qed.

(** X14.  An endpoint error that speaks of missing tool support reaches the
    caller of an object call as the adapter's message, which names the model
    and reads "for this role"; the runner's own tool-support message, which
    names the role, does not come into play.  (For a model id that itself
    does not spell a retry or tool-use phrase.) *)
Theorem tool_use_error_through_the_adapter (backend : Backend) (params : Params)
    (providerName modelId apiKey : string) (error : Thrown) :
  role_configured cm host params providerName modelId →
  credential host params = Some apiKey → apiKey ≠ "" →
  str_truthy (prompt params) = true →
  plain_call params → shipped_adapter host backend openai →
  truthy (schema params) = true → truthy (requested_name params) = true →
  let request := request_of cm host generateObject (object_call_params params) modelId
                   apiKey in
  backend (object_client host request) (openai_object_request request) 0 =
    Rejected error →
  default false (reports_no_tool_use <$> (toLowerCase <$> thrown_message error)) = true →
  isRetryableError (Error (tool_support_message (VStr modelId))) = false →
  reports_no_tool_use (toLowerCase (tool_support_message (VStr modelId))) = false →
  run (generateObjectService cm host openai params) =
    (Throw (Error (tool_support_message (VStr modelId))),
     role_log (role params) ++ [EvCall request]).
Proof. apply adapter_tool_use_run. Qed.



End ObjectService.

(** ** The OpenAI adapter for text and streams *)

Section TextAdapterProperties.

Variable getClient : ClientFactory.
Variable trim : string → string.

(** X15.  When [generateOpenAIText] fulfils: exactly when the three checks
    pass, [getClient] returns a client, and the SDK resolves to a result
    with a non-empty text; the result is then that text, trimmed, with the
    two token counts of the SDK as they are (a missing count stays
    missing, where the object function would put 0). *)
Theorem generateOpenAIText_fulfils_iff (sdk : TextSdk) (params : CallParams) (k : nat)
    (result : ProviderResponse) :
  generateOpenAIText getClient trim sdk params k = Fulfilled result ↔
  valid_text_request params = true ∧
  ∃ openaiClient answer content,
    getClient (param "apiKey" params) (param "baseUrl" params) = Fulfilled openaiClient ∧
    sdk openaiClient (param "modelId" params) (param "messages" params)
      (param "maxTokens" params) (param "temperature" params) k =
      Fulfilled (Some answer) ∧
    result_text answer = Some content ∧ content ≠ "" ∧
    result = mkResponse (VStr (trim content)) VUndef
               (Some (mkUsage (promptTokens answer) (completionTokens answer))) None.
Proof.
  unfold generateOpenAIText, valid_text_request. cbv zeta. split.
  - intros Hrun.
    destruct (truthy (param "apiKey" params)); [|discriminate].
    destruct (truthy (param "modelId" params)); [|discriminate].
    destruct (nonempty_array (param "messages" params)); [|discriminate].
    split; [reflexivity|]. cbn [negb] in Hrun.
    destruct (getClient _ _) as [openaiClient|]; [|discriminate].
    destruct (sdk openaiClient _ _ _ _ k) as [[answer|]|] eqn:Hsdk; try discriminate.
    destruct (str_truthy (result_text answer)) eqn:Htext; [|discriminate].
    destruct (result_text answer) as [content|] eqn:Hcontent; [|discriminate].
    exists openaiClient, answer, content. split; [reflexivity|]. split; [exact Hsdk|].
    split; [exact Hcontent|]. split; [by apply str_truthy_Some|].
    cbn [default from_option] in Hrun. unfold Datatypes.id in Hrun. congruence.
  - intros (Hvalid & openaiClient & answer & content & Hclient & Hsdk & Htext & Hne & ->).
    rewrite !andb_true_iff in Hvalid. destruct Hvalid as ((-> & ->) & ->).
    cbn [negb]. rewrite Hclient, Hsdk, Htext.
    rewrite (proj2 (str_truthy_Some content) Hne). reflexivity.
Qed.

End TextAdapterProperties.

Section TextServices.

Variable cm : ConfigManager.
Variable host : Host.
Variable openai : ProviderFnSet.

(** The request of a plain call, for the three fields every adapter checks *)
Lemma plain_request_fields (serviceType : ServiceType) (params : Params)
    (modelId apiKey : string) :
  plain_call params →
  let request := request_of cm host serviceType params modelId apiKey in
  param "apiKey" request = VStr apiKey ∧ param "modelId" request = VStr modelId ∧
  param "messages" request = VArr (built_messages params).
Proof.
  intros (Hkey & Hmid & Hmsgs). cbv zeta. unfold param, request_of.
  rewrite !build_callParams_lookup by not_destructured.
  rewrite Hkey, Hmid, Hmsgs. by simplify_map_eq.
Qed.

Lemma plain_request_valid_text (serviceType : ServiceType) (params : Params)
    (modelId apiKey : string) :
  plain_call params → modelId ≠ "" → apiKey ≠ "" →
  valid_text_request (request_of cm host serviceType params modelId apiKey) = true.
Proof.
  intros Hplain Hmid Hkey.
  destruct (plain_request_fields serviceType params modelId apiKey Hplain)
    as (Ha & Hm & Hms).
  unfold valid_text_request. rewrite Ha, Hm, Hms.
  assert (truthy (VStr apiKey) = true) as -> by (by apply (str_truthy_Some apiKey)).
  assert (truthy (VStr modelId) = true) as -> by (by apply (str_truthy_Some modelId)).
  unfold built_messages. by destruct (str_truthy (systemPrompt params)).
Qed.

(** With [getClient] unbound, a request that passes the checks is rejected
    with the reference error, whatever the SDK would do. *)
Lemma unbound_getClient_rejects (trim : string → string) (sdk : TextSdk)
    (streamSdk : StreamSdk) (params : CallParams) (k : nat) :
  valid_text_request params = true →
  generateOpenAIText getClient_unbound trim sdk params k =
    Rejected (Error "getClient is not defined") ∧
  streamOpenAIText getClient_unbound streamSdk params k =
    Rejected (Error "getClient is not defined").
Proof.
  unfold valid_text_request, generateOpenAIText, streamOpenAIText. cbv zeta.
  rewrite !andb_true_iff. intros ((-> & ->) & ->). by split.
Qed.

(** X16.  In [openai.js] the functions [generateOpenAIText] and
    [streamOpenAIText] call [getClient], which the module does not bind:
    they never fulfil, and a text or stream service call whose role is
    configured, whose credential is resolved and whose prompt is there
    fails with "getClient is not defined" after a single invocation that
    never gets as far as the SDK. *)
Theorem text_services_fail_on_unbound_getClient (trim : string → string) (sdk : TextSdk)
    (streamSdk : StreamSdk) (params : Params) (providerName modelId apiKey : string) :
  (∀ request k result,
     generateOpenAIText getClient_unbound trim sdk request k ≠ Fulfilled result ∧
     streamOpenAIText getClient_unbound streamSdk request k ≠ Fulfilled result) ∧
  (role_configured cm host params providerName modelId →
   credential host params = Some apiKey → apiKey ≠ "" →
   str_truthy (prompt params) = true →
   plain_call params → shipped_text_functions trim sdk streamSdk openai →
   ∃ tr1 tr2,
     run (generateTextService cm host openai params) =
       (Throw (Error "getClient is not defined"), tr1) ∧ invocations tr1 = 1 ∧
     run (streamTextService cm host openai params) =
       (Throw (Error "getClient is not defined"), tr2) ∧ invocations tr2 = 1).
Proof.
  split.
  - intros request k result.
    unfold generateOpenAIText, streamOpenAIText, getClient_unbound. cbv zeta.
    split; repeat match goal with
    | |- context [if ?b then _ else _] => destruct b
    end; discriminate.
  - intros Hcfg Hkey Hnonempty Hprompt Hplain (Htext & Hstream).
    assert (modelId ≠ "") as Hmid by apply Hcfg.
    eexists _, _.
    unfold generateTextService, streamTextService.
    rewrite (runner_first_invocation_final cm host openai generateText _ providerName
               modelId apiKey (Error "getClient is not defined")); try done.
    2:{ cbn [select_fn]. rewrite Htext.
        apply unbound_getClient_rejects with (streamSdk := streamSdk).
        by apply plain_request_valid_text. }
    rewrite (runner_first_invocation_final cm host openai streamText _ providerName
               modelId apiKey (Error "getClient is not defined")); try done.
    2:{ cbn [select_fn]. rewrite Hstream.
        apply unbound_getClient_rejects with (trim := trim) (sdk := sdk).
        by apply plain_request_valid_text. }
    split; [reflexivity|]. split.
    { rewrite invocations_app, invocations_role_log. reflexivity. }
    split; [reflexivity|].
    rewrite invocations_app, invocations_role_log. reflexivity.
Qed.

End TextServices.

(** ** The PRD parser: numbering and dependencies of the new tasks *)

Lemma assoc_set_prop (key key' : string) (v : JsVal) (fields : TaskObj) :
  assoc key (set_prop key' v fields) =
  if (key' =? key)%string then v else assoc key fields.
Proof.
  induction fields as [|[k w] fields IH]; [reflexivity|].
  cbn [set_prop]. destruct (String.eqb_spec k key') as [->|Hne]; cbn [assoc].
  - by destruct (key' =? key)%string.
  - rewrite IH. destruct (String.eqb_spec k key) as [->|_]; [|reflexivity].
    by rewrite (proj2 (String.eqb_neq key' key)).
Qed.

Lemma process_task_fields (newId : Z) (task : TaskObj) :
  assoc "id" (process_task newId task) = VNum newId ∧
  assoc "status" (process_task newId task) = VStr "pending" ∧
  assoc "priority" (process_task newId task) =
    js_or (assoc "priority" task) (VStr "medium") ∧
  assoc "dependencies" (process_task newId task) =
    match assoc "dependencies" task with VArr deps => VArr deps | _ => VArr [] end ∧
  assoc "subtasks" (process_task newId task) = VArr [].
Proof. unfold process_task. rewrite !assoc_set_prop. by repeat split. Qed.


Lemma number_tasks_lookup (tasks : list TaskObj) :
  ∀ currentId taskMap i,
    (number_tasks currentId taskMap tasks).1 !! i =
    process_task (currentId + Z.of_nat i) <$> tasks !! i.
Proof.
  induction tasks as [|task tasks IH]; intros currentId taskMap i; [reflexivity|].
  cbn [number_tasks].
  specialize (IH (currentId + 1)%Z ((assoc "id" task, currentId) :: taskMap)).
  destruct (number_tasks (currentId + 1) _ tasks) as [processed taskMap'].
  destruct i as [|i]; cbn [fst lookup list_lookup].
  - by rewrite Z.add_0_r.
  - cbn [fst] in IH. rewrite IH. by replace (currentId + 1 + Z.of_nat i)%Z
      with (currentId + Z.of_nat (S i))%Z by lia.
Qed.


(** Every new id the map holds was given out by the counter. *)
Lemma number_tasks_range (tasks : list TaskObj) :
  ∀ currentId taskMap depId newDepId,
    taskMap_get (number_tasks currentId taskMap tasks).2 depId = Some newDepId →
    taskMap_get taskMap depId = Some newDepId ∨
    (currentId ≤ newDepId < currentId + Z.of_nat (length tasks))%Z.
Proof.
  induction tasks as [|task tasks IH]; intros currentId taskMap depId newDepId Hget;
    [by left|].
  cbn [number_tasks] in Hget.
  specialize (IH (currentId + 1)%Z ((assoc "id" task, currentId) :: taskMap)
                depId newDepId).
  destruct (number_tasks (currentId + 1) _ tasks) as [processed taskMap'].
  cbn [snd] in *. destruct (IH Hget) as [Hhere|Hrange].
  - unfold taskMap_get in Hhere. cbn [find fst] in Hhere.
    destruct (same_value_zero (assoc "id" task) depId).
    + right. cbn in Hhere. inversion Hhere; subst. cbn [length]. lia.
    + by left.
  - right. cbn [length]. lia.
Qed.

Section ParsePRDProperties.

Variable findTaskById : list JsVal → Z → bool.

Lemma remap_dependencies_fields (existingTasks : list JsVal) (taskMap : TaskMap)
    (processedNewTasks : list TaskObj) (task : TaskObj) (key : string) :
  key ≠ "dependencies" →
  assoc key (remap_dependencies findTaskById existingTasks taskMap processedNewTasks task) =
  assoc key task.
Proof.
  intros Hkey. unfold remap_dependencies. rewrite assoc_set_prop.
  by rewrite (proj2 (String.eqb_neq "dependencies" key)).
Qed.

(** A new id in range is the id of a processed task. *)
Lemma processed_has_id (generated : list TaskObj) (nextId newDepId : Z)
    (taskMap : TaskMap) :
  (nextId ≤ newDepId < nextId + Z.of_nat (length generated))%Z →
  existsb (fun t => same_value_zero (assoc "id" t) (VNum newDepId))
    (number_tasks nextId taskMap generated).1 = true.
Proof.
  intros Hrange. apply existsb_exists.
  destruct (lookup_lt_is_Some_2 generated (Z.to_nat (newDepId - nextId))) as [g Hg];
    [lia|].
  exists (process_task newDepId g). split.
  - apply list_elem_of_In, (list_elem_of_lookup_2 _ (Z.to_nat (newDepId - nextId))).
    rewrite number_tasks_lookup, Hg. cbn. do 2 f_equal. lia.
  - destruct (process_task_fields newDepId g) as [-> _]. cbn. apply Z.eqb_refl.
Qed.

(** The body of the [forEach], on the tasks the [map] produced: the
    dependencies become the mapped ids below the task's own id. *)
Lemma remap_dependencies_kept (existingTasks : list JsVal) (generated : list TaskObj)
    (nextId : Z) (task : TaskObj) :
  remap_dependencies findTaskById existingTasks (number_tasks nextId [] generated).2
    (number_tasks nextId [] generated).1 task =
  set_prop "dependencies"
    (VArr (map VNum
             (List.filter (fun newDepId => lt_value newDepId (assoc "id" task))
                (omap (taskMap_get (number_tasks nextId [] generated).2)
                   (match assoc "dependencies" task with
                    | VArr deps => deps
                    | _ => []
                    end))))) task.
Proof.
  unfold remap_dependencies. cbv zeta. do 3 f_equal.
  apply List.filter_ext_in. intros newDepId Hin.
  apply list_elem_of_In, list_elem_of_omap in Hin as (depId & _ & Hget).
  destruct (number_tasks_range generated nextId [] depId newDepId Hget) as [Hnil|Hin];
    [discriminate|].
  by rewrite (processed_has_id generated nextId newDepId [] Hin), orb_true_r, andb_true_r.
Qed.

Lemma new_tasks_lookup (existingTasks : list JsVal) (nextId : Z) (generated : list TaskObj)
    (i : nat) :
  new_tasks findTaskById existingTasks nextId generated !! i =
  (fun g =>
     remap_dependencies findTaskById existingTasks (number_tasks nextId [] generated).2
       (number_tasks nextId [] generated).1 (process_task (nextId + Z.of_nat i) g)) <$>
  generated !! i.
Proof.
  unfold new_tasks.
  pose proof (number_tasks_lookup generated nextId [] i) as Hlookup.
  destruct (number_tasks nextId [] generated) as [processedNewTasks taskMap].
  cbn [fst snd] in *. rewrite list_lookup_fmap, Hlookup.
  by destruct (generated !! i).
Qed.


End ParsePRDProperties.


(** X18.  After remapping, every dependency of a new task is the new id of
    an earlier new task: a number from [nextId] on and below the task's own
    id.  The lookup in the existing tasks never decides anything: the new
    tasks are the same for every [findTaskById] and every list of existing
    tasks, so no new task ever depends on an existing one. *)
Theorem remapped_dependencies_point_backwards (findTaskById : list JsVal → Z → bool)
    (existingTasks : list JsVal) (nextId : Z) (generated : list TaskObj) :
  (∀ i task,
     new_tasks findTaskById existingTasks nextId generated !! i = Some task →
     ∃ dependencies,
       assoc "dependencies" task = VArr (map VNum dependencies) ∧
       ∀ d, d ∈ dependencies → (nextId ≤ d < nextId + Z.of_nat i)%Z) ∧
  new_tasks findTaskById existingTasks nextId generated =
    new_tasks (fun _ _ => false) [] nextId generated.
Proof.
  split.
  - intros i task Htask. rewrite new_tasks_lookup in Htask.
    destruct (generated !! i) as [g|]; [|discriminate].
    cbn in Htask. inversion Htask as [Heq]. clear Htask Heq.
    rewrite remap_dependencies_kept, assoc_set_prop. cbn.
    eexists. split; [reflexivity|].
    intros d Hd. apply list_elem_of_In, filter_In in Hd as [Hin Hlt].
    apply list_elem_of_In, list_elem_of_omap in Hin as (depId & _ & Hget).
    destruct (process_task_fields (nextId + Z.of_nat i) g) as [Hid _].
    rewrite Hid in Hlt. cbn in Hlt. apply Z.ltb_lt in Hlt.
    destruct (number_tasks_range generated nextId [] depId d Hget) as [Hnil|Hin];
      [discriminate | lia].
  - apply list_eq. intros i. rewrite !new_tasks_lookup.
    destruct (generated !! i) as [g|]; [|reflexivity]. cbn. f_equal.
    rewrite remap_dependencies_kept. symmetry.
    unfold remap_dependencies. cbv zeta. do 3 f_equal.
    apply List.filter_ext_in. intros newDepId Hin.
    apply list_elem_of_In, list_elem_of_omap in Hin as (depId & _ & Hget).
    destruct (number_tasks_range generated nextId [] depId newDepId Hget) as [Hnil|Hin];
      [discriminate|].
    by rewrite (processed_has_id generated nextId newDepId [] Hin), andb_true_r.
Qed.

(** ** The PRD parser: appending and overwriting *)

Lemma foldl_max_id (tasks : list JsVal) :
  ∀ start : Z,
    (start ≤ foldl (fun m t => Z.max m (id_or_0 t)) start tasks)%Z ∧
    ∀ t, t ∈ tasks → (id_or_0 t ≤ foldl (fun m t => Z.max m (id_or_0 t)) start tasks)%Z.
Proof.
  induction tasks as [|t tasks IH]; intros start; cbn [foldl].
  - split; [lia|]. intros t Hin. by apply elem_of_nil in Hin.
  - destruct (IH (Z.max start (id_or_0 t))) as [Hstart Hall]. split; [lia|].
    intros t' Hin. apply elem_of_cons in Hin as [->|Hin]; [lia | by apply Hall].
Qed.

Lemma max_id_ge (existingTasks : list JsVal) (t : JsVal) :
  t ∈ existingTasks → (id_or_0 t ≤ max_id existingTasks)%Z.
Proof.
  destruct existingTasks as [|t0 tasks]; intros Hin; [by apply elem_of_nil in Hin|].
  cbn [max_id]. destruct (foldl_max_id tasks (id_or_0 t0)) as [Hstart Hall].
  apply elem_of_cons in Hin as [->|Hin]; [exact Hstart | by apply Hall].
Qed.

Lemma new_tasks_id (findTaskById : list JsVal → Z → bool) (existingTasks : list JsVal)
    (nextId : Z) (generated : list TaskObj) (i : nat) (task : TaskObj) :
  new_tasks findTaskById existingTasks nextId generated !! i = Some task →
  assoc "id" task = VNum (nextId + Z.of_nat i).
Proof.
  intros Htask. rewrite new_tasks_lookup in Htask.
  destruct (generated !! i) as [g|]; [|discriminate].
  cbn in Htask. inversion Htask as [Heq]. clear Htask Heq.
  rewrite remap_dependencies_fields by discriminate.
  by destruct (process_task_fields (nextId + Z.of_nat i) g) as [-> _].
Qed.

Lemma foldl_max_id_bounds (tasks : list JsVal) (lo hi : Z) :
  (∀ t, t ∈ tasks → (lo ≤ id_or_0 t ≤ hi)%Z) →
  ∀ start : Z,
    (lo ≤ start ≤ hi)%Z →
    (lo ≤ foldl (fun m t => Z.max m (id_or_0 t)) start tasks ≤ hi)%Z.
Proof.
  induction tasks as [|t tasks IH]; intros Hall start Hstart; cbn [foldl]; [exact Hstart|].
  apply IH.
  - intros t' Hin. apply Hall. by right.
  - pose proof (Hall t ltac:(left)). lia.
Qed.

Lemma max_id_bounds (t : JsVal) (tasks : list JsVal) (lo hi : Z) :
  (∀ t', t' ∈ t :: tasks → (lo ≤ id_or_0 t' ≤ hi)%Z) →
  (lo ≤ max_id (t :: tasks) ≤ hi)%Z.
Proof.
  intros Hall. cbn [max_id]. apply foldl_max_id_bounds.
  - intros t' Hin. apply Hall. by right.
  - apply Hall. left.
Qed.

(** X19.  Appending to a readable tasks file whose tasks have numeric ids
    that, with the number of new tasks added, stay below 2^53: the stored
    tasks come first, unchanged and in order, followed by the new ones;
    the first new id is one more than the largest stored id, so that
    every new id is larger than every stored one and distinct stored ids
    give distinct ids in the file written. *)
Theorem append_extends_the_task_list (findTaskById : list JsVal → Z → bool) (force : bool)
    (existingData : JsVal) (existingTasks : list JsVal) (generated : list TaskObj) :
  get "tasks" existingData = VArr existingTasks →
  room_for (length generated) existingTasks →
  ∃ nextId,
    parsePRD_tasks findTaskById true true force existingData generated =
      Wrote (existingTasks ++
             map VObj (new_tasks findTaskById existingTasks nextId generated)) ∧
    nextId = (match existingTasks with [] => 1 | _ => max_id existingTasks + 1 end)%Z ∧
    (∀ t, t ∈ existingTasks → (id_or_0 t < nextId)%Z) ∧
    (NoDup (task_ids existingTasks) →
     NoDup (task_ids (existingTasks ++
                      map VObj (new_tasks findTaskById existingTasks nextId generated)))).
Proof.
  intros Htasks Hroom.
  exists (match existingTasks with [] => 1 | _ => max_id existingTasks + 1 end)%Z.
  set (nextId := (match existingTasks with [] => 1 | _ => max_id existingTasks + 1 end)%Z).
  assert (∀ t, t ∈ existingTasks → (id_or_0 t < nextId)%Z) as Hbelow.
  { intros t Hin. pose proof (max_id_ge existingTasks t Hin) as Hle.
    unfold nextId. destruct existingTasks; [by apply elem_of_nil in Hin | lia]. }
  split; [|split; [reflexivity|split; [exact Hbelow|]]].
  - unfold parsePRD_tasks, plan. rewrite Htasks.
    destruct existingTasks as [|t tasks]; [reflexivity|].
    rewrite js_add_int_exact; [reflexivity|].
    assert (- 2 ^ 53 + 1 ≤ max_id (t :: tasks) ≤ 2 ^ 53 - 1)%Z; [|lia].
    apply max_id_bounds. intros t' Hin.
    unfold room_for in Hroom. rewrite Forall_forall in Hroom.
    destruct (Hroom t' Hin) as (n & Hn & Hbound). unfold id_or_0. rewrite Hn. lia.
  - intros Hdistinct. unfold task_ids. rewrite map_app. apply NoDup_app.
    split; [exact Hdistinct|]. split.
    + intros x Hold Hnew.
      apply list_elem_of_fmap in Hold as (t & -> & Hin).
      apply list_elem_of_fmap in Hnew as (t' & Heq & Hin').
      apply list_elem_of_fmap in Hin' as (task & -> & Hin').
      apply list_elem_of_lookup in Hin' as [i Hi].
      apply new_tasks_id in Hi. cbn [get] in Heq. rewrite Hi in Heq.
      pose proof (Hbelow t Hin) as Hlt. unfold id_or_0 in Hlt. rewrite Heq in Hlt. lia.
    + apply NoDup_alt. intros i j x Hi Hj.
      rewrite !list_lookup_fmap in Hi, Hj.
      apply fmap_Some in Hi as (vi & Hi & ->). apply fmap_Some in Hi as (ti & Hti & ->).
      apply fmap_Some in Hj as (vj & Hj & Heq). apply fmap_Some in Hj as (tj & Htj & ->).
      apply new_tasks_id in Hti, Htj. cbn [get] in Heq. rewrite Hti, Htj in Heq.
      inversion Heq. lia.
Qed.

(** At a stored id of 2^53 the sum with 1 is 2^53 again: the first new id
    is the stored one. *)
Example append_at_the_largest_integer :
  plan true true false (VObj [("tasks", VArr [VObj [("id", VNum (2 ^ 53))]])]) =
    Proceed [VObj [("id", VNum (2 ^ 53))]] (2 ^ 53).
Proof. vm_compute. reflexivity. Qed.

(** X20.  The parser refuses to write exactly when the tasks file exists
    and neither [append] nor [force] is set.  In every other case it
    writes; and unless it appends to a readable tasks file, what it writes
    is the new tasks alone, numbered from 1: this is also so when [append]
    is set and the stored file has no [tasks] array, whose content is then
    replaced. *)
Theorem overwrite_needs_force_or_append (findTaskById : list JsVal → Z → bool)
    (fileExists append force : bool) (existingData : JsVal) (generated : list TaskObj) :
  (parsePRD_tasks findTaskById fileExists append force existingData generated = Refused ↔
   fileExists = true ∧ append = false ∧ force = false) ∧
  (fileExists = false ∨ append = false ∧ force = true ∨
   append = true ∧ (∀ tasks, get "tasks" existingData ≠ VArr tasks) →
   parsePRD_tasks findTaskById fileExists append force existingData generated =
     Wrote (map VObj (new_tasks findTaskById [] 1 generated))).
Proof.
  unfold parsePRD_tasks, plan. split.
  - destruct fileExists, append, force; cbn [negb];
      try (split; [discriminate | by intros (? & ? & ?)]);
      try (split; [done | done]).
    all: destruct (get "tasks" existingData);
      (split; [discriminate | by intros (? & ? & ?)]).
  - intros [-> | [[-> ->] | [-> Hunreadable]]].
    + by destruct append.
    + by destruct fileExists.
    + destruct fileExists; [|reflexivity].
      destruct (get "tasks" existingData) as [| | | | |tasks|] eqn:Htasks;
        try reflexivity.
      by destruct (Hunreadable tasks).
Qed.

(** ** Schema sanitisation: further properties *)

Lemma cleanSchema_not_object (v : JsVal) : is_object v = false → cleanSchema v = v.
Proof. by destruct v. Qed.

Lemma cleanSchema_object (fields : list (string * JsVal)) :
  cleanSchema (VObj fields) =
  VObj (map (fun kv => (kv.1, cleanSchema kv.2))
          (List.filter (fun kv => negb (deleted_by_cleanSchema kv.1)) fields)).
Proof.
  cbn [cleanSchema]. f_equal. unfold deleted_by_cleanSchema.
  induction fields as [|[key v] fields IH]; [reflexivity|].
  cbn [List.filter fst snd].
  destruct ((key =? "$schema")%string || (key =? "exclusiveMinimum")%string);
    cbn [negb]; [exact IH|].
  cbn [map fst snd]. rewrite <- IH.
  destruct (is_object v) eqn:Hobj; [reflexivity|].
  by rewrite (cleanSchema_not_object v Hobj).
Qed.

Lemma deleted_is_unsupported (key : string) :
  deleted_by_cleanSchema key = true → unsupported_keyword key = true.
Proof.
  unfold deleted_by_cleanSchema, unsupported_keyword. intros ->. reflexivity.
Qed.

(** X21.  [cleanJsonSchema] is idempotent, and the schemas it leaves as they
    are are exactly those that mention none of the three keywords. *)
Theorem cleanJsonSchema_fixpoints (schema : JsVal) :
  cleanJsonSchema (cleanJsonSchema schema) = cleanJsonSchema schema ∧
  (cleanJsonSchema schema = schema ↔ mentions unsupported_keyword schema = false).
Proof.
  split; [apply cleanJsonSchema_id, cleanJsonSchema_clean|].
  split; [|apply cleanJsonSchema_id].
  intros Hfix. rewrite <- Hfix. apply cleanJsonSchema_clean.
Qed.

Lemma cleanJsonSchema_get_unsupported (key : string) (schema : JsVal) :
  unsupported_keyword key = true → get key (cleanJsonSchema schema) = VUndef.
Proof.
  intros Hkey. destruct schema as [| | | | |items|fields]; try reflexivity.
  rewrite cleanJsonSchema_object. cbn [get].
  induction fields as [|[k v] fields IH]; [reflexivity|].
  cbn [List.filter fst snd]. destruct (unsupported_keyword k) eqn:Hk; cbn [negb];
    [exact IH|].
  cbn [map assoc fst snd]. destruct (String.eqb_spec k key) as [->|_]; [congruence|].
  exact IH.
Qed.

Lemma cleanJsonSchema_step (s : Step) (schema : JsVal) :
  supported_path [s] = true →
  step_into (cleanJsonSchema schema) s = cleanJsonSchema (step_into schema s).
Proof.
  destruct s as [key|index]; cbn [supported_path forallb step_into].
  - rewrite andb_true_r, negb_true_iff. apply cleanJsonSchema_get.
  - intros _. destruct schema as [| | | | |items|fields]; try reflexivity.
    cbn [cleanJsonSchema].
    change VUndef with (cleanJsonSchema VUndef) at 1. apply map_nth.
Qed.

(** X22.  Cleaning commutes with looking into a schema: along every path
    of property names and array positions that names none of the three
    keywords, the cleaned schema holds the cleaned value of what the
    original held there (and nothing where the original held nothing);
    one step further, under any of the three keywords, it holds nothing. *)
Theorem cleanJsonSchema_at_path (schema : JsVal) (path : list Step) :
  supported_path path = true →
  at_path (cleanJsonSchema schema) path = cleanJsonSchema (at_path schema path) ∧
  ∀ key, unsupported_keyword key = true →
         at_path (cleanJsonSchema schema) (path ++ [Property key]) = VUndef.
Proof.
  intros Hpath.
  assert (at_path (cleanJsonSchema schema) path = cleanJsonSchema (at_path schema path))
    as Hcommute.
  { revert schema. induction path as [|s path IH]; intros schema; [reflexivity|].
    cbn [supported_path forallb] in Hpath. apply andb_true_iff in Hpath as [Hs Hrest].
    unfold at_path. cbn [foldl]. rewrite cleanJsonSchema_step.
    - by apply IH.
    - cbn [supported_path forallb]. by rewrite Hs. }
  split; [exact Hcommute|].
  intros key Hkey. unfold at_path in *. rewrite foldl_app. cbn [foldl step_into].
  rewrite Hcommute. by apply cleanJsonSchema_get_unsupported.
Qed.

Lemma cleanSchema_clean (schema : JsVal) :
  mentions deleted_by_cleanSchema (cleanSchema schema) = false.
Proof.
  induction schema as [| | | | |items IH|fields IH] using JsVal_induction; try reflexivity.
  - cbn [cleanSchema mentions].
    induction IH as [|item items Hitem _ IHitems]; [reflexivity|].
    cbn [map existsb]. by rewrite Hitem, IHitems.
  - rewrite cleanSchema_object. cbn [mentions].
    induction IH as [|[key v] fields Hv _ IHfields]; [reflexivity|].
    cbn [List.filter fst snd] in *.
    destruct (deleted_by_cleanSchema key) eqn:Hkey; cbn [negb]; [exact IHfields|].
    cbn [map existsb fst snd]. by rewrite Hkey, Hv, IHfields.
Qed.

Lemma cleanJsonSchema_after_cleanSchema (schema : JsVal) :
  cleanJsonSchema (cleanSchema schema) = cleanJsonSchema schema.
Proof.
  induction schema as [| | | | |items IH|fields IH] using JsVal_induction; try reflexivity.
  - cbn [cleanSchema cleanJsonSchema]. f_equal. rewrite map_map.
    induction IH as [|item items Hitem _ IHitems]; [reflexivity|].
    cbn [map]. by rewrite Hitem, IHitems.
  - rewrite cleanSchema_object, !cleanJsonSchema_object. f_equal.
    induction IH as [|[key v] fields Hv _ IHfields]; [reflexivity|].
    cbn [List.filter fst snd] in *.
    destruct (deleted_by_cleanSchema key) eqn:Hdel; cbn [negb].
    + rewrite (deleted_is_unsupported key Hdel). cbn [negb]. exact IHfields.
    + cbn [map List.filter fst snd].
      destruct (unsupported_keyword key); cbn [negb]; [exact IHfields|].
      cbn [map fst snd]. by rewrite Hv, IHfields.
Qed.

Lemma mentions_deleted_unsupported (schema : JsVal) :
  mentions unsupported_keyword schema = false →
  mentions deleted_by_cleanSchema schema = false.
Proof.
  induction schema as [| | | | |items IH|fields IH] using JsVal_induction; try reflexivity.
  - cbn [mentions]. induction IH as [|item items Hitem _ IHitems]; [reflexivity|].
    cbn [existsb]. intros Hno. apply orb_false_iff in Hno as [Hno1 Hno2].
    by rewrite Hitem, IHitems.
  - cbn [mentions]. induction IH as [|[key v] fields Hv _ IHfields]; [reflexivity|].
    cbn [existsb fst snd] in *. intros Hno. apply orb_false_iff in Hno as [Hno1 Hno2].
    apply orb_false_iff in Hno1 as [Hkey Hval].
    rewrite Hv, IHfields by done. rewrite orb_false_r.
    destruct (deleted_by_cleanSchema key) eqn:Hdel; [|reflexivity].
    by rewrite (deleted_is_unsupported key Hdel) in Hkey.
Qed.

Lemma cleanSchema_id (schema : JsVal) :
  mentions deleted_by_cleanSchema schema = false → cleanSchema schema = schema.
Proof.
  induction schema as [| | | | |items IH|fields IH] using JsVal_induction; try reflexivity.
  - cbn [cleanSchema mentions]. intros Hno. f_equal.
    induction IH as [|item items Hitem _ IHitems]; [reflexivity|].
    cbn [existsb] in Hno. apply orb_false_iff in Hno as [Hno1 Hno2].
    cbn [map]. by rewrite Hitem, IHitems.
  - rewrite cleanSchema_object. cbn [mentions]. intros Hno. f_equal.
    induction IH as [|[key v] fields Hv _ IHfields]; [reflexivity|].
    cbn [existsb fst snd] in Hno. apply orb_false_iff in Hno as [Hno1 Hno2].
    apply orb_false_iff in Hno1 as [Hkey Hval].
    cbn [List.filter fst snd] in *. rewrite Hkey. cbn [negb map fst snd].
    by rewrite Hv, IHfields.
Qed.

(** X23.  The in-place helper [cleanSchema] of the AI-SDK variant does part
    of the work of [cleanJsonSchema]: its result mentions neither [$schema]
    nor [exclusiveMinimum]; cleaning with [cleanJsonSchema] before or after
    it gives what [cleanJsonSchema] alone gives; and the two agree on a
    schema exactly when the helper's result has no [exclusiveMaximum]
    left. *)
Theorem cleanSchema_is_weaker (schema : JsVal) :
  mentions deleted_by_cleanSchema (cleanSchema schema) = false ∧
  cleanJsonSchema (cleanSchema schema) = cleanJsonSchema schema ∧
  cleanSchema (cleanJsonSchema schema) = cleanJsonSchema schema ∧
  (cleanSchema schema = cleanJsonSchema schema ↔
   mentions (String.eqb "exclusiveMaximum") (cleanSchema schema) = false).
Proof.
  split; [apply cleanSchema_clean|].
  split; [apply cleanJsonSchema_after_cleanSchema|].
  split.
  { apply cleanSchema_id, mentions_deleted_unsupported, cleanJsonSchema_clean. }
  split.
  - intros Heq. rewrite Heq.
    pose proof (cleanJsonSchema_clean schema) as Hclean.
    revert Hclean. generalize (cleanJsonSchema schema). intros cleaned.
    induction cleaned as [| | | | |items IH|fields IH] using JsVal_induction;
      try reflexivity.
    + cbn [mentions]. induction IH as [|item items Hitem _ IHitems]; [reflexivity|].
      cbn [existsb]. intros Hno. apply orb_false_iff in Hno as [Hno1 Hno2].
      by rewrite Hitem, IHitems.
    + cbn [mentions]. induction IH as [|[key v] fields Hv _ IHfields]; [reflexivity|].
      cbn [existsb fst snd] in *. intros Hno. apply orb_false_iff in Hno as [Hno1 Hno2].
      apply orb_false_iff in Hno1 as [Hkey Hval].
      rewrite Hv, IHfields by done. rewrite !orb_false_r.
      unfold unsupported_keyword in Hkey.
      apply orb_false_iff in Hkey as [_ Hmax]. by rewrite String.eqb_sym.
  - intros Hmax. rewrite <- (cleanJsonSchema_after_cleanSchema schema).
    symmetry. apply cleanJsonSchema_id.
    pose proof (cleanSchema_clean schema) as Hclean.
    revert Hmax Hclean. generalize (cleanSchema schema). intros cleaned.
    induction cleaned as [| | | | |items IH|fields IH] using JsVal_induction;
      try reflexivity.
    + cbn [mentions]. induction IH as [|item items Hitem _ IHitems]; [reflexivity|].
      cbn [existsb]. intros Hmax Hno.
      apply orb_false_iff in Hmax as [Hmax1 Hmax2].
      apply orb_false_iff in Hno as [Hno1 Hno2].
      by rewrite Hitem, IHitems.
    + cbn [mentions]. induction IH as [|[key v] fields Hv _ IHfields]; [reflexivity|].
      cbn [existsb fst snd] in *. intros Hmax Hno.
      apply orb_false_iff in Hmax as [Hmax1 Hmax2].
      apply orb_false_iff in Hno as [Hno1 Hno2].
      apply orb_false_iff in Hmax1 as [Hkmax Hvmax].
      apply orb_false_iff in Hno1 as [Hkdel Hvdel].
      rewrite Hv, IHfields by done. rewrite !orb_false_r.
      unfold deleted_by_cleanSchema in Hkdel. unfold unsupported_keyword.
      rewrite Hkdel. by rewrite String.eqb_sym.
Qed.

(** ** Model management: what [setModel] writes and what it answers *)

Section SetModelProperties.

Variable trim : string → string.
Variable isOllamaModel : string → Settled bool.
Variable writeConfig : ModelsConfig → bool.

(** Where a determined provider comes from *)
Lemma determine_provider_Determined (availableModels : list ModelEntry) (modelId : string)
    (providerHint determinedProvider warningMessage : option string) :
  determine_provider isOllamaModel availableModels modelId providerHint =
    Determined determinedProvider warningMessage →
  (str_truthy providerHint = true → determinedProvider = providerHint) ∧
  (str_truthy providerHint = false →
   (∃ m, m ∈ availableModels ∧ entry_id m = modelId ∧
         entry_provider m = determinedProvider) ∨
   (isOllamaModel modelId = Fulfilled true ∧ determinedProvider = Some "ollama")).
Proof.
  unfold determine_provider. cbv zeta.
  destruct (str_truthy providerHint) eqn:Hhint.
  - destruct providerHint as [hint|]; [|discriminate].
    cbn [default from_option]. unfold Datatypes.id. intros Hdet.
    split; [intros _ | discriminate].
    destruct (match find _ availableModels with Some _ => _ | None => _ end).
    + by inversion Hdet.
    + destruct (String.eqb_spec hint "ollama") as [->|_]; [by inversion Hdet | discriminate].
  - intros Hdet. split; [discriminate | intros _].
    destruct (find _ availableModels) as [m|] eqn:Hfind.
    + left. apply find_some in Hfind as [Hin Hid].
      exists m. apply list_elem_of_In in Hin. apply String.eqb_eq in Hid.
      inversion Hdet; subst. by repeat split.
    + right. destruct (isOllamaModel modelId) as [[|]|]; try discriminate.
      by inversion Hdet.
Qed.

(** X24.  [setModel] hands a configuration to [writeConfig] only after the
    configuration file was found, the role is one of the four known roles,
    the model id is a string that is not blank, and a provider was
    determined.  That configuration differs from the current one only at
    the role: there the provider and the model id are the new ones and
    every other setting (such as [maxTokens]) is kept.  The provider is the
    hint when a hint was given, else the one the list of available models
    gives for the model (or [ollama] when [isOllamaModel] says so); the
    response is a success exactly when [writeConfig] succeeded, and
    [WRITE_ERROR] otherwise. *)
Theorem setModel_writes_only_the_role (configExists : bool)
    (availableModels : list ModelEntry) (currentConfig written : ModelsConfig)
    (role : string) (modelId : JsVal) (providerHint : option string)
    (response : SetModelResponse) :
  setModel trim isOllamaModel writeConfig configExists availableModels currentConfig role
    modelId providerHint = (response, Some written) →
  ∃ provider id settings,
    configExists = true ∧ role ∈ valid_roles ∧ modelId = VStr id ∧ trim id ≠ "" ∧
    provider ≠ "" ∧
    (str_truthy providerHint = true → providerHint = Some provider) ∧
    (str_truthy providerHint = false →
     (∃ m, m ∈ availableModels ∧ entry_id m = id ∧ entry_provider m = Some provider) ∨
     (isOllamaModel id = Fulfilled true ∧ provider = "ollama")) ∧
    written !! role = Some settings ∧
    settings !! "provider" = Some (VStr provider) ∧
    settings !! "modelId" = Some (VStr id) ∧
    (∀ key, key ≠ "provider" → key ≠ "modelId" →
            settings !! key = currentConfig !! role ≫= fun old => old !! key) ∧
    (∀ r, r ≠ role → written !! r = currentConfig !! r) ∧
    response_code response = if writeConfig written then None else Some "WRITE_ERROR".
Proof.
  unfold setModel. cbv zeta.
  destruct configExists; cbn [negb]; [|discriminate].
  destruct (bool_decide (role ∈ valid_roles)) eqn:Hrole; cbn [negb]; [|discriminate].
  apply bool_decide_eq_true in Hrole.
  destruct modelId as [| | | |id| |]; try discriminate.
  destruct (String.eqb_spec (trim id) "") as [|Hblank]; [discriminate|].
  destruct (determine_provider isOllamaModel availableModels id providerHint)
    as [determinedProvider warningMessage| |] eqn:Hdet; try discriminate.
  destruct (str_truthy determinedProvider) eqn:Hprovider; cbn [negb]; [|discriminate].
  destruct determinedProvider as [provider|]; [|discriminate].
  apply str_truthy_Some in Hprovider.
  change (default "" (Some provider)) with provider.
  destruct (determine_provider_Determined _ _ _ _ _ Hdet) as [Hhint Hlisted].
  set (settings := <["modelId" := VStr id]>
                     (<["provider" := VStr provider]> (default ∅ (currentConfig !! role)))).
  intros Hrun.
  assert (written = <[role := settings]> currentConfig ∧
          response_code response = if writeConfig written then None else Some "WRITE_ERROR")
    as [-> Hcode].
  { destruct (writeConfig (<[role := settings]> currentConfig)) eqn:Hwrite;
      cbn [negb] in Hrun; inversion Hrun; subst; (split; [reflexivity|]);
      cbn [response_code]; fold settings; by rewrite Hwrite. }
  exists provider, id, settings.
  split; [reflexivity|]. split; [exact Hrole|]. split; [reflexivity|].
  split; [exact Hblank|]. split; [exact Hprovider|].
  split; [intros Hgiven; symmetry; by apply Hhint|].
  split.
  { intros Hnone. destruct (Hlisted Hnone) as [Hm|[Hollama Heq]]; [by left|].
    right. split; [exact Hollama | congruence]. }
  split; [apply lookup_insert_eq|].
  split; [subst settings; by rewrite lookup_insert_ne, lookup_insert_eq|].
  split; [subst settings; apply lookup_insert_eq|].
  split.
  - intros key Hp Hm. subst settings. rewrite !lookup_insert_ne by done.
    by destruct (currentConfig !! role).
  - split; [|exact Hcode]. intros r Hr. by rewrite lookup_insert_ne.
Qed.

End SetModelProperties.

(** X25.  In [models.js] as it stands, where [isOllamaModel] is not bound:
    a model that is not in the list of available models and comes without a
    provider hint is answered with [SET_MODEL_ERROR] and the message of the
    reference error, nothing is written, and the response
    [MODEL_NOT_FOUND_NO_HINT] is never given, whatever the arguments. *)
Theorem unlisted_model_without_hint (trim : string → string)
    (writeConfig : ModelsConfig → bool) (availableModels : list ModelEntry)
    (currentConfig : ModelsConfig) (role : string) (providerHint : option string) :
  (∀ configExists modelId,
     response_code
       (setModel trim isOllamaModel_unbound writeConfig configExists availableModels
          currentConfig role modelId providerHint).1 ≠ Some "MODEL_NOT_FOUND_NO_HINT") ∧
  (∀ id,
     role ∈ valid_roles → trim id ≠ "" → str_truthy providerHint = false →
     (∀ m, m ∈ availableModels → entry_id m ≠ id) →
     setModel trim isOllamaModel_unbound writeConfig true availableModels currentConfig
       role (VStr id) providerHint =
       (SetModelFailure "SET_MODEL_ERROR" "isOllamaModel is not defined", None)).
Proof.
  split.
  - intros configExists modelId.
    unfold setModel. cbv zeta.
    destruct configExists; [|discriminate]. cbn [negb].
    destruct (bool_decide (role ∈ valid_roles)); [|discriminate]. cbn [negb].
    destruct modelId as [| | | |id| |]; try discriminate.
    destruct (trim id =? "")%string; [discriminate|].
    assert (∀ message, determine_provider isOllamaModel_unbound availableModels id
                         providerHint ≠ EarlyReturn "MODEL_NOT_FOUND_NO_HINT" message)
      as Hnever.
    { intros message. unfold determine_provider, isOllamaModel_unbound. cbv zeta.
      destruct (str_truthy providerHint).
      - destruct (match find _ availableModels with Some _ => _ | None => _ end);
          [discriminate|].
        destruct (_ =? "ollama")%string; discriminate.
      - destruct (find _ availableModels); discriminate. }
    destruct (determine_provider isOllamaModel_unbound availableModels id providerHint)
      as [determinedProvider warningMessage|code message|error].
    + destruct (str_truthy determinedProvider); cbn [negb]; [|discriminate].
      destruct (writeConfig _); discriminate.
    + cbn [fst response_code]. intros [= ->]. by destruct (Hnever message).
    + discriminate.
  - intros id Hrole Hblank Hhint Hunlisted. unfold setModel, determine_provider. cbv zeta.
    rewrite (bool_decide_eq_true_2 _ Hrole).
    rewrite (proj2 (String.eqb_neq (trim id) "") Hblank), Hhint. cbn [negb].
    replace (find (fun m => (entry_id m =? id)%string) availableModels)
      with (@None ModelEntry); [reflexivity|].
    symmetry. clear Hrole. induction availableModels as [|m models IH]; [reflexivity|].
    cbn [find]. rewrite (proj2 (String.eqb_neq (entry_id m) id)).
    + apply IH. intros m' Hin. apply Hunlisted. by right.
    + apply Hunlisted. by left.
Qed.

(** ** Structured objects: a call that succeeds *)

Section ObjectServiceSuccess.

Variable cm : ConfigManager.
Variable host : Host.
Variable openai : ProviderFnSet.

(** X26.  An object call that the endpoint answers at once with the
    requested tool call: the caller gets the parsed arguments as
    [mainResult] after one invocation; and as the adapter always reports
    usage (missing counts as 0), a configured user id and a price lookup
    that does not fail are enough for [telemetryData] to be a record, with
    these counts, the user id, the model and the provider: the branch for
    results without usage is never taken. *)
Theorem object_call_answered_at_once (backend : Backend) (params : Params)
    (providerName modelId apiKey userId name arguments : string)
    (response : ChatCompletion) (parsedObject : JsVal) (cost : CostInfo) :
  role_configured cm host params providerName modelId →
  credential host params = Some apiKey → apiKey ≠ "" →
  str_truthy (prompt params) = true →
  plain_call params → shipped_adapter host backend openai →
  truthy (schema params) = true →
  requested_name params = VStr name → name ≠ "" →
  let request := request_of cm host generateObject (object_call_params params) modelId
                   apiKey in
  backend (object_client host request) (openai_object_request request) 0 =
    Fulfilled response →
  tool_call response = Some (name, arguments) →
  arguments ≠ "" → JSON_parse host arguments = Fulfilled parsedObject →
  getUserId cm (effective_root host params) = Some userId → userId ≠ "" →
  _getCostForModel cm providerName modelId = Fulfilled cost →
  ∃ record tr,
    run (generateObjectService cm host openai params) =
      (Return (mkServiceResult (Payload parsedObject) (Some record)), tr) ∧
    invocations tr = 1 ∧
    Telemetry.inputTokens record = default 0%Z (prompt_tokens response) ∧
    Telemetry.outputTokens record = default 0%Z (completion_tokens response) ∧
    Telemetry.userId record = userId ∧ Telemetry.modelUsed record = modelId ∧
    Telemetry.providerName record = providerName.
Proof.
  intros Hcfg Hkey Hnonempty Hprompt Hplain Hshipped Hschema Hname Hnamed request Hanswer
    Hcall Hargs Hparse Huser Huserid Hcost.
  assert (truthy (requested_name params) = true) as Htruthy
    by (rewrite Hname; by apply (str_truthy_Some name)).
  assert (valid_object_request request = true) as Hvalid.
  { unfold request. rewrite object_call_request_valid; try done. apply Hcfg. }
  destruct (object_call_request cm host params modelId apiKey Hplain)
    as (_ & _ & _ & _ & Ho).
  fold request in Ho.
  assert (generateOpenAIObject host backend request 0 =
          Fulfilled (mkResponse VUndef parsedObject
                       (Some (mkUsage (Some (default 0%Z (prompt_tokens response)))
                                      (Some (default 0%Z (completion_tokens response)))))
                       None)) as Hadapter.
  { rewrite (valid_object_request_run host backend request 0 Hvalid), Hanswer, Hcall, Ho,
      Hname.
    cbn [strict_eq_string]. rewrite String.eqb_refl.
    destruct arguments as [|c arguments]; [congruence|]. simpl. by rewrite Hparse. }
  assert (str_truthy (credential host params) = true) as Hcred
    by (rewrite Hkey; by apply str_truthy_Some).
  change (generateObjectService cm host openai params)
    with (runner_with cm host openai (logAiUsage cm host) generateObject
            (object_call_params params)).
  rewrite (runner_configured_run cm host openai (logAiUsage cm host) generateObject
             (object_call_params params) providerName modelId Hcfg Hcred Hprompt).
  change (credential host (object_call_params params)) with (credential host params).
  rewrite Hkey. cbn [default from_option]. unfold Datatypes.id. fold request.
  assert (select_fn openai generateObject request 0 = Fulfilled _) as Hfn
    by (cbn [select_fn]; rewrite Hshipped; exact Hadapter).
  rewrite (attempt_first_success _ _ _ _ _ _ _ Hfn).
  cbv zeta. unfold runner_success. cbn [usage].
  change (effective_root host (object_call_params params))
    with (effective_root host params).
  rewrite Huser, (proj2 (str_truthy_Some userId) Huserid).
  unfold try_catch at 1. rewrite try_catch_bind, logAiUsage_run, Hcost.
  eexists _, _. split; [reflexivity|]. split.
  { rewrite invocations_app, invocations_role_log. reflexivity. }
  by repeat split.
Qed.

End ObjectServiceSuccess.

(** ** The further properties on the fixtures *)

(** One rate-limit failure, then an answer: two invocations, one second of
    back-off between them. *)
Lemma executor_stops_at_first_final_answer_witness :
  run (_attemptProviderCallWithRetries (fails_once rate_limited mock_response) ∅
         "generateOpenAIText" "openai" "gpt-4o" "main") =
    (settled_outcome (fails_once rate_limited mock_response ∅ 1), rounds 0 1 ∅) ∧
  invocations (rounds 0 1 ∅) = 1 + 1.
Proof.
  apply (executor_stops_at_first_final_answer (fails_once rate_limited mock_response) ∅
           "generateOpenAIText" "openai" "gpt-4o" "main" 1).
  - unfold MAX_RETRIES. lia.
  - intros [|k] Hk; [reflexivity | lia].
  - left. reflexivity.
Defined.

(** Without a credential the runner throws an [Error] with a message only. *)
Lemma runner_rethrows_message_only_witness :
  (∃ m, Error "API key missing for provider 'openai'." = Error m) ∧
  thrown_status (Error "API key missing for provider 'openai'.") = None.
Proof.
  apply (runner_rethrows_message_only (mock_config None) (mock_host ∅)
           (mock_openai (answers mock_response))
           (logAiUsage (mock_config None) (mock_host ∅)) generateText
           (mock_params "main" (Some "Test") ∅)).
  vm_compute. reflexivity.
Defined.

(** A configuration without a provider *)
Lemma incomplete_role_configuration_witness :
  ∃ tr,
    run (_unifiedServiceRunner (config_with_provider None) (mock_host mock_env)
           (mock_openai (answers mock_response)) generateText
           (mock_params "main" (Some "Test") ∅)) =
      (Throw (Error "Critical configuration missing for role 'main': Provider: undefined, Model: llama3"),
       tr) ∧
    invocations tr = 0.
Proof.
  apply (incomplete_role_configuration (config_with_provider None) (mock_host mock_env)
           (mock_openai (answers mock_response)) generateText
           (mock_params "main" (Some "Test") ∅)).
  left. reflexivity.
Defined.

(** A configuration that names Ollama *)
Lemma unsupported_provider_configured_witness :
  run (_unifiedServiceRunner (config_with_provider (Some "ollama")) (mock_host mock_env)
         (mock_openai (answers mock_response)) generateObject
         (mock_params "main" (Some "Test") ∅)) =
    (Throw (Error "Unsupported provider configured: ollama"), []).
Proof.
  apply (unsupported_provider_configured (config_with_provider (Some "ollama"))
           (mock_host mock_env) (mock_openai (answers mock_response)) generateObject
           (mock_params "main" (Some "Test") ∅) "ollama" "llama3").
  - reflexivity.
  - discriminate.
  - discriminate.
  - vm_compute. discriminate.
  - vm_compute. reflexivity.
Defined.

(** The resolver's answer for Ollama *)
Lemma resolveApiKey_cases_witness :
  "ollama-no-key-required" ≠ "" ∧ ([] : list Event) = [] ∧
  ("ollama" = "ollama" ∧ "ollama-no-key-required" = "ollama-no-key-required" ∨
   "ollama" = "openai" ∧
   resolveEnvVariable (mock_host ∅) "OPENAI_API_KEY" None None =
     Some "ollama-no-key-required").
Proof.
  apply (resolveApiKey_cases (mock_host ∅) "ollama" None None).
  vm_compute. reflexivity.
Defined.

(** A text request carries no schema. *)
Lemma request_carries_role_configuration_witness :
  request_of (mock_config None) (mock_host mock_env) generateText
    (mock_params "main" (Some "Test") ∅) "gpt-4o" "mock-openai-key" !! "schema" = None.
Proof.
  destruct (request_carries_role_configuration (mock_config None) (mock_host mock_env)
              (mock_openai (answers mock_response)) generateText
              (mock_params "main" (Some "Test") ∅)
              (request_of (mock_config None) (mock_host mock_env) generateText
                 (mock_params "main" (Some "Test") ∅) "gpt-4o" "mock-openai-key"))
    as (providerName & modelId & apiKey & _ & _ & _ & _ & _ & _ & _ & _ & _ & Hschema & _).
  - replace (calls (run (_unifiedServiceRunner (mock_config None) (mock_host mock_env)
                          (mock_openai (answers mock_response)) generateText
                          (mock_params "main" (Some "Test") ∅))).2)
      with [request_of (mock_config None) (mock_host mock_env) generateText
              (mock_params "main" (Some "Test") ∅) "gpt-4o" "mock-openai-key"]
      by (vm_compute; reflexivity).
    apply list_elem_of_here.
  - exact Hschema.
Defined.

(** An object call without a name asks for [generated_object]. *)
Lemma facade_request_defaults_witness :
  (request_of (mock_config None) (mock_host mock_env) generateObject
     (object_call_params (mock_params "main" (Some "Test") ∅)) "gpt-4o" "mock-openai-key"
     !! "objectName" = Some (VStr "generated_object") ∧
   request_of (mock_config None) (mock_host mock_env) generateObject
     (object_call_params (mock_params "main" (Some "Test") ∅)) "gpt-4o" "mock-openai-key"
     !! "schema" = Some VUndef) ∧
  requested_name
    (mkParams "main" None None None (Some "Test") draft07_schema (Some None) None None ∅) =
    VUndef.
Proof.
  split.
  - apply (proj1 (facade_request_defaults (mock_config None) (mock_host mock_env)
                    (mock_openai (answers mock_response))
                    (mock_params "main" (Some "Test") ∅)
                    (request_of (mock_config None) (mock_host mock_env) generateObject
                       (object_call_params (mock_params "main" (Some "Test") ∅)) "gpt-4o"
                       "mock-openai-key"))).
    replace (calls (run (generateObjectService (mock_config None) (mock_host mock_env)
                           (mock_openai (answers mock_response))
                           (mock_params "main" (Some "Test") ∅))).2)
      with [request_of (mock_config None) (mock_host mock_env) generateObject
              (object_call_params (mock_params "main" (Some "Test") ∅)) "gpt-4o"
              "mock-openai-key"]
      by (vm_compute; reflexivity).
    apply list_elem_of_here.
  - apply (proj1 (proj2 (proj2
             (facade_request_defaults (mock_config None) (mock_host mock_env)
                (mock_openai (answers mock_response))
                (mkParams "main" None None None (Some "Test") draft07_schema (Some None)
                   None None ∅) ∅))) None).
    reflexivity.
Defined.

(** The fixture request, answered with the tool call, is fulfilled. *)
Lemma generateOpenAIObject_fulfils_iff_witness :
  generateOpenAIObject parsing_host answering_backend (object_request draft07_schema) 0 =
    Fulfilled (mkResponse VUndef (VObj [])
                 (Some (mkUsage (Some 7%Z) (Some 0%Z))) None).
Proof.
  apply (proj2 (generateOpenAIObject_fulfils_iff parsing_host answering_backend
                  (object_request draft07_schema) 0 _)).
  split; [vm_compute; reflexivity|].
  exists (mkCompletion (Some ("tasks_data", "{}")) (Some 7%Z) None), "tasks_data", "{}",
    (VObj []).
  split; [reflexivity|]. split; [reflexivity|]. split; [vm_compute; reflexivity|].
  split; [discriminate|]. split; reflexivity.
Defined.


(** An HTTP 429 with a plain message is retryable as it leaves the
    endpoint, and no longer as it leaves the adapter. *)
Lemma object_adapter_retry_by_message_only_witness :
  isRetryableError too_many_requests = true ∧
  ∃ e, generateOpenAIObject (mock_host ∅) (failing_backend too_many_requests)
         (object_request draft07_schema) 0 = Rejected e ∧
       isRetryableError e = isRetryableError (Error "Too Many Requests").
Proof.
  split; [reflexivity|].
  apply (proj2 (object_adapter_retry_by_message_only (mock_host ∅)
                  (failing_backend too_many_requests) (object_request draft07_schema) 0)
           too_many_requests).
  - vm_compute. reflexivity.
  - reflexivity.
  - vm_compute. reflexivity.
Defined.

(** An object call without a schema *)
Lemma missing_schema_fails_in_adapter_witness :
  run (generateObjectService (mock_config None) (mock_host mock_env)
         (shipped_openai (mock_host mock_env) answering_backend)
         (mock_params "main" (Some "Test") ∅)) =
    (Throw (Error "Schema is required for OpenAI object generation."),
     role_log "main" ++
     [EvCall (request_of (mock_config None) (mock_host mock_env) generateObject
                (object_call_params (mock_params "main" (Some "Test") ∅)) "gpt-4o"
                "mock-openai-key")]).
Proof.
  apply (missing_schema_fails_in_adapter (mock_config None) (mock_host mock_env)
           (shipped_openai (mock_host mock_env) answering_backend) answering_backend
           (mock_params "main" (Some "Test") ∅) "openai" "gpt-4o" "mock-openai-key").
  - split; [reflexivity | split; [reflexivity | discriminate]].
  - vm_compute. reflexivity.
  - discriminate.
  - reflexivity.
  - repeat split; vm_compute; reflexivity.
  - reflexivity.
  - reflexivity.
Defined.

(** An HTTP 429 of the endpoint ends the object call at once. *)
Lemma endpoint_status_is_not_retried_witness :
  isRetryableError too_many_requests = true ∧
  run (generateObjectService (mock_config None) (mock_host mock_env)
         (shipped_openai (mock_host mock_env) (failing_backend too_many_requests))
         object_params) =
    (Throw (Error "OpenAI API error during object generation: Too Many Requests"),
     role_log "main" ++
     [EvCall (request_of (mock_config None) (mock_host mock_env) generateObject
                (object_call_params object_params) "gpt-4o" "mock-openai-key")]).
Proof.
  split; [reflexivity|].
  apply (endpoint_status_is_not_retried (mock_config None) (mock_host mock_env)
           (shipped_openai (mock_host mock_env) (failing_backend too_many_requests))
           (failing_backend too_many_requests) object_params "openai" "gpt-4o"
           "mock-openai-key" too_many_requests).
  - split; [reflexivity | split; [reflexivity | discriminate]].
  - vm_compute. reflexivity.
  - discriminate.
  - reflexivity.
  - repeat split; vm_compute; reflexivity.
  - reflexivity.
  - reflexivity.
  - reflexivity.
  - reflexivity.
  - vm_compute. reflexivity.
  - vm_compute. reflexivity.
Defined.



(** A caller whose parameter object has an [objectName] property valued
    [undefined]: the default does not apply, and the adapter refuses the
    request before it reaches the endpoint. *)
Example undefined_object_name_is_refused :
  run (generateObjectService (mock_config None) (mock_host mock_env)
         (shipped_openai (mock_host mock_env) answering_backend)
         (mkParams "main" None None (Some "System") (Some "Test") draft07_schema
            (Some None) (Some "parse-prd") None ∅)) =
    (Throw (Error "Object name is required for OpenAI object generation."),
     [EvCall (request_of (mock_config None) (mock_host mock_env) generateObject
                (object_call_params
                   (mkParams "main" None None (Some "System") (Some "Test") draft07_schema
                      (Some None) (Some "parse-prd") None ∅))
                "gpt-4o" "mock-openai-key")]).
Proof. vm_compute. reflexivity. Qed.

(** An endpoint without tool support *)
Lemma tool_use_error_through_the_adapter_witness :
  run (generateObjectService (mock_config None) (mock_host mock_env)
         (shipped_openai (mock_host mock_env) (failing_backend no_tools)) object_params) =
    (Throw (Error (tool_support_message (VStr "gpt-4o"))),
     role_log "main" ++
     [EvCall (request_of (mock_config None) (mock_host mock_env) generateObject
                (object_call_params object_params) "gpt-4o" "mock-openai-key")]).
Proof.
  apply (tool_use_error_through_the_adapter (mock_config None) (mock_host mock_env)
           (shipped_openai (mock_host mock_env) (failing_backend no_tools))
           (failing_backend no_tools) object_params "openai" "gpt-4o" "mock-openai-key"
           no_tools).
  - split; [reflexivity | split; [reflexivity | discriminate]].
  - vm_compute. reflexivity.
  - discriminate.
  - reflexivity.
  - repeat split; vm_compute; reflexivity.
  - reflexivity.
  - reflexivity.
  - reflexivity.
  - reflexivity.
  - vm_compute. reflexivity.
  - vm_compute. reflexivity.
  - vm_compute. reflexivity.
Defined.

(** With the client factory of the AI-SDK variant and an SDK that answers
    with padded text, the text function fulfils. *)
Lemma generateOpenAIText_fulfils_iff_witness :
  generateOpenAIText (getClient (mock_host ∅)) (fun s => s)
    (fun _ _ _ _ _ _ => Fulfilled (Some (mkTextResult (Some " ok ") (Some 3%Z) None)))
    (object_request VUndef) 0 =
    Fulfilled (mkResponse (VStr " ok ") VUndef (Some (mkUsage (Some 3%Z) None)) None).
Proof.
  apply (proj2 (generateOpenAIText_fulfils_iff (getClient (mock_host ∅)) (fun s => s)
                  (fun _ _ _ _ _ _ =>
                     Fulfilled (Some (mkTextResult (Some " ok ") (Some 3%Z) None)))
                  (object_request VUndef) 0 _)).
  split; [vm_compute; reflexivity|].
  eexists _, (mkTextResult (Some " ok ") (Some 3%Z) None), " ok ".
  split; [vm_compute; reflexivity|]. split; [reflexivity|]. split; [reflexivity|].
  split; [discriminate | reflexivity].
Defined.

(** A text call and a stream call through the functions of [openai.js] *)
Lemma text_services_fail_on_unbound_getClient_witness :
  ∃ tr1 tr2,
    run (generateTextService (mock_config None) (mock_host mock_env) openai_js_text
           (mock_params "main" (Some "Test") ∅)) =
      (Throw (Error "getClient is not defined"), tr1) ∧ invocations tr1 = 1 ∧
    run (streamTextService (mock_config None) (mock_host mock_env) openai_js_text
           (mock_params "main" (Some "Test") ∅)) =
      (Throw (Error "getClient is not defined"), tr2) ∧ invocations tr2 = 1.
Proof.
  apply (proj2 (text_services_fail_on_unbound_getClient (mock_config None)
                  (mock_host mock_env) openai_js_text (fun s => s) silent_sdk
                  silent_stream_sdk (mock_params "main" (Some "Test") ∅) "openai" "gpt-4o"
                  "mock-openai-key")).
  - split; [reflexivity | split; [reflexivity | discriminate]].
  - vm_compute. reflexivity.
  - discriminate.
  - reflexivity.
  - repeat split; vm_compute; reflexivity.
  - split; reflexivity.
Defined.


(** Its dependency on the unknown task 3 is dropped, the one on task 1
    becomes the new id 5. *)
Lemma remapped_dependencies_point_backwards_witness :
  ∃ dependencies,
    assoc "dependencies"
      [("id", VNum 6); ("title", VStr "Build"); ("priority", VStr "high");
       ("dependencies", VArr [VNum 5]); ("status", VStr "pending");
       ("subtasks", VArr [])] = VArr (map VNum dependencies) ∧
    ∀ d, d ∈ dependencies → (5 ≤ d < 5 + Z.of_nat 1)%Z.
Proof.
  apply (proj1 (remapped_dependencies_point_backwards no_lookup [] 5 generated_tasks) 1).
  vm_compute. reflexivity.
Defined.

(** Appending the two generated tasks to the stored one *)
Lemma append_extends_the_task_list_witness :
  ∃ nextId,
    parsePRD_tasks no_lookup true true false stored_tasks generated_tasks =
      Wrote ([VObj [("id", VNum 4); ("title", VStr "Old")]] ++
             map VObj (new_tasks no_lookup [VObj [("id", VNum 4); ("title", VStr "Old")]]
                         nextId generated_tasks)) ∧
    nextId = (max_id [VObj [("id", VNum 4); ("title", VStr "Old")]] + 1)%Z ∧
    (∀ t, t ∈ [VObj [("id", VNum 4); ("title", VStr "Old")]] → (id_or_0 t < nextId)%Z) ∧
    (NoDup (task_ids [VObj [("id", VNum 4); ("title", VStr "Old")]]) →
     NoDup (task_ids ([VObj [("id", VNum 4); ("title", VStr "Old")]] ++
                      map VObj (new_tasks no_lookup
                                  [VObj [("id", VNum 4); ("title", VStr "Old")]]
                                  nextId generated_tasks)))).
Proof.
  apply (append_extends_the_task_list no_lookup false stored_tasks
           [VObj [("id", VNum 4); ("title", VStr "Old")]] generated_tasks).
  - reflexivity.
  - repeat constructor. exists 4%Z. split; [reflexivity|]. simpl. lia.
Defined.

(** Without a tasks file the new tasks are written, numbered from 1. *)
Lemma overwrite_needs_force_or_append_witness :
  parsePRD_tasks no_lookup false false false VNull generated_tasks =
    Wrote (map VObj (new_tasks no_lookup [] 1 generated_tasks)).
Proof.
  apply (proj2 (overwrite_needs_force_or_append no_lookup false false false VNull
                  generated_tasks)).
  left. reflexivity.
Defined.

(** The bounded schema is not a fixpoint; its cleaned form is. *)
Lemma cleanJsonSchema_fixpoints_witness :
  cleanJsonSchema (cleanJsonSchema bounded_schema) = cleanJsonSchema bounded_schema.
Proof.
  apply (proj2 (proj2 (cleanJsonSchema_fixpoints (cleanJsonSchema bounded_schema)))).
  reflexivity.
Defined.

(** The type of the [id] property, two levels down *)
Lemma cleanJsonSchema_at_path_witness :
  at_path (cleanJsonSchema draft07_schema) [Property "properties"; Property "id"] =
    cleanJsonSchema (at_path draft07_schema [Property "properties"; Property "id"]) ∧
  ∀ key, unsupported_keyword key = true →
         at_path (cleanJsonSchema draft07_schema)
           ([Property "properties"; Property "id"] ++ [Property key]) = VUndef.
Proof.
  apply (cleanJsonSchema_at_path draft07_schema [Property "properties"; Property "id"]).
  reflexivity.
Defined.

(** On the draft-07 fixture, which has no [exclusiveMaximum], the helper and
    [cleanJsonSchema] agree. *)
Lemma cleanSchema_is_weaker_witness :
  cleanSchema draft07_schema = cleanJsonSchema draft07_schema.
Proof.
  apply (proj2 (proj2 (proj2 (proj2 (cleanSchema_is_weaker draft07_schema))))).
  reflexivity.
Defined.

(** Setting the main model to a listed one keeps [maxTokens]. *)
Lemma setModel_writes_only_the_role_witness :
  ∃ provider id settings,
    true = true ∧ "main" ∈ valid_roles ∧ VStr "gpt-4o" = VStr id ∧ id ≠ "" ∧
    provider ≠ "" ∧
    (str_truthy None = true → None = Some provider) ∧
    (str_truthy None = false →
     (∃ m, m ∈ listed_models ∧ entry_id m = id ∧ entry_provider m = Some provider) ∨
     (isOllamaModel_unbound id = Fulfilled true ∧ provider = "ollama")) ∧
    (<["main" := <["modelId" := VStr "gpt-4o"]>
                   (<["provider" := VStr "openai"]>
                      (default ∅ (stored_config !! "main")))]> stored_config
       : ModelsConfig) !! "main" = Some settings ∧
    settings !! "provider" = Some (VStr provider) ∧
    settings !! "modelId" = Some (VStr id) ∧
    (∀ key, key ≠ "provider" → key ≠ "modelId" →
            settings !! key = stored_config !! "main" ≫= fun old => old !! key) ∧
    (∀ r, r ≠ "main" →
          (<["main" := <["modelId" := VStr "gpt-4o"]>
                         (<["provider" := VStr "openai"]>
                            (default ∅ (stored_config !! "main")))]> stored_config
             : ModelsConfig) !! r = stored_config !! r) ∧
    response_code
      (SetModelSuccess "main" "openai" "gpt-4o"
         "Successfully set main model to gpt-4o (Provider: openai)" None) =
    if write_ok (<["main" := <["modelId" := VStr "gpt-4o"]>
                               (<["provider" := VStr "openai"]>
                                  (default ∅ (stored_config !! "main")))]> stored_config)
    then None else Some "WRITE_ERROR".
Proof.
  apply (setModel_writes_only_the_role (fun s => s) isOllamaModel_unbound write_ok true
           listed_models stored_config _ "main" (VStr "gpt-4o") None _).
  vm_compute. reflexivity.
Defined.

(** A model that is not listed, set without a hint *)
Lemma unlisted_model_without_hint_witness :
  setModel (fun s => s) isOllamaModel_unbound write_ok true listed_models stored_config
    "main" (VStr "my-model") None =
    (SetModelFailure "SET_MODEL_ERROR" "isOllamaModel is not defined", None).
Proof.
  apply (proj2 (unlisted_model_without_hint (fun s => s) write_ok listed_models
                  stored_config "main" None) "my-model").
  - unfold valid_roles. apply list_elem_of_here.
  - discriminate.
  - reflexivity.
  - intros m Hin. apply list_elem_of_singleton in Hin. rewrite Hin. discriminate.
Defined.

(** The PRD parser's object call, answered at once, for a configured user *)
Lemma object_call_answered_at_once_witness :
  ∃ record tr,
    run (generateObjectService (mock_config (Some "user-1")) parsing_host
           (shipped_openai parsing_host answering_backend) object_params) =
      (Return (mkServiceResult (Payload (VObj [])) (Some record)), tr) ∧
    invocations tr = 1 ∧
    Telemetry.inputTokens record = 7%Z ∧ Telemetry.outputTokens record = 0%Z ∧
    Telemetry.userId record = "user-1" ∧ Telemetry.modelUsed record = "gpt-4o" ∧
    Telemetry.providerName record = "openai".
Proof.
  apply (object_call_answered_at_once (mock_config (Some "user-1")) parsing_host
           (shipped_openai parsing_host answering_backend) answering_backend
           object_params "openai" "gpt-4o" "mock-openai-key" "user-1" "tasks_data" "{}"
           (mkCompletion (Some ("tasks_data", "{}")) (Some 7%Z) None) (VObj [])
           (mkCostInfo 5 15 "USD")).
  - split; [reflexivity | split; [reflexivity | discriminate]].
  - vm_compute. reflexivity.
  - discriminate.
  - reflexivity.
  - repeat split; vm_compute; reflexivity.
  - reflexivity.
  - reflexivity.
  - reflexivity.
  - discriminate.
  - reflexivity.
  - reflexivity.
  - discriminate.
  - reflexivity.
  - reflexivity.
  - discriminate.
  - reflexivity.
Defined.
